(** * Email-automator console: the API client and the panels' local logic

    A shallow embedding of [src/App.tsx].  The asynchronous handlers are
    written as values of a small request/continuation type, so that "the
    network layer is not invoked" is a statement about the handler's result;
    the platform (fetch, the Response object, localStorage, the clock) is
    the environment and enters as data. *)

From Stdlib Require Import ZArith String Ascii List Bool Lia.
From stdpp Require Import base strings list gmap pretty.

Open Scope Z_scope.
Open Scope list_scope.

(** ** JavaScript values as the code meets them *)

Module Js.

(** What [JSON.parse] and [res.json()] produce.  Numbers are the integers
    (statuses, counts and timestamps are all the console handles).  An
    object is the list of its own properties in insertion order. *)
#[warnings="-register-all"]
Inductive json : Type :=
| JNull
| JBool (b : bool)
| JNum (n : Z)
| JStr (s : string)
| JArr (items : list json)
| JObj (fields : list (string * json)).

(** A value that may be [undefined], which is [None]. *)
Definition jsval : Type := option json.

Inductive jstype : Type := TUndefined | TObject | TBoolean | TNumber | TString.

(** [typeof v]; note [typeof null === 'object'], and so are arrays. *)
Definition typeof (v : jsval) : jstype :=
  match v with
  | None => TUndefined
  | Some JNull => TObject
  | Some (JBool _) => TBoolean
  | Some (JNum _) => TNumber
  | Some (JStr _) => TString
  | Some (JArr _) => TObject
  | Some (JObj _) => TObject
  end.

Definition jstype_eqb (a b : jstype) : bool :=
  match a, b with
  | TUndefined, TUndefined | TObject, TObject | TBoolean, TBoolean
  | TNumber, TNumber | TString, TString => true
  | _, _ => false
  end.

(** ToBoolean. *)
Definition truthy (v : jsval) : bool :=
  match v with
  | None => false
  | Some JNull => false
  | Some (JBool b) => b
  | Some (JNum n) => negb (n =? 0)%Z
  | Some (JStr s) => negb (s =? "")%string
  | Some (JArr _) => true
  | Some (JObj _) => true
  end.

(** [a && b] and [a || b] return one of their operands. *)
Definition js_and (a b : jsval) : jsval := if truthy a then b else a.
Definition js_or (a b : jsval) : jsval := if truthy a then a else b.
Definition js_bool (b : bool) : jsval := Some (JBool b).

Fixpoint assoc (k : string) (fields : list (string * json)) : jsval :=
  match fields with
  | [] => None
  | (k', v) :: rest => if (k' =? k)%string then Some v else assoc k rest
  end.

(** [data?.k] for a data property name [k]: [undefined] on [null] and
    [undefined], on primitives and on arrays (whose own properties are
    indices), the stored value on an object that has it. *)
Definition opt_get (data : jsval) (k : string) : jsval :=
  match data with
  | Some (JObj fields) => assoc k fields
  | _ => None
  end.

(** *** Number::toString

    A number of the model is an integer literal; the value JavaScript holds
    for it is the nearest double, and its text is the shortest decimal that
    reads back as that double. *)

(** The double nearest to [m] (for [0 <= m]), ties to even; [None] when
    that is [Infinity]. *)
Definition nearest_double (m : Z) : option Z :=
  if (m <? 2 ^ 53)%Z then Some m
  else
    let shift := (Z.log2 m - 52)%Z in
    let q := Z.shiftr m shift in
    let r := (m - Z.shiftl q shift)%Z in
    let half := Z.shiftl 1 (shift - 1) in
    let q' := if ((half <? r) || ((r =? half) && Z.odd q))%bool then (q + 1)%Z else q in
    let d := Z.shiftl q' shift in
    if (d <? 2 ^ 1024)%Z then Some d else None.

Definition reads_back (x c : Z) : bool :=
  match nearest_double c with
  | Some d => (d =? x)%Z
  | None => false
  end.

(** Among the multiples of [u] next to [x], the one that reads back as [x];
    the closer one when both do, the one with the even digit string on a
    tie. *)
Definition pick (x u : Z) : option Z :=
  let lo := (x / u * u)%Z in
  let hi := (lo + u)%Z in
  if (lo =? x)%Z then Some x
  else
    match reads_back x lo, reads_back x hi with
    | true, true =>
        if (x - lo <? hi - x)%Z then Some lo
        else if (hi - x <? x - lo)%Z then Some hi
        else if Z.even (lo / u) then Some lo else Some hi
    | true, false => Some lo
    | false, true => Some hi
    | false, false => None
    end.

(** The decimal with the most trailing zeros that still reads back as [x],
    with the number of those zeros. *)
Fixpoint shortest (fuel : nat) (x p best : Z) : Z * Z :=
  match fuel with
  | O => (best, p)
  | S fuel' =>
      match pick x (10 ^ (p + 1)) with
      | Some c => shortest fuel' x (p + 1) c
      | None => (best, p)
      end
  end.

(** [d.ddde+x], for a number of [n] digits, [21 < n]. *)
Definition scientific (digits : string) (n : Z) : string :=
  match digits with
  | EmptyString => EmptyString
  | String d EmptyString => String d "e+" +:+ pretty (n - 1)%Z
  | String d rest => String d (String "." rest) +:+ "e+" +:+ pretty (n - 1)%Z
  end.

Definition number_to_string (z : Z) : string :=
  if (z =? 0)%Z then "0"
  else
    (if (z <? 0)%Z then "-" else "") +:+
    match nearest_double (Z.abs z) with
    | None => "Infinity"
    | Some x =>
        let '(c, p) := shortest 330 x 0 x in
        let n := Z.of_nat (String.length (pretty c)) in
        if (n <=? 21)%Z then pretty c else scientific (pretty (c / 10 ^ p)%Z) n
    end.

Definition has_key (k : string) (fields : list (string * json)) : bool :=
  existsb (fun p => (fst p =? k)%string) fields.

(** Whether ToString gives a text at all.  A parsed object has no method
    of its own: with an own [toString] property (not callable) the
    conversion finds nothing to call that yields a primitive and throws a
    TypeError; without one, [Object.prototype.toString] answers.  An array
    converts its elements, [null] apart. *)
Fixpoint has_text (v : json) : bool :=
  match v with
  | JArr items => forallb has_text items
  | JObj fields => negb (has_key "toString" fields)
  | _ => true
  end.

(** ToString of a value that has a text. *)
Fixpoint to_string (v : json) : string :=
  match v with
  | JNull => "null"
  | JBool true => "true"
  | JBool false => "false"
  | JNum n => number_to_string n
  | JStr s => s
  | JArr items =>
      String.concat ","
        (List.map (fun x => match x with JNull => "" | _ => to_string x end) items)
  | JObj _ => "[object Object]"
  end.

(** Thrown values: the two properties the code reads. *)
Record JsError : Type := mkJsError { err_name : string; err_message : string }.

Definition NO_PRIMITIVE : JsError :=
  {| err_name := "TypeError"; err_message := "Cannot convert object to primitive value" |}.

(** What [throw new Error(m)] raises: the new error, whose message is the
    text of [m] (an absent message leaves the prototype's empty one), or,
    when [m] has no text, the TypeError of the conversion. *)
Definition new_Error (m : jsval) : JsError :=
  match m with
  | Some v =>
      if has_text v then {| err_name := "Error"; err_message := to_string v |}
      else NO_PRIMITIVE
  | None => {| err_name := "Error"; err_message := "" |}
  end.

(** How a promise settles. *)
Inductive outcome (A : Type) : Type :=
| Resolved (a : A)
| Rejected (e : JsError).
Arguments Resolved {A} a.
Arguments Rejected {A} e.

(** [`${v}`]: the text of [v], or the TypeError of the conversion. *)
Definition template_text (v : jsval) : outcome string :=
  match v with
  | None => Resolved "undefined"
  | Some j => if has_text j then Resolved (to_string j) else Rejected NO_PRIMITIVE
  end.

Definition bind {A B} (m : outcome A) (f : A -> outcome B) : outcome B :=
  match m with
  | Resolved a => f a
  | Rejected e => Rejected e
  end.

Definition map_outcome {A B} (f : A -> B) (m : outcome A) : outcome B :=
  bind m (fun a => Resolved (f a)).

(** [s.indexOf(pat)], [-1] when [pat] does not occur. *)
Definition indexOf (s pat : string) : Z :=
  match String.index 0 pat s with
  | Some n => Z.of_nat n
  | None => (-1)%Z
  end.

(** [pat] occurs in [s]: the meaning of "includes the substring". *)
Definition occurs (pat s : string) : Prop :=
  exists pre post, s = pre +:+ pat +:+ post.

(** [s.split(sep)] for a one-character separator: never empty. *)
Fixpoint split_on (sep : ascii) (s : string) : list string :=
  match s with
  | EmptyString => [EmptyString]
  | String c rest =>
      if Ascii.eqb c sep then EmptyString :: split_on sep rest
      else match split_on sep rest with
           | [] => [String c EmptyString]
           | seg :: segs => String c seg :: segs
           end
  end.

(** [String.prototype.toLowerCase] follows the Unicode tables of the
    platform; the handlers that call it take it as a parameter.  What it
    does to a string of ASCII characters is [toLowerCase_ascii]. *)
Definition lower_ascii (c : ascii) : ascii :=
  let n := nat_of_ascii c in
  if ((65 <=? n)%nat && (n <=? 90)%nat)%bool then ascii_of_nat (n + 32) else c.

Fixpoint toLowerCase_ascii (s : string) : string :=
  match s with
  | EmptyString => EmptyString
  | String c rest => String (lower_ascii c) (toLowerCase_ascii rest)
  end.

(** [s.replace(c, by)] with a one-character string pattern: first match only. *)
Fixpoint replace_first (c : ascii) (by_ : string) (s : string) : string :=
  match s with
  | EmptyString => EmptyString
  | String x rest =>
      if Ascii.eqb x c then by_ +:+ rest else String x (replace_first c by_ rest)
  end.

(** [s.replace(/c/g, by)]: every match. *)
Fixpoint replace_all (c : ascii) (by_ : string) (s : string) : string :=
  match s with
  | EmptyString => EmptyString
  | String x rest =>
      if Ascii.eqb x c then by_ +:+ replace_all c by_ rest
      else String x (replace_all c by_ rest)
  end.

(** [s.substring(0, n)]. *)
Definition substring_to (n : nat) (s : string) : string := String.substring 0 n s.

End Js.

(** ** The API helper *)

Module Api.
Import Js.

Definition BASE_URL : string := "https://thetechdrops.duckdns.org".

Definition NETWORK_ERROR : string :=
  "Network Error: Could not connect to server. Check your internet connection or possible CORS issues.".

(** The options a caller passes.  [body] is the document handed to
    [JSON.stringify]; its serialisation is the platform's. *)
Record RequestInit : Type := mkInit {
  init_method : option string;
  init_headers : gmap string string;
  init_body : option json
}.

(** What [fetch] is called with. *)
Record Request : Type := mkRequest {
  req_url : string;
  req_method : option string;
  req_headers : gmap string string;
  req_body : option json;
  req_mode : string
}.

(** The parts of a [Response] that [apiCall] reads.  [res_json] and
    [res_text] are what [res.json()] and [res.text()] settle to. *)
Record Response : Type := mkResponse {
  res_status : Z;
  res_statusText : string;
  res_content_type : option string;
  res_json : outcome json;
  res_text : outcome string
}.

(** [res.ok]: the status is in the range 200-299. *)
Definition res_ok (res : Response) : bool :=
  ((200 <=? res_status res)%Z && (res_status res <=? 299)%Z)%bool.

Definition Network : Type := Request -> outcome Response.

Definition default_headers : gmap string string :=
  <["Content-Type" := "application/json"]> (<["Accept" := "application/json"]> ∅).

(** [{ 'Content-Type': ..., 'Accept': ..., ...(options.headers || {}) }]:
    the caller's entries win. *)
Definition build_request (endpoint : string) (options : RequestInit) : Request :=
  {| req_url := BASE_URL +:+ endpoint;
     req_method := init_method options;
     req_headers := init_headers options ∪ default_headers;
     req_body := init_body options;
     req_mode := "cors" |}.

(** [contentType && contentType.indexOf("application/json") !== -1] *)
Definition declares_json (contentType : option string) : bool :=
  match contentType with
  | None => false
  | Some ct =>
      (negb (ct =? "")%string && negb (indexOf ct "application/json" =? -1)%Z)%bool
  end.

Definition read_body (res : Response) : outcome json :=
  if declares_json (res_content_type res) then res_json res
  else map_outcome JStr (res_text res).

(** [`Server Error: ${res.status} ${res.statusText}`] *)
Definition server_error_text (res : Response) : string :=
  "Server Error: " +:+ pretty (res_status res) +:+ " " +:+ res_statusText res.

(** The chain of [||] that picks the message of a non-2xx response. *)
Definition errorMessage (res : Response) (data : json) : jsval :=
  let is_object := js_bool (jstype_eqb (typeof (Some data)) TObject) in
  let is_string := js_bool (jstype_eqb (typeof (Some data)) TString) in
  js_or (js_and is_object (opt_get (Some data) "error"))
 (js_or (js_and is_object (opt_get (Some data) "message"))
 (js_or (js_and is_string (Some data))
        (Some (JStr (server_error_text res))))).

(** [if (!res.ok) throw new Error(errorMessage); return data] *)
Definition check_status (res : Response) (data : json) : outcome json :=
  if negb (res_ok res) then Rejected (new_Error (errorMessage res data))
  else Resolved data.

(** The body of the [try] block. *)
Definition apiCall_try (net : Network) (endpoint : string) (options : RequestInit)
  : outcome json :=
  bind (net (build_request endpoint options)) (fun res =>
  bind (read_body res) (check_status res)).

(** [err.message === "Failed to fetch" || err.name === "TypeError"] *)
Definition looks_like_network_failure (err : JsError) : bool :=
  ((err_message err =? "Failed to fetch")%string || (err_name err =? "TypeError")%string)%bool.

(** The [catch] block: what is logged and what is thrown on. *)
Definition apiCall_catch (suppressLog : bool) (err : JsError) : list JsError * JsError :=
  (if suppressLog then [] else [err],
   if looks_like_network_failure err then new_Error (Some (JStr NETWORK_ERROR)) else err).

Record ApiRun : Type := mkRun {
  run_result : outcome json;
  run_console : list JsError
}.

Definition apiCall (net : Network) (endpoint : string) (suppressLog : bool)
    (options : RequestInit) : ApiRun :=
  match apiCall_try net endpoint options with
  | Resolved data => {| run_result := Resolved data; run_console := [] |}
  | Rejected err =>
      let '(logged, thrown) := apiCall_catch suppressLog err in
      {| run_result := Rejected thrown; run_console := logged |}
  end.

(** The response's declared content type includes "application/json". *)
Definition declared_json (res : Response) : Prop :=
  exists ct, res_content_type res = Some ct /\ occurs "application/json" ct.

(** The body offers no message: an object without a truthy [error] or
    [message], an empty text, or any other kind of value. *)
Definition offers_no_message (data : json) : Prop :=
  match data with
  | JObj fields => truthy (assoc "error" fields) = false /\
                   truthy (assoc "message" fields) = false
  | JStr s => s = ""
  | _ => True
  end.

End Api.

(** ** Handlers that await the network

    An asynchronous handler either finishes on its own or issues one
    [apiCall] and goes on with whatever that call settles to.  [pending] is
    the component state while the call is in flight. *)

Module Handler.
Import Js Api.

Inductive Action (St : Type) : Type :=
| Done (final : St)
| Call (pending : St) (endpoint : string) (options : RequestInit)
       (k : outcome json -> Action St).
Arguments Done {St} final.
Arguments Call {St} pending endpoint options k.

(** The session's network: the [n]-th fetch is answered by [w n]. *)
Definition World : Type := nat -> Network.

(** Runs a handler against a world from fetch number [n] on; returns the
    final state and the requests that reached [fetch], in order. *)
Fixpoint run {St} (w : World) (n : nat) (a : Action St) : St * list Request :=
  match a with
  | Done s => (s, [])
  | Call _ endpoint options k =>
      let settled := run_result (apiCall (w n) endpoint false options) in
      let '(s, reqs) := run w (S n) (k settled) in
      (s, build_request endpoint options :: reqs)
  end.

(** [{ 'Authorization': `Bearer ${token}` }] *)
Definition bearer (token : string) : gmap string string :=
  <["Authorization" := "Bearer " +:+ token]> ∅.

(** [data.k] (no optional chaining): reading a property of [null] throws. *)
Definition get (data : json) (k : string) : outcome jsval :=
  match data with
  | JNull =>
      Rejected {| err_name := "TypeError";
                  err_message := "Cannot read properties of null (reading '" +:+ k +:+ "')" |}
  | _ => Resolved (opt_get (Some data) k)
  end.

(** A [File] as the panels use it: what reading it as a data URL gives. *)
Record File : Type := mkFile { file_data_url : outcome string }.

(** [(reader.result as string).split(',')[1]] *)
Definition fileToBase64 (file : File) : outcome jsval :=
  map_outcome (fun url => JStr <$> nth_error (split_on "," url) 1) (file_data_url file).

(** An object literal: a property whose value is [undefined] is not
    serialised. *)
Definition obj (props : list (string * jsval)) : json :=
  JObj (List.flat_map (fun p => match snd p with Some v => [(fst p, v)] | None => [] end) props).

(** [`<html><body>${body.replace(/\n/g, '<br/>')}</body></html>`] *)
Definition html_envelope (body : string) : string :=
  "<html><body>" +:+ replace_all "010"%char "<br/>" body +:+ "</body></html>".

(** [t.replace('T', ' ').substring(0, 16)] *)
Definition normalize_timestamp (t : string) : string :=
  substring_to 16 (replace_first "T"%char " " t).

End Handler.

(** ** The two collections kept in localStorage *)

Module Store.
Import Js.

Record Template : Type := mkTemplate {
  tpl_id : string;
  tpl_name : string;
  tpl_subject : string;
  tpl_body : string
}.

Record Sender : Type := mkSender {
  email : string;
  password : option string
}.

(** localStorage.  A stored text is identified with the JSON document it
    denotes ([JSON.parse] undoes [JSON.stringify] on documents); what the
    model spells out is the passage between typed values and documents. *)
Abbreviation Storage := (gmap string json).

Definition template_to_json (t : Template) : json :=
  JObj [("id", JStr (tpl_id t)); ("name", JStr (tpl_name t));
        ("subject", JStr (tpl_subject t)); ("body", JStr (tpl_body t))].

Definition get_string (j : json) (k : string) : option string :=
  match opt_get (Some j) k with
  | Some (JStr s) => Some s
  | _ => None
  end.

(** Reading a document at the declared type [Template]. *)
Definition template_of_json (j : json) : option Template :=
  i ← get_string j "id";
  n ← get_string j "name";
  s ← get_string j "subject";
  b ← get_string j "body";
  Some (mkTemplate i n s b).

(** [password?: string]: an undefined password is not serialised. *)
Definition sender_to_json (s : Sender) : json :=
  JObj (("email", JStr (email s)) ::
        match password s with
        | Some p => [("password", JStr p)]
        | None => []
        end).

Definition sender_of_json (j : json) : option Sender :=
  e ← get_string j "email";
  match opt_get (Some j) "password" with
  | None => Some (mkSender e None)
  | Some (JStr p) => Some (mkSender e (Some p))
  | Some _ => None
  end.

(** [JSON.stringify(list)] *)
Definition stringify {A} (enc : A -> json) (l : list A) : json := JArr (List.map enc l).

(** [JSON.parse(text)] read at the declared array type; [None] when the
    document is not of that type, which the typed state cannot hold. *)
Definition parse {A} (dec : json -> option A) (doc : json) : option (list A) :=
  match doc with
  | JArr items => mapM dec items
  | _ => None
  end.

(** [arr.findIndex(p)], [-1] when no element satisfies [p]. *)
Fixpoint findIndex {A} (p : A -> bool) (l : list A) : Z :=
  match l with
  | [] => (-1)%Z
  | x :: rest =>
      if p x then 0%Z
      else let i := findIndex p rest in
           if (i <? 0)%Z then (-1)%Z else (i + 1)%Z
  end.

(** [arr.find(p)] *)
Definition find {A} (p : A -> bool) (l : list A) : option A := List.find p l.

End Store.

(** ** Schedule panel *)

Module ScheduleEmails.
Import Js Api Handler Store.

Record Receiver : Type := mkReceiver {
  receiverMail : string;
  receiverDomain : string;
  receiverName : string;
  scheduledDateTime : string
}.

Inductive Mode : Type := manual | csv.

Inductive MsgType : Type := success | error.
Record Msg : Type := mkMsg { msg_type : MsgType; msg_text : string }.

(** [currentTemplate] *)
Record Draft : Type := mkDraft {
  draft_subject : string;
  draft_body : string;
  draft_name : string
}.

(** The component state the handlers read or write (the flags that only
    drive rendering are left out). *)
Record State : Type := mkState {
  senders : list Sender;
  savedSenders : list Sender;
  mode : Mode;
  receivers : list Receiver;
  csvFile : option File;
  templates : list Template;
  selectedTemplateId : string;
  currentTemplate : Draft;
  isTemplateModalOpen : bool;
  loading : bool;
  responseMsg : option Msg
}.

Definition initial : State :=
  {| senders := [mkSender "" (Some "")];
     savedSenders := [];
     mode := manual;
     receivers := [mkReceiver "" "" "" ""];
     csvFile := None;
     templates := [];
     selectedTemplateId := "";
     currentTemplate := mkDraft "" "" "";
     isTemplateModalOpen := false;
     loading := false;
     responseMsg := None |}.

Definition setTemplates (v : list Template) (st : State) : State :=
  mkState (senders st) (savedSenders st) (mode st) (receivers st) (csvFile st)
    v (selectedTemplateId st) (currentTemplate st) (isTemplateModalOpen st)
    (loading st) (responseMsg st).
Definition setSavedSenders (v : list Sender) (st : State) : State :=
  mkState (senders st) v (mode st) (receivers st) (csvFile st)
    (templates st) (selectedTemplateId st) (currentTemplate st) (isTemplateModalOpen st)
    (loading st) (responseMsg st).
Definition setSelectedTemplateId (v : string) (st : State) : State :=
  mkState (senders st) (savedSenders st) (mode st) (receivers st) (csvFile st)
    (templates st) v (currentTemplate st) (isTemplateModalOpen st)
    (loading st) (responseMsg st).
Definition setCurrentTemplate (v : Draft) (st : State) : State :=
  mkState (senders st) (savedSenders st) (mode st) (receivers st) (csvFile st)
    (templates st) (selectedTemplateId st) v (isTemplateModalOpen st)
    (loading st) (responseMsg st).
Definition setIsTemplateModalOpen (v : bool) (st : State) : State :=
  mkState (senders st) (savedSenders st) (mode st) (receivers st) (csvFile st)
    (templates st) (selectedTemplateId st) (currentTemplate st) v
    (loading st) (responseMsg st).
Definition setLoading (v : bool) (st : State) : State :=
  mkState (senders st) (savedSenders st) (mode st) (receivers st) (csvFile st)
    (templates st) (selectedTemplateId st) (currentTemplate st) (isTemplateModalOpen st)
    v (responseMsg st).
Definition setResponseMsg (v : option Msg) (st : State) : State :=
  mkState (senders st) (savedSenders st) (mode st) (receivers st) (csvFile st)
    (templates st) (selectedTemplateId st) (currentTemplate st) (isTemplateModalOpen st)
    (loading st) v.

(** What a synchronous handler leaves behind. *)
Record Effect : Type := mkEffect {
  state_after : State;
  storage_after : Storage;
  alerted : option string
}.

(** The mount effect: each collection is read if its key holds a text.
    The state is typed: a stored document that is not a list of the
    declared type is one it cannot hold, and the field is then left as it
    is; the properties below are about stores of the declared type. *)
Definition mount (storage : Storage) (st : State) : State :=
  let st1 :=
    match storage !! "emailTemplates" with
    | Some doc => match parse template_of_json doc with
                  | Some ts => setTemplates ts st
                  | None => st
                  end
    | None => st
    end in
  match storage !! "savedSenders" with
  | Some doc => match parse sender_of_json doc with
                | Some ss => setSavedSenders ss st1
                | None => st1
                end
  | None => st1
  end.

(** [now] is the reading of [Date.now()]. *)
Definition saveTemplate (now : Z) (storage : Storage) (st : State) : Effect :=
  if (draft_name (currentTemplate st) =? "")%string
  then mkEffect st storage (Some "Please name your template")
  else
    let newTemplate :=
      {| tpl_id := pretty now;
         tpl_name := draft_name (currentTemplate st);
         tpl_subject := draft_subject (currentTemplate st);
         tpl_body := draft_body (currentTemplate st) |} in
    let updated := templates st ++ [newTemplate] in
    mkEffect
      (setIsTemplateModalOpen false
         (setSelectedTemplateId (tpl_id newTemplate) (setTemplates updated st)))
      (<["emailTemplates" := stringify template_to_json updated]> storage)
      None.

Definition deleteTemplate (id : string) (storage : Storage) (st : State) : Effect :=
  let updated := List.filter (fun t => negb (tpl_id t =? id)%string) (templates st) in
  let st1 := setTemplates updated st in
  mkEffect
    (if (selectedTemplateId st =? id)%string
     then setCurrentTemplate (mkDraft "" "" "") (setSelectedTemplateId "" st1)
     else st1)
    (<["emailTemplates" := stringify template_to_json updated]> storage)
    None.

Definition loadTemplate (id : string) (st : State) : State :=
  let st1 := setSelectedTemplateId id st in
  match find (fun t => (tpl_id t =? id)%string) (templates st) with
  | Some found =>
      setCurrentTemplate
        (mkDraft (tpl_subject found) (tpl_body found) (tpl_name found)) st1
  | None => st1
  end.

(** [sender] is the form's own row object, which stays shared with the
    saved list afterwards; the handler only reads it, so it is taken at
    the values it has at the call. *)
Definition saveSenderProfile (sender : Sender) (storage : Storage) (st : State) : Effect :=
  if (email sender =? "")%string
  then mkEffect st storage (Some "Enter email")
  else
    let existingIndex :=
      findIndex (fun s => (email s =? email sender)%string) (savedSenders st) in
    let updatedList :=
      if (existingIndex >=? 0)%Z then savedSenders st else savedSenders st ++ [sender] in
    let updatedList :=
      if (existingIndex >=? 0)%Z
      then <[Z.to_nat existingIndex := sender]> updatedList
      else updatedList in
    mkEffect
      (setSavedSenders updatedList st)
      (<["savedSenders" := stringify sender_to_json updatedList]> storage)
      None.

Definition deleteSavedSender (e : string) (storage : Storage) (st : State) : Effect :=
  let updatedList := List.filter (fun s => negb (email s =? e)%string) (savedSenders st) in
  mkEffect
    (setSavedSenders updatedList st)
    (<["savedSenders" := stringify sender_to_json updatedList]> storage)
    None.

(** The [catch] and [finally] of [handleSubmit]. *)
Definition failed (st : State) (err : JsError) : State :=
  setLoading false (setResponseMsg (Some (mkMsg error (err_message err))) st).

(** [`${data.message || 'Success!'} ${data.scheduled_count !== undefined
      ? `(${data.scheduled_count} scheduled)` : ''}`] *)
Definition success_text (message scheduled_count : jsval) : outcome string :=
  match template_text (js_or message (Some (JStr "Success!"))) with
  | Rejected err => Rejected err
  | Resolved head =>
      match scheduled_count with
      | Some c =>
          match template_text (Some c) with
          | Rejected err => Rejected err
          | Resolved count => Resolved (head +:+ " " +:+ "(" +:+ count +:+ " scheduled)")
          end
      | None => Resolved (head +:+ " " +:+ "")
      end
  end.

Definition succeeded (st : State) (data : json) : State :=
  match bind (get data "message") (fun message =>
        bind (get data "scheduled_count") (fun scheduled_count =>
        success_text message scheduled_count)) with
  | Resolved text => setLoading false (setResponseMsg (Some (mkMsg success text)) st)
  | Rejected err => failed st err
  end.

(** [r.receiverMail && r.scheduledDateTime] *)
Definition has_mail_and_date (r : Receiver) : bool :=
  (negb (receiverMail r =? "")%string && negb (scheduledDateTime r =? "")%string)%bool.

Definition receiver_payload (r : Receiver) : json :=
  JObj [("receiverMail", JStr (receiverMail r));
        ("receiverDomain", JStr (receiverDomain r));
        ("receiverName", JStr (receiverName r));
        ("scheduledDateTime", JStr (normalize_timestamp (scheduledDateTime r)))].

(** [{ senderMail: s.email, smtp_password: s.password || "" }] *)
Definition sender_payload (s : Sender) : json :=
  JObj [("senderMail", JStr (email s));
        ("smtp_password", JStr (match password s with
                                | Some p => p
                                | None => ""
                                end))].

Definition base_payload (st : State) : list (string * jsval) :=
  [("senders", Some (JArr (List.map sender_payload (senders st))));
   ("template",
    Some (JObj [("subject", JStr (draft_subject (currentTemplate st)));
                ("body", JStr (html_envelope (draft_body (currentTemplate st))))]))].

Definition post (token : string) (payload : json) : RequestInit :=
  {| init_method := Some "POST";
     init_headers := bearer token;
     init_body := Some payload |}.

Definition send (token : string) (st : State) (payload : json) : Action State :=
  Call st "/scheduleEmails" (post token payload)
    (fun settled => match settled with
                    | Resolved data => Done (succeeded st data)
                    | Rejected err => Done (failed st err)
                    end).

Definition NO_VALID_RECEIVER : string :=
  "Please add at least one valid receiver with a date.".

Definition handleSubmit (token : string) (st : State) : Action State :=
  let st := setResponseMsg None (setLoading true st) in
  if ((draft_subject (currentTemplate st) =? "")%string
      || (draft_body (currentTemplate st) =? "")%string)%bool
  then Done (failed st (new_Error (Some (JStr "Template required."))))
  else
    match mode st with
    | manual =>
        let rows := List.map receiver_payload (List.filter has_mail_and_date (receivers st)) in
        if (length rows =? 0)%nat
        then Done (failed st (new_Error (Some (JStr NO_VALID_RECEIVER))))
        else send token st (obj (base_payload st ++ [("receivers", Some (JArr rows))]))
    | csv =>
        match csvFile st with
        | None => Done (failed st (new_Error (Some (JStr "Please upload a CSV file."))))
        | Some file =>
            match fileToBase64 file with
            | Rejected err => Done (failed st err)
            | Resolved b64 =>
                send token st (obj (base_payload st ++ [("receivers_csv_base64", b64)]))
            end
        end
    end.

(** The collection a reload finds in storage, for a store of the declared
    type: an absent key is the empty collection. *)
Definition stored_templates (storage : Storage) : list Template :=
  match storage !! "emailTemplates" with
  | Some doc => default [] (parse template_of_json doc)
  | None => []
  end.

Definition stored_senders (storage : Storage) : list Sender :=
  match storage !! "savedSenders" with
  | Some doc => default [] (parse sender_of_json doc)
  | None => []
  end.

(** The entry [saveTemplate] builds at clock reading [now]. *)
Definition template_at (now : Z) (d : Draft) : Template :=
  {| tpl_id := pretty now;
     tpl_name := draft_name d;
     tpl_subject := draft_subject d;
     tpl_body := draft_body d |}.

End ScheduleEmails.

(** ** Auto-Schedule panel *)

Module AutoScheduler.
Import Js Api Handler Store.

(** What [parseInt] puts in the [gapMinutes] state. *)
Inductive number : Type :=
| NaN
| Int (n : Z).

(** Comparisons with [NaN] are false. *)
Definition num_lt (a : number) (b : Z) : bool :=
  match a with
  | NaN => false
  | Int n => (n <? b)%Z
  end.
Definition num_gt (a : number) (b : Z) : bool :=
  match a with
  | NaN => false
  | Int n => (n >? b)%Z
  end.

(** A number in a serialised payload: [NaN] is written as [null]. *)
Definition number_json (a : number) : json :=
  match a with
  | NaN => JNull
  | Int n => JNum n
  end.

Inductive Mode : Type := manual | receiver_csv | full_csv.

Record Receiver : Type := mkReceiver {
  receiverMail : string;
  receiverDomain : string;
  receiverName : string
}.

Record Draft : Type := mkDraft {
  draft_subject : string;
  draft_body : string;
  draft_name : string
}.

Record State : Type := mkState {
  mode : Mode;
  startDateTime : string;
  gapMinutes : number;
  sender : Sender;
  receivers : list Receiver;
  csvFile : option File;
  template : Draft;
  loading : bool;
  result : option json;
  error : option string
}.

Definition initial : State :=
  {| mode := manual;
     startDateTime := "";
     gapMinutes := Int 5;
     sender := mkSender "" (Some "");
     receivers := [mkReceiver "" "" ""];
     csvFile := None;
     template := mkDraft "" "" "";
     loading := false;
     result := None;
     error := None |}.

Definition setLoading (v : bool) (st : State) : State :=
  mkState (mode st) (startDateTime st) (gapMinutes st) (sender st) (receivers st)
    (csvFile st) (template st) v (result st) (error st).
Definition setResult (v : option json) (st : State) : State :=
  mkState (mode st) (startDateTime st) (gapMinutes st) (sender st) (receivers st)
    (csvFile st) (template st) (loading st) v (error st).
Definition setError (v : option string) (st : State) : State :=
  mkState (mode st) (startDateTime st) (gapMinutes st) (sender st) (receivers st)
    (csvFile st) (template st) (loading st) (result st) v.

Definition GAP_RANGE_ERROR : string := "Gap Minutes must be between 1 and 60".

Definition failed (st : State) (err : JsError) : State :=
  setLoading false (setError (Some (err_message err)) st).

Definition post (token : string) (payload : json) : RequestInit :=
  {| init_method := Some "POST";
     init_headers := bearer token;
     init_body := Some payload |}.

Definition send (token : string) (st : State) (payload : json) : Action State :=
  Call st "/scheduleEmails/auto" (post token payload)
    (fun settled => match settled with
                    | Resolved data => Done (setLoading false (setResult (Some data) st))
                    | Rejected err => Done (failed st err)
                    end).

Definition base_payload (st : State) : list (string * jsval) :=
  [("startDateTime", Some (JStr (normalize_timestamp (startDateTime st))));
   ("gapMinutes", Some (number_json (gapMinutes st)));
   ("template",
    Some (JObj [("subject", JStr (draft_subject (template st)));
                ("body", JStr (html_envelope (draft_body (template st))))]))].

(** [{ senderMail: sender.email, smtp_password: sender.password }] *)
Definition sender_payload (s : Sender) : jsval :=
  Some (obj [("senderMail", Some (JStr (email s)));
             ("smtp_password", JStr <$> password s)]).

Definition receiver_payload (r : Receiver) : json :=
  JObj [("receiverMail", JStr (receiverMail r));
        ("receiverDomain", JStr (receiverDomain r));
        ("receiverName", JStr (receiverName r))].

(** The [try] block, entered once both checks have passed. *)
Definition submit (token : string) (st : State) : Action State :=
  match mode st with
  | manual =>
      send token st
        (obj (base_payload st ++
              [("sender", sender_payload (sender st));
               ("receivers",
                Some (JArr (List.map receiver_payload
                        (List.filter (fun r => negb (receiverMail r =? "")%string)
                           (receivers st)))))]))
  | receiver_csv =>
      match csvFile st with
      | None => Done (failed st (new_Error (Some (JStr "Please upload receivers CSV"))))
      | Some file =>
          match fileToBase64 file with
          | Rejected err => Done (failed st err)
          | Resolved b64 =>
              send token st
                (obj (base_payload st ++
                      [("sender", sender_payload (sender st));
                       ("receivers_csv_base64", b64)]))
          end
      end
  | full_csv =>
      match csvFile st with
      | None => Done (failed st (new_Error (Some (JStr "Please upload full CSV"))))
      | Some file =>
          match fileToBase64 file with
          | Rejected err => Done (failed st err)
          | Resolved b64 => send token st (obj (base_payload st ++ [("csv_base64", b64)]))
          end
      end
  end.

Definition handleSubmit (token : string) (st : State) : Action State :=
  if (startDateTime st =? "")%string
  then Done (setError (Some "Start Date & Time is required") st)
  else if (num_lt (gapMinutes st) 1 || num_gt (gapMinutes st) 60)%bool
  then Done (setError (Some GAP_RANGE_ERROR) st)
  else submit token (setResult None (setError None (setLoading true st))).

End AutoScheduler.

(** ** Domain Manager *)

Module DomainManager.
Import Js Api Handler.

Inductive MsgType : Type := success | error.
Record Msg : Type := mkMsg { msg_type : MsgType; msg_text : string }.

Record State : Type := mkState {
  domains : list json;
  newEmail : string;
  loading : bool;
  verificationData : option json;
  msg : option Msg
}.

Definition setDomains (v : list json) (st : State) : State :=
  mkState v (newEmail st) (loading st) (verificationData st) (msg st).
Definition setLoading (v : bool) (st : State) : State :=
  mkState (domains st) (newEmail st) v (verificationData st) (msg st).
Definition setVerificationData (v : option json) (st : State) : State :=
  mkState (domains st) (newEmail st) (loading st) v (msg st).
Definition setMsg (v : option Msg) (st : State) : State :=
  mkState (domains st) (newEmail st) (loading st) (verificationData st) v.

Definition blockedDomains : list string :=
  ["gmail.com"; "yahoo.com"; "outlook.com"; "hotmail.com";
   "icloud.com"; "aol.com"; "live.com"; "msn.com"].

Definition INVALID_FORMAT : string := "Invalid email format".
Definition PUBLIC_DOMAIN : string :=
  "Public email domains (Gmail, Yahoo, etc.) cannot be verified. Please use a custom domain you own.".

(** [arr.includes(s)] on strings *)
Definition includes (l : list string) (s : string) : bool :=
  existsb (fun x => (x =? s)%string) l.

(** [data.domains || []], read as the rows of the list. *)
Definition domains_of (data : json) : outcome (list json) :=
  bind (get data "domains") (fun v =>
  Resolved match js_or v (Some (JArr [])) with
           | Some (JArr rows) => rows
           | _ => []
           end).

(** [fetchDomains]: a failure is only logged. *)
Definition fetchDomains (token : string) (st : State) : Action State :=
  Call st "/domains" {| init_method := None; init_headers := bearer token; init_body := None |}
    (fun settled =>
       match bind settled domains_of with
       | Resolved rows => Done (setDomains rows st)
       | Rejected _ => Done st
       end).

Definition request (token : string) (st : State) : RequestInit :=
  {| init_method := Some "POST";
     init_headers := bearer token;
     init_body := Some (JObj [("sender_email", JStr (newEmail st))]) |}.

(** After a successful call: [data.status === 'verified'] decides. *)
Definition verified (token : string) (st : State) (data : json) : Action State :=
  let st1 := setVerificationData (Some data) st in
  match get data "status" with
  | Rejected err => Done (setLoading false (setMsg (Some (mkMsg error (err_message err))) st1))
  | Resolved (Some (JStr "verified")) =>
      fetchDomains token
        (setLoading false (setMsg (Some (mkMsg success "Domain already verified!")) st1))
  | Resolved _ => Done (setLoading false st1)
  end.

Section Platform.
(** [String.prototype.toLowerCase] *)
Variable toLowerCase : string -> string.

Definition handleRequestVerification (token : string) (st : State) : Action State :=
  if (newEmail st =? "")%string then Done st
  else
    let emailParts := split_on "@" (newEmail st) in
    if (length emailParts <? 2)%nat
    then Done (setMsg (Some (mkMsg error INVALID_FORMAT)) st)
    else
      let emailDomain := nth 1 emailParts "" in
      if includes blockedDomains (toLowerCase emailDomain)
      then Done (setMsg (Some (mkMsg error PUBLIC_DOMAIN)) st)
      else
        let st1 := setVerificationData None (setMsg None (setLoading true st)) in
        Call st1 "/domains/request-verification" (request token st1)
          (fun settled =>
             match settled with
             | Resolved data => verified token st1 data
             | Rejected err =>
                 Done (setLoading false
                         (setMsg (Some (mkMsg error (err_message err))) st1))
             end).

End Platform.

End DomainManager.

(** ** User Stats panel: the log table and its selection *)

Module UserStats.
Import Js Api Handler.

(** A row of the log table; [rest] is the row as received. *)
Record EmailLog : Type := mkLog {
  _id : string;
  rest : json
}.

Inductive ModalType : Type := single | bulk | all.
Record Modal : Type := mkModal { modal_type : ModalType; modal_id : option string }.

Record State : Type := mkState {
  stats : option json;
  logs : list EmailLog;
  loading : bool;
  refreshing : bool;
  selectedIds : list string;
  isDeleting : bool;
  confirmModal : option Modal;
  alerts : list string
}.

Definition initial : State :=
  {| stats := None; logs := []; loading := false; refreshing := false;
     selectedIds := []; isDeleting := false; confirmModal := None; alerts := [] |}.

Definition setStats (v : option json) (st : State) : State :=
  mkState v (logs st) (loading st) (refreshing st) (selectedIds st) (isDeleting st)
    (confirmModal st) (alerts st).
Definition setLogs (v : list EmailLog) (st : State) : State :=
  mkState (stats st) v (loading st) (refreshing st) (selectedIds st) (isDeleting st)
    (confirmModal st) (alerts st).
Definition setLoading (v : bool) (st : State) : State :=
  mkState (stats st) (logs st) v (refreshing st) (selectedIds st) (isDeleting st)
    (confirmModal st) (alerts st).
Definition setRefreshing (v : bool) (st : State) : State :=
  mkState (stats st) (logs st) (loading st) v (selectedIds st) (isDeleting st)
    (confirmModal st) (alerts st).
Definition setSelectedIds (v : list string) (st : State) : State :=
  mkState (stats st) (logs st) (loading st) (refreshing st) v (isDeleting st)
    (confirmModal st) (alerts st).
Definition setIsDeleting (v : bool) (st : State) : State :=
  mkState (stats st) (logs st) (loading st) (refreshing st) (selectedIds st) v
    (confirmModal st) (alerts st).
Definition setConfirmModal (v : option Modal) (st : State) : State :=
  mkState (stats st) (logs st) (loading st) (refreshing st) (selectedIds st) (isDeleting st)
    v (alerts st).
Definition alert (m : string) (st : State) : State :=
  mkState (stats st) (logs st) (loading st) (refreshing st) (selectedIds st) (isDeleting st)
    (confirmModal st) (alerts st ++ [m]).

(** A received row at the declared type [EmailLog]: a row without a
    string [_id] is not of that type, and the typed state cannot hold it. *)
Definition log_of_json (j : json) : option EmailLog :=
  match opt_get (Some j) "_id" with
  | Some (JStr i) => Some (mkLog i j)
  | _ => None
  end.

(** [data.logs || []], read at the declared type [EmailLog[]]. *)
Definition logs_of (data : json) : outcome (list EmailLog) :=
  bind (get data "logs") (fun v =>
  Resolved match js_or v (Some (JArr [])) with
           | Some (JArr rows) => omap log_of_json rows
           | _ => []
           end).

Definition authorized (method : option string) (token : string) (body : option json)
  : RequestInit :=
  {| init_method := method; init_headers := bearer token; init_body := body |}.

(** [fetchLogs(silent)], followed by [next]; a failure is only logged. *)
Definition fetchLogs (token : string) (silent : bool) (st : State)
    (next : State -> Action State) : Action State :=
  let st := if silent then st else setRefreshing true st in
  Call st "/emails/logs" (authorized None token None)
    (fun settled =>
       match bind settled logs_of with
       | Resolved rows => next (setRefreshing false (setLogs rows st))
       | Rejected _ => next (setRefreshing false st)
       end).

(** [fetchStats], followed by [next]; a failure is only logged. *)
Definition fetchStats (token : string) (st : State)
    (next : State -> Action State) : Action State :=
  Call st "/emails/usage" (authorized None token None)
    (fun settled =>
       match settled with
       | Resolved statsData => next (setStats (Some statsData) st)
       | Rejected _ => next st
       end).

(** The mount effect: both lists are fetched, then the spinner goes.  The
    two calls are issued together and fill different fields, so the order
    in which they are written here does not show in the result. *)
Definition mount (token : string) (st : State) : Action State :=
  fetchStats token (setLoading true st) (fun st =>
  fetchLogs token true st (fun st => Done (setLoading false st))).

(** The refresh button: [fetchLogs(); fetchStats();] *)
Definition refresh (token : string) (st : State) : Action State :=
  fetchLogs token false st (fun st => fetchStats token st Done).

(** The [finally] of the three delete handlers. *)
Definition closing (st : State) : Action State :=
  Done (setConfirmModal None (setIsDeleting false st)).

Definition handleDeleteSingle (token : string) (id : string) (st : State) : Action State :=
  let st := setIsDeleting true st in
  Call st ("/emails/logs/" +:+ id) (authorized (Some "DELETE") token None)
    (fun settled =>
       match settled with
       | Resolved _ => fetchLogs token true st closing
       | Rejected err => closing (alert (err_message err) st)
       end).

Definition handleDeleteBulk (token : string) (st : State) : Action State :=
  if (length (selectedIds st) =? 0)%nat then Done st
  else
    let st := setIsDeleting true st in
    Call st "/emails/logs/bulk-delete"
      (authorized (Some "POST") token
         (Some (JObj [("ids", JArr (List.map JStr (selectedIds st)))])))
      (fun settled =>
         match settled with
         | Resolved _ => fetchLogs token true (setSelectedIds [] st) closing
         | Rejected err => closing (alert (err_message err) st)
         end).

Definition handleDeleteAll (token : string) (st : State) : Action State :=
  let st := setIsDeleting true st in
  Call st "/emails/logs/delete-all" (authorized (Some "DELETE") token None)
    (fun settled =>
       match settled with
       | Resolved _ => fetchLogs token true st closing
       | Rejected err => closing (alert (err_message err) st)
       end).

(** [prev.includes(id) ? prev.filter(i => i !== id) : [...prev, id]] *)
Definition toggleSelect (id : string) (st : State) : State :=
  setSelectedIds
    (if existsb (fun i => (i =? id)%string) (selectedIds st)
     then List.filter (fun i => negb (i =? id)%string) (selectedIds st)
     else selectedIds st ++ [id])
    st.

Definition toggleSelectAll (st : State) : State :=
  if (length (selectedIds st) =? length (logs st))%nat
  then setSelectedIds [] st
  else setSelectedIds (List.map _id (logs st)) st.

(** The two lists hold the same ids. *)
Definition same_ids (a b : list string) : bool :=
  (forallb (fun x => existsb (String.eqb x) b) a &&
   forallb (fun x => existsb (String.eqb x) a) b)%bool.

(** "Select all" as the specification words it: the selection is compared
    with the loaded ids as a set. *)
Definition toggleSelectAll_by_set_equality (st : State) : State :=
  if same_ids (selectedIds st) (List.map _id (logs st))
  then setSelectedIds [] st
  else setSelectedIds (List.map _id (logs st)) st.

(** The selection is a duplicate-free part of the loaded ids. *)
Definition selection_within_logs (st : State) : Prop :=
  NoDup (selectedIds st) /\ incl (selectedIds st) (List.map _id (logs st)).

(** The states a session can be in: it mounts, and then every click
    offered by the table is possible, whatever the server answers.  Rows
    can only be ticked or deleted while they are loaded. *)
Inductive reachable (token : string) : State -> Prop :=
| reach_mount (w : World) :
    reachable token (run w 0 (mount token initial)).1
| reach_toggleSelect (st : State) (l : EmailLog) :
    reachable token st -> In l (logs st) ->
    reachable token (toggleSelect (_id l) st)
| reach_toggleSelectAll (st : State) :
    reachable token st -> reachable token (toggleSelectAll st)
| reach_deleteSingle (st : State) (l : EmailLog) (w : World) (n : nat) :
    reachable token st -> In l (logs st) ->
    reachable token (run w n (handleDeleteSingle token (_id l) st)).1
| reach_deleteBulk (st : State) (w : World) (n : nat) :
    reachable token st ->
    reachable token (run w n (handleDeleteBulk token st)).1
| reach_deleteAll (st : State) (w : World) (n : nat) :
    reachable token st ->
    reachable token (run w n (handleDeleteAll token st)).1
| reach_refresh (st : State) (w : World) (n : nat) :
    reachable token st ->
    reachable token (run w n (refresh token st)).1.

End UserStats.

(** ** Concrete sessions used as instances below *)

Module Samples.
Import Js Api Handler.

Definition plain_get : RequestInit :=
  {| init_method := None; init_headers := ∅; init_body := None |}.

Definition json_response (status : Z) (statusText : string) (doc : json) : Response :=
  {| res_status := status;
     res_statusText := statusText;
     res_content_type := Some "application/json; charset=utf-8";
     res_json := Resolved doc;
     res_text := Resolved "" |}.

Definition text_response (status : Z) (statusText : string) (text : string) : Response :=
  {| res_status := status;
     res_statusText := statusText;
     res_content_type := Some "text/html";
     res_json := Rejected {| err_name := "SyntaxError";
                             err_message := "Unexpected token < in JSON at position 0" |};
     res_text := Resolved text |}.

Definition answers (res : Response) : Network := fun _ => Resolved res.

Definition offline : Network :=
  fun _ => Rejected {| err_name := "TypeError"; err_message := "Load failed" |}.

Definition login_ok : Response :=
  json_response 200 "OK" (JObj [("token", JStr "abc")]).

Definition invalid_credentials : Response :=
  json_response 401 "Unauthorized"
    (JObj [("error", JStr "Invalid credentials"); ("message", JStr "try again")]).

Definition empty_error : Response :=
  json_response 500 "Internal Server Error"
    (JObj [("error", JStr ""); ("message", JStr "boom")]).

Definition error_failed_to_fetch : Response :=
  json_response 502 "Bad Gateway" (JObj [("error", JStr "Failed to fetch")]).

Definition promo : ScheduleEmails.Draft :=
  ScheduleEmails.mkDraft "Hi" "Hello" "Promo".

Definition drafting_promo : ScheduleEmails.State :=
  ScheduleEmails.setCurrentTemplate promo ScheduleEmails.initial.

(** A store whose one template was saved at the clock reading
    1700000000000. *)
Definition one_template : Store.Storage :=
  <["emailTemplates" :=
      Store.stringify Store.template_to_json
        [Store.mkTemplate "1700000000000" "Welcome" "Hey" "Welcome aboard"]]> ∅.

Definition ab_x : Store.Sender := Store.mkSender "a@b.com" (Some "x").

(** A store with two rows for the same address. *)
Definition two_rows_one_email : Store.Storage :=
  <["savedSenders" :=
      Store.stringify Store.sender_to_json
        [Store.mkSender "a@b.com" (Some "y"); Store.mkSender "a@b.com" (Some "z")]]> ∅.

(** The Domain Manager with [e] typed into the form. *)
Definition typed (e : string) : DomainManager.State :=
  DomainManager.mkState [] e false None None.

(** The Auto-Schedule form with a start time and a gap typed in. *)
Definition gap_form (g : Z) : AutoScheduler.State :=
  AutoScheduler.mkState AutoScheduler.manual "2026-01-05T09:30" (AutoScheduler.Int g)
    (Store.mkSender "me@corp.example" None)
    [AutoScheduler.mkReceiver "you@corp.example" "corp.example" "You"]
    None (AutoScheduler.mkDraft "Hi" "Hello" "") false None None.

(** The Schedule form with a template and the given receiver rows. *)
Definition schedule_form (rows : list ScheduleEmails.Receiver) : ScheduleEmails.State :=
  ScheduleEmails.mkState [Store.mkSender "me@corp.example" None] []
    ScheduleEmails.manual rows None [] "" promo false false None.

Definition complete_row : ScheduleEmails.Receiver :=
  ScheduleEmails.mkReceiver "you@corp.example" "corp.example" "You" "2026-01-05T09:30:15".

Definition undated_row : ScheduleEmails.Receiver :=
  ScheduleEmails.mkReceiver "them@corp.example" "" "" "".

Definition log_row (i : string) : json :=
  JObj [("_id", JStr i); ("status", JStr "sent")].

(** A server that answers every request with the given log rows. *)
Definition serving (rows : list string) : World :=
  fun _ => answers (json_response 200 "OK" (JObj [("logs", JArr (List.map log_row rows))])).

(** Mount over the logs a, b, c; tick a; delete the row a, after which the
    server lists b and c; tick b. *)
Definition after_single_delete : UserStats.State :=
  let st0 := (run (serving ["a"; "b"; "c"]) 0 (UserStats.mount "t" UserStats.initial)).1 in
  let st1 := UserStats.toggleSelect "a" st0 in
  let st2 := (run (serving ["b"; "c"]) 2 (UserStats.handleDeleteSingle "t" "a" st1)).1 in
  UserStats.toggleSelect "b" st2.

End Samples.

(** ** The body editor of the Schedule panel *)

Module Editor.
Import Js Store ScheduleEmails.

(** What [insertTag] reads from the textarea element. *)
Record Textarea : Type := mkTextarea {
  value : string;
  selectionStart : nat;
  selectionEnd : nat
}.

(** [s.substring(a, b)]: both ends are clamped to the length and swapped
    when out of order. *)
Definition js_substring (a b : nat) (s : string) : string :=
  let a := Nat.min a (String.length s) in
  let b := Nat.min b (String.length s) in
  String.substring (Nat.min a b) (Nat.max a b - Nat.min a b) s.

(** [s.substring(a)] *)
Definition substring_from (a : nat) (s : string) : string :=
  js_substring a (String.length s) s.

(** [insertTag(tagStart, tagEnd)]: the new state and the selection range
    the deferred callback sets; nothing happens without a textarea. *)
Definition insertTag (tagStart tagEnd : string) (textarea : option Textarea) (st : State)
  : State * option (nat * nat) :=
  match textarea with
  | None => (st, None)
  | Some ta =>
      let start := selectionStart ta in
      let end_ := selectionEnd ta in
      let text := value ta in
      let before := js_substring 0 start text in
      let selection := js_substring start end_ text in
      let after := substring_from end_ text in
      let newText := before +:+ tagStart +:+ selection +:+ tagEnd +:+ after in
      (setCurrentTemplate
         (mkDraft (draft_subject (currentTemplate st)) newText
            (draft_name (currentTemplate st))) st,
       Some ((start + String.length tagStart)%nat, (end_ + String.length tagStart)%nat))
  end.

(** The DOM keeps [0 <= selectionStart <= selectionEnd <= value.length]. *)
Definition well_formed (ta : Textarea) : Prop :=
  (selectionStart ta <= selectionEnd ta)%nat /\
  (selectionEnd ta <= String.length (value ta))%nat.

End Editor.

(** ** A session of template edits in the Schedule panel *)

Module TemplateSession.
Import Js Store ScheduleEmails.





End TemplateSession.

(** ** The sender rows of the Schedule panel, as objects

    The form's rows and the saved list hold references to sender objects;
    the inputs of a row write into its object in place, and saving a row
    puts the row's own object into the saved list. *)

Module SenderRows.
Import Js Store.

Record Form : Type := mkForm {
  objects : gmap nat Sender;
  senders : list nat;
  savedSenders : list nat
}.

Definition deref (f : Form) (r : nat) : Sender :=
  default (mkSender "" None) (objects f !! r).

(** The senders a list of references shows. *)
Definition view (f : Form) (refs : list nat) : list Sender := deref f <$> refs.

(** A new object. *)
Definition alloc (s : Sender) (f : Form) : nat * Form :=
  let r := fresh (dom (objects f)) in
  (r, mkForm (<[r := s]> (objects f)) (senders f) (savedSenders f)).

(** [useState([{ email: '', password: '' }])] *)
Definition initial : Form :=
  mkForm (<[0%nat := mkSender "" (Some "")]> ∅) [0%nat] [].

(** [newSenders[idx].email = e.target.value] *)
Definition editEmail (idx : nat) (v : string) (f : Form) : Form :=
  match senders f !! idx with
  | Some r =>
      mkForm (alter (fun s => mkSender v (password s)) r (objects f))
        (senders f) (savedSenders f)
  | None => f
  end.

(** [newSenders[idx].password = e.target.value] *)
Definition editPassword (idx : nat) (v : string) (f : Form) : Form :=
  match senders f !! idx with
  | Some r =>
      mkForm (alter (fun s => mkSender (email s) (Some v)) r (objects f))
        (senders f) (savedSenders f)
  | None => f
  end.

(** [setSenders([...senders, { email: '', password: '' }])] *)
Definition addSender (f : Form) : Form :=
  let '(r, f1) := alloc (mkSender "" (Some "")) f in
  mkForm (objects f1) (senders f1 ++ [r]) (savedSenders f1).

(** The "Load Saved..." select of row [idx]:
    [newSenders[idx] = { ...selected }], a copy. *)
Definition loadSaved (idx : nat) (e : string) (f : Form) : Form :=
  match List.find (fun r => (email (deref f r) =? e)%string) (savedSenders f) with
  | Some selected =>
      let '(r, f1) := alloc (deref f selected) f in
      mkForm (objects f1) (<[idx := r]> (senders f1)) (savedSenders f1)
  | None => f
  end.

(** [saveSenderProfile(sender)] with [sender] the object [r]. *)
Definition saveSenderProfile (r : nat) (storage : Storage) (f : Form)
  : Form * Storage * option string :=
  if (email (deref f r) =? "")%string
  then (f, storage, Some "Enter email")
  else
    let existingIndex :=
      findIndex (fun s => (email (deref f s) =? email (deref f r))%string)
        (savedSenders f) in
    let updatedList :=
      if (existingIndex >=? 0)%Z then savedSenders f else savedSenders f ++ [r] in
    let updatedList :=
      if (existingIndex >=? 0)%Z
      then <[Z.to_nat existingIndex := r]> updatedList
      else updatedList in
    (mkForm (objects f) (senders f) updatedList,
     <["savedSenders" := stringify sender_to_json (deref f <$> updatedList)]> storage,
     None).

(** The save button of row [idx]. *)
Definition saveRow (idx : nat) (storage : Storage) (f : Form)
  : Form * Storage * option string :=
  match senders f !! idx with
  | Some r => saveSenderProfile r storage f
  | None => (f, storage, None)
  end.

End SenderRows.

(** ** Login and the root component *)

Module AuthScreen.
Import Js Api Handler.

(** The login view's state, with what [onLogin] was called with. *)
Record State : Type := mkState {
  email : string;
  password : string;
  error : string;
  isLoading : bool;
  onLogin : option (jsval * bool)
}.

Definition setError (v : string) (st : State) : State :=
  mkState (email st) (password st) v (isLoading st) (onLogin st).
Definition setIsLoading (v : bool) (st : State) : State :=
  mkState (email st) (password st) (error st) v (onLogin st).
Definition callOnLogin (token : jsval) (isAdmin : bool) (st : State) : State :=
  mkState (email st) (password st) (error st) (isLoading st) (Some (token, isAdmin)).

Definition PENDING_APPROVAL : string := "Your account is pending admin approval.".

(** A value inside a template literal, for a value that has a text. *)
Definition interpolate (v : jsval) : string :=
  match v with
  | Some j => to_string j
  | None => "undefined"
  end.

Definition login_request (st : State) : RequestInit :=
  {| init_method := Some "POST";
     init_headers := ∅;
     init_body := Some (JObj [("email", JStr (email st)); ("password", JStr (password st))]) |}.

Definition probe_request (token : jsval) : RequestInit :=
  {| init_method := None;
     init_headers := bearer (interpolate token);
     init_body := None |}.

(** The outer [catch] and [finally]. *)
Definition failed (st : State) (err : JsError) : State :=
  setIsLoading false (setError (err_message err) st).

(** The admin probe: the call is made with [suppressLog], which only
    silences the console; its outcome alone decides the flag. *)
Definition probe (token : jsval) (st : State) : Action State :=
  Call st "/admin/users" (probe_request token)
    (fun settled =>
       match settled with
       | Resolved _ => Done (setIsLoading false (callOnLogin token true st))
       | Rejected _ => Done (setIsLoading false (callOnLogin token false st))
       end).

Definition handleLoginSubmit (st : State) : Action State :=
  let st := setError "" (setIsLoading true st) in
  Call st "/login" (login_request st)
    (fun settled =>
       match settled with
       | Rejected err => Done (failed st err)
       | Resolved data =>
           match get data "error" with
           | Rejected err => Done (failed st err)
           | Resolved (Some (JStr "Admin approval required")) =>
               Done (failed st (new_Error (Some (JStr PENDING_APPROVAL))))
           | Resolved _ =>
               match get data "access_token" with
               | Rejected err => Done (failed st err)
               | Resolved token => probe token st
               end
           end
       end).


End AuthScreen.

Module App.
Import Js.

Record State : Type := mkState {
  token : jsval;
  isAdmin : bool
}.

(** [useState<string | null>(null)]: [null] is [Some JNull]. *)
Definition initial : State := mkState (Some JNull) false.






End App.

(** ** The health indicator of the user console *)

Module UserDashboard.
Import Js Api Handler.

Definition no_options : RequestInit :=
  {| init_method := None; init_headers := ∅; init_body := None |}.

(** [apiCall('/health').then(setHealth).catch(() => setHealth({ status:
    'error', scheduler_running: false }))]; the state is [health]. *)
Definition mount (health : jsval) : Action jsval :=
  Call health "/health" no_options
    (fun settled =>
       match settled with
       | Resolved data => Done (Some data)
       | Rejected _ =>
           Done (Some (JObj [("status", JStr "error"); ("scheduler_running", JBool false)]))
       end).

(** [health?.status === 'ok'] *)
Definition online (health : jsval) : bool :=
  match opt_get health "status" with
  | Some (JStr s) => (s =? "ok")%string
  | _ => false
  end.

End UserDashboard.

(** ** Master-Schedule and Extract panels *)

Module Upload.
Import Js Api Handler.

(** [s.includes(pat)] *)
Definition str_includes (s pat : string) : bool := negb (indexOf s pat =? -1)%Z.

Definition ACCESS_EXPIRED : string := "Access Expired. Please contact admin.".

(** The [catch] of both panels, on an error that carries a message:
    [err.message.includes("Access Expired") ? ... : err.message || fallback] *)
Definition shown_error (fallback : string) (err : JsError) : string :=
  if str_includes (err_message err) "Access Expired" then ACCESS_EXPIRED
  else if (err_message err =? "")%string then fallback else err_message err.

Definition post (token : string) (payload : json) : RequestInit :=
  {| init_method := Some "POST";
     init_headers := bearer token;
     init_body := Some payload |}.

End Upload.

Module MasterScheduler.
Import Js Api Handler Upload.

Record State : Type := mkState {
  csvFile : option File;
  subject : string;
  body : string;
  loading : bool;
  result : option json;
  error : option string
}.

Definition setLoading (v : bool) (st : State) : State :=
  mkState (csvFile st) (subject st) (body st) v (result st) (error st).
Definition setResult (v : option json) (st : State) : State :=
  mkState (csvFile st) (subject st) (body st) (loading st) v (error st).
Definition setError (v : option string) (st : State) : State :=
  mkState (csvFile st) (subject st) (body st) (loading st) (result st) v.

Definition payload (b64 : jsval) (st : State) : json :=
  obj [("csv_base64", b64);
       ("template", Some (JObj [("subject", JStr (subject st));
                                ("body", JStr (html_envelope (body st)))]))].

Definition handleSchedule (token : string) (st : State) : Action State :=
  match csvFile st with
  | None => Done (setError (Some "Please upload a CSV file.") st)
  | Some file =>
      if ((subject st =? "")%string || (body st =? "")%string)%bool
      then Done (setError (Some "Please fill in subject and body.") st)
      else
        let st := setResult None (setError None (setLoading true st)) in
        match fileToBase64 file with
        | Rejected _ =>
            (* the reader's error event has no message: the catch block
               throws on it, and only [finally] runs *)
            Done (setLoading false st)
        | Resolved b64 =>
            Call st "/scheduleEmails/master" (post token (payload b64 st))
              (fun settled =>
                 match settled with
                 | Resolved data => Done (setLoading false (setResult (Some data) st))
                 | Rejected err =>
                     Done (setLoading false
                             (setError (Some (shown_error "Scheduling failed" err)) st))
                 end)
        end
  end.

End MasterScheduler.

Module ExtractEmails.
Import Js Api Handler Upload.

Record State : Type := mkState {
  csvFile : option File;
  domainCol : string;
  workers : Z;
  loading : bool;
  resultBase64 : jsval;
  error : option string
}.

Definition setLoading (v : bool) (st : State) : State :=
  mkState (csvFile st) (domainCol st) (workers st) v (resultBase64 st) (error st).
Definition setResultBase64 (v : jsval) (st : State) : State :=
  mkState (csvFile st) (domainCol st) (workers st) (loading st) v (error st).
Definition setError (v : option string) (st : State) : State :=
  mkState (csvFile st) (domainCol st) (workers st) (loading st) (resultBase64 st) v.

Definition payload (b64 : jsval) (st : State) : json :=
  obj [("csv_base64", b64);
       ("domain_col", Some (JStr (domainCol st)));
       ("workers", Some (JNum (workers st)))].

(** [typeof data === 'string' ? data : data.csv_base64] *)
Definition result_of (data : json) : outcome jsval :=
  match data with
  | JStr s => Resolved (Some (JStr s))
  | _ => get data "csv_base64"
  end.

Definition handleExtract (token : string) (st : State) : Action State :=
  match csvFile st with
  | None => Done (setError (Some "Please upload a CSV file.") st)
  | Some file =>
      let st := setResultBase64 (Some JNull) (setError None (setLoading true st)) in
      match fileToBase64 file with
      | Rejected _ => Done (setLoading false st)
      | Resolved b64 =>
          Call st "/extractEmails" (post token (payload b64 st))
            (fun settled =>
               match bind settled result_of with
               | Resolved base64 => Done (setLoading false (setResultBase64 base64 st))
               | Rejected err =>
                   Done (setLoading false
                           (setError (Some (shown_error "Extraction failed" err)) st))
               end)
      end
  end.

(** [downloadResult]: the link's [href], when there is a result (the
    result being a value that has a text). *)
Definition downloadResult (st : State) : option string :=
  if truthy (resultBase64 st)
  then Some ("data:text/csv;base64," +:+
             match resultBase64 st with Some v => to_string v | None => "undefined" end)
  else None.

End ExtractEmails.

(** ** The password heuristic of a sender row *)

Module SenderCard.
Import Js.

Section Platform.
(** [String.prototype.toLowerCase] *)
Variable toLowerCase : string -> string.

(** Whether the row shows a password input. *)
Definition isPublic (email : string) : bool :=
  let emailParts := split_on "@" email in
  let domain :=
    if (1 <? length emailParts)%nat then toLowerCase (nth 1 emailParts "") else "" in
  existsb (fun x => (x =? domain)%string)
    ["gmail.com"; "yahoo.com"; "outlook.com"; "hotmail.com";
     "icloud.com"; "aol.com"; "live.com"; "msn.com"].

End Platform.

End SenderCard.

(** ** Admin console: the permission editor *)

Module AdminDashboard.
Import Js.

Inductive Status : Type := pending | approved | rejected | expired.

Record User : Type := mkUser {
  _id : string;
  email : string;
  status : Status;
  allowed_apis : list string;
  access_days : option Z;
  monthly_email_limit : option Z
}.

Record UserUsage : Type := mkUsage {
  user_id : string;
  usage_monthly_email_limit : Z
}.

Record FormData : Type := mkForm {
  form_status : Status;
  form_access_days : Z;
  form_monthly_email_limit : Z;
  form_allowed_apis : list string
}.

Record State : Type := mkState {
  usage : list UserUsage;
  editingUser : option User;
  formData : FormData;
  msg : option string
}.

Definition DEFAULT_APIS : list string :=
  ["scheduleEmails"; "extractEmails"; "domainVerification"; "autoScheduleEmails"].

Definition initial : State :=
  mkState [] None (mkForm approved 30 500 DEFAULT_APIS) None.

(** [n || d] on a number that may be missing. *)
Definition or_number (n : option Z) (d : Z) : Z :=
  match n with
  | Some v => if (v =? 0)%Z then d else v
  | None => d
  end.

Definition handleEditClick (user : User) (st : State) : State :=
  let userUsage := List.find (fun u => (user_id u =? _id user)%string) (usage st) in
  mkState (usage st) (Some user)
    (mkForm
       (match status user with pending => approved | s => s end)
       (or_number (access_days user) 30)
       (or_number (monthly_email_limit user)
          (or_number (usage_monthly_email_limit <$> userUsage) 500))
       (if (0 <? length (allowed_apis user))%nat then allowed_apis user else DEFAULT_APIS))
    None.

Definition toggleApi (api : string) (st : State) : State :=
  let prev := formData st in
  mkState (usage st) (editingUser st)
    (mkForm (form_status prev) (form_access_days prev) (form_monthly_email_limit prev)
       (if existsb (fun a => (a =? api)%string) (form_allowed_apis prev)
        then List.filter (fun a => negb (a =? api)%string) (form_allowed_apis prev)
        else form_allowed_apis prev ++ [api]))
    (msg st).

End AdminDashboard.

(** ** Saved senders as a keyed list *)

Module SenderList.
Import Store.

(** One row per email, and no row without an email. *)
Definition keyed_by_email (l : list Sender) : Prop :=
  NoDup (email <$> l) /\ Forall (fun s => email s <> "") l.

End SenderList.

(** ** More concrete sessions *)

Module Cases.
Import Js Api Handler.

(** The Schedule form in CSV mode with an empty file, which the browser
    reads as the data URL "data:". *)
Definition empty_upload : ScheduleEmails.State :=
  ScheduleEmails.mkState [Store.mkSender "me@corp.example" None] []
    ScheduleEmails.csv [] (Some (mkFile (Resolved "data:"))) [] "" Samples.promo
    false false None.

(** The Auto-Schedule form with a start time and the gap input emptied. *)
Definition gap_emptied : AutoScheduler.State :=
  AutoScheduler.mkState AutoScheduler.manual "2026-01-05T09:30" AutoScheduler.NaN
    (Store.mkSender "me@corp.example" None)
    [AutoScheduler.mkReceiver "you@corp.example" "corp.example" "You"]
    None (AutoScheduler.mkDraft "Hi" "Hello" "") false None None.



(** A 500 whose body is announced as JSON and is not: [res.json()]
    rejects. *)
Definition unreadable : Response :=
  {| res_status := 500;
     res_statusText := "Internal Server Error";
     res_content_type := Some "application/json";
     res_json := Rejected {| err_name := "SyntaxError";
                             err_message := "Unexpected end of JSON input" |};
     res_text := Resolved "" |}.

(** A 500 whose [error] field is an object with a [toString] entry. *)
Definition error_without_text : Response :=
  Samples.json_response 500 "Internal Server Error"
    (JObj [("error", JObj [("toString", JNum 1)])]).

(** A server that refuses every DELETE and answers any other request
    with one log row. *)
Definition refuses_delete : World :=
  fun _ req =>
    Resolved
      (if (default "GET" (req_method req) =? "DELETE")%string
       then Samples.json_response 403 "Forbidden" (JObj [("error", JStr "Not allowed")])
       else Samples.json_response 200 "OK" (JObj [("logs", JArr [Samples.log_row "a"])])).


End Cases.

(** * Properties *)

(** ** Strings *)

Module JsFacts.
Import Js.

Lemma prefix_app (p s : string) :
  String.prefix p s = true <-> exists post, s = p +:+ post.
Proof.
  revert s. induction p as [|c p IH]; intros s; simpl.
  - split; [intros _; exists s; reflexivity | intros _; destruct s; reflexivity].
  - destruct s as [|d s].
    + split; [discriminate | intros [post H]; discriminate].
    + simpl. destruct (ascii_dec c d) as [->|Hne].
      * rewrite IH. split; intros [post H]; exists post.
        -- now rewrite H.
        -- now injection H.
      * split; [discriminate | intros [post H]; injection H; congruence].
Qed.

Lemma index_cons (pat : string) (c : ascii) (s : string) :
  String.index 0 pat (String c s) =
  if String.prefix pat (String c s) then Some 0%nat
  else match String.index 0 pat s with
       | Some n => Some (S n)
       | None => None
       end.
Proof. reflexivity. Qed.

Lemma index_occurs (pat s : string) :
  pat <> "" -> (exists n, String.index 0 pat s = Some n) <-> occurs pat s.
Proof.
  intros Hpat. induction s as [|c s IH].
  - simpl. destruct pat as [|p pat]; [congruence|].
    split; [intros [n H]; discriminate|].
    intros (pre & post & H). destruct pre; discriminate.
  - rewrite index_cons. destruct (String.prefix pat (String c s)) eqn:Hp.
    + split; [|intros _; eauto].
      intros _. apply prefix_app in Hp as [post Hpost].
      exists "", post. exact Hpost.
    + split.
      * intros [n H]. destruct (String.index 0 pat s) eqn:Hi; [|discriminate].
        destruct IH as [IH _]. destruct IH as (pre & post & ->); [eauto|].
        exists (String c pre), post. reflexivity.
      * intros (pre & post & H). destruct pre as [|d pre].
        -- simpl in H. assert (String.prefix pat (String c s) = true) as Ht
             by (apply prefix_app; eauto).
           congruence.
        -- simpl in H. injection H as -> ->.
           destruct IH as [_ IH]. destruct IH as [n ->]; [exists pre, post; reflexivity|].
           eauto.
Qed.

(** [s.indexOf(pat) !== -1] is the substring test. *)
Lemma indexOf_occurs (pat s : string) :
  pat <> "" -> (indexOf s pat =? -1)%Z = false <-> occurs pat s.
Proof.
  intros Hpat. rewrite <- index_occurs by assumption. unfold indexOf.
  destruct (String.index 0 pat s) as [n|].
  - split; [eauto | intros _; apply Z.eqb_neq; lia].
  - split; [discriminate | intros [n H]; discriminate].
Qed.

Lemma occurs_nonempty (pat s : string) : pat <> "" -> occurs pat s -> s <> "".
Proof.
  intros Hpat (pre & post & ->) H. destruct pre; [|discriminate].
  destruct pat; [congruence | discriminate].
Qed.

End JsFacts.

(** ** The API helper *)

Module ApiFacts.
Import Js Api JsFacts.

Lemma declares_json_iff (res : Response) :
  declares_json (res_content_type res) = true <-> declared_json res.
Proof.
  unfold declares_json, declared_json.
  destruct (res_content_type res) as [ct|].
  - rewrite andb_true_iff, !negb_true_iff, indexOf_occurs by discriminate.
    split.
    + intros [_ H]. eauto.
    + intros (ct' & [= <-] & H). split; [|exact H].
      apply String.eqb_neq. eapply occurs_nonempty; [|exact H]. discriminate.
  - split; [discriminate | intros (ct & H & _); discriminate].
Qed.

Lemma read_body_json (res : Response) :
  declared_json res -> read_body res = res_json res.
Proof.
  intros H. apply declares_json_iff in H. unfold read_body. now rewrite H.
Qed.

Lemma read_body_text (res : Response) :
  ~ declared_json res -> read_body res = map_outcome JStr (res_text res).
Proof.
  intros H. unfold read_body.
  destruct (declares_json (res_content_type res)) eqn:E; [|reflexivity].
  apply declares_json_iff in E. contradiction.
Qed.

Lemma apiCall_resolved net endpoint sl options data :
  apiCall_try net endpoint options = Resolved data ->
  run_result (apiCall net endpoint sl options) = Resolved data.
Proof. intros H. unfold apiCall. now rewrite H. Qed.

Lemma apiCall_rejected net endpoint sl options err :
  apiCall_try net endpoint options = Rejected err ->
  run_result (apiCall net endpoint sl options) =
  Rejected (if looks_like_network_failure err
            then new_Error (Some (JStr NETWORK_ERROR)) else err).
Proof. intros H. unfold apiCall, apiCall_catch. now rewrite H. Qed.

Lemma server_error_text_kept (res : Response) :
  looks_like_network_failure (new_Error (Some (JStr (server_error_text res)))) = false.
Proof. reflexivity. Qed.

Lemma new_Error_kept (m : string) :
  m <> "Failed to fetch" ->
  looks_like_network_failure (new_Error (Some (JStr m))) = false.
Proof.
  intros H. unfold looks_like_network_failure. simpl.
  apply String.eqb_neq in H. now rewrite H.
Qed.

(** C2: the body is read as JSON exactly when the declared content type
    includes "application/json" and as text otherwise, and a 2xx response
    hands the value read to the caller as it is. *)
Theorem apiCall_reads_body_by_content_type
    (net : Network) (endpoint : string) (sl : bool) (options : RequestInit)
    (res : Response) :
  net (build_request endpoint options) = Resolved res ->
  (declared_json res ->
     apiCall_try net endpoint options = bind (res_json res) (check_status res)) /\
  (~ declared_json res ->
     apiCall_try net endpoint options =
     bind (map_outcome JStr (res_text res)) (check_status res)) /\
  (forall data, res_ok res = true -> declared_json res ->
     res_json res = Resolved data ->
     run_result (apiCall net endpoint sl options) = Resolved data) /\
  (forall text, res_ok res = true -> ~ declared_json res ->
     res_text res = Resolved text ->
     run_result (apiCall net endpoint sl options) = Resolved (JStr text)).
Proof.
  intros Hnet.
  assert (apiCall_try net endpoint options = bind (read_body res) (check_status res)) as Htry
    by (unfold apiCall_try; now rewrite Hnet).
  repeat split.
  - intros H. now rewrite Htry, read_body_json.
  - intros H. now rewrite Htry, read_body_text.
  - intros data Hok H Hjson. apply apiCall_resolved.
    rewrite Htry, read_body_json, Hjson by assumption.
    simpl. unfold check_status. now rewrite Hok.
  - intros text Hok H Htext. apply apiCall_resolved.
    rewrite Htry, read_body_text, Htext by assumption.
    simpl. unfold check_status. now rewrite Hok.
Qed.

(** C3: when fetch rejects without a response (the platform rejects with
    a TypeError then, in some browsers reading "Failed to fetch"), the
    caller gets the fixed network-error message, whatever the text of the
    underlying error. *)
Theorem apiCall_connectivity_failure
    (net : Network) (endpoint : string) (sl : bool) (options : RequestInit)
    (e : JsError) :
  net (build_request endpoint options) = Rejected e ->
  err_name e = "TypeError" \/ err_message e = "Failed to fetch" ->
  run_result (apiCall net endpoint sl options) =
  Rejected {| err_name := "Error"; err_message := NETWORK_ERROR |}.
Proof.
  intros Hnet Hkind.
  rewrite (apiCall_rejected net endpoint sl options e)
    by (unfold apiCall_try; now rewrite Hnet).
  unfold looks_like_network_failure.
  destruct Hkind as [-> | ->]; simpl; [now rewrite orb_true_r | reflexivity].
Qed.

(** C10: the catch block treats every error raised in the try block alike,
    whether it comes from fetch, from reading the body or from the status
    check: one whose message is "Failed to fetch" or whose name is
    "TypeError" is replaced by the network error, any other is rethrown
    unchanged; so a non-2xx response whose extracted message is
    "Failed to fetch" reaches the caller as the network error. *)
Theorem apiCall_catch_covers_every_error
    (net : Network) (endpoint : string) (sl : bool) (options : RequestInit) :
  let raised e := apiCall_try net endpoint options = Rejected e in
  let thrown e := run_result (apiCall net endpoint sl options) = Rejected e in
  let network_error := {| err_name := "Error"; err_message := NETWORK_ERROR |} in
  (forall e, net (build_request endpoint options) = Rejected e -> raised e) /\
  (forall res e, net (build_request endpoint options) = Resolved res ->
     read_body res = Rejected e -> raised e) /\
  (forall res data, net (build_request endpoint options) = Resolved res ->
     read_body res = Resolved data -> res_ok res = false ->
     raised (new_Error (errorMessage res data))) /\
  (forall e, raised e ->
     err_message e = "Failed to fetch" \/ err_name e = "TypeError" ->
     thrown network_error) /\
  (forall e, raised e ->
     err_message e <> "Failed to fetch" -> err_name e <> "TypeError" ->
     thrown e) /\
  (forall res fields, net (build_request endpoint options) = Resolved res ->
     read_body res = Resolved (JObj fields) -> res_ok res = false ->
     assoc "error" fields = Some (JStr "Failed to fetch") ->
     thrown network_error).
Proof.
  cbv zeta.
  assert (forall e, apiCall_try net endpoint options = Rejected e ->
            err_message e = "Failed to fetch" \/ err_name e = "TypeError" ->
            run_result (apiCall net endpoint sl options) =
            Rejected {| err_name := "Error"; err_message := NETWORK_ERROR |}) as Hcast.
  { intros e He Hlike. rewrite (apiCall_rejected _ _ _ _ _ He).
    unfold looks_like_network_failure.
    destruct Hlike as [-> | ->]; simpl; [reflexivity | now rewrite orb_true_r]. }
  repeat split.
  - intros e Hnet. unfold apiCall_try. now rewrite Hnet.
  - intros res e Hnet Hbody. unfold apiCall_try. rewrite Hnet. simpl. now rewrite Hbody.
  - intros res data Hnet Hbody Hok. unfold apiCall_try. rewrite Hnet. simpl.
    rewrite Hbody. simpl. unfold check_status. now rewrite Hok.
  - exact Hcast.
  - intros e He Hm Hn. rewrite (apiCall_rejected _ _ _ _ _ He).
    unfold looks_like_network_failure.
    apply String.eqb_neq in Hm, Hn. now rewrite Hm, Hn.
  - intros res fields Hnet Hbody Hok Herr.
    apply (Hcast (new_Error (errorMessage res (JObj fields)))).
    + unfold apiCall_try. rewrite Hnet. simpl. rewrite Hbody. simpl.
      unfold check_status. now rewrite Hok.
    + left. unfold errorMessage. simpl. rewrite Herr. reflexivity.
Qed.

(** What the status check throws when the body is [data]. *)
Lemma non_ok_raises net endpoint options res data :
  net (build_request endpoint options) = Resolved res ->
  read_body res = Resolved data ->
  res_ok res = false ->
  apiCall_try net endpoint options = Rejected (new_Error (errorMessage res data)).
Proof.
  intros Hnet Hbody Hok. unfold apiCall_try. rewrite Hnet. simpl.
  rewrite Hbody. simpl. unfold check_status. now rewrite Hok.
Qed.

Lemma errorMessage_error res fields v :
  assoc "error" fields = Some v -> truthy (Some v) = true ->
  errorMessage res (JObj fields) = Some v.
Proof.
  intros He Ht. unfold errorMessage. simpl. rewrite He.
  unfold js_or, js_and. simpl truthy at 2. cbv iota. now rewrite Ht.
Qed.

Lemma errorMessage_message res fields v :
  truthy (assoc "error" fields) = false ->
  assoc "message" fields = Some v -> truthy (Some v) = true ->
  errorMessage res (JObj fields) = Some v.
Proof.
  intros He Hm Ht. unfold errorMessage. simpl. rewrite Hm.
  unfold js_or, js_and. simpl (truthy (js_bool true)). cbv iota.
  now rewrite He, Ht.
Qed.

Lemma errorMessage_text res s :
  s <> "" -> errorMessage res (JStr s) = Some (JStr s).
Proof.
  intros Hs. unfold errorMessage, js_or, js_and. simpl.
  apply String.eqb_neq in Hs. now rewrite Hs.
Qed.

Lemma errorMessage_synthesized res data :
  offers_no_message data ->
  errorMessage res data = Some (JStr (server_error_text res)).
Proof.
  intros H. unfold errorMessage, js_or, js_and.
  destruct data as [| b | n | s | items | fields]; simpl in *; try reflexivity.
  - subst s. reflexivity.
  - destruct H as [He Hm]. now rewrite He, Hm.
Qed.

(** The integers that doubles hold exactly print as their decimal; past
    them the text is the shortest one that reads back, in exponent form
    from 21 digits on. *)
Example number_to_string_examples :
  number_to_string 500 = "500" /\
  number_to_string (-42) = "-42" /\
  number_to_string (2 ^ 53 + 1) = "9007199254740992" /\
  number_to_string (2 ^ 60) = "1152921504606847000" /\
  number_to_string (10 ^ 21) = "1e+21" /\
  number_to_string 123456789012345678901234567890 = "1.2345678901234568e+29".
Proof. vm_compute. repeat split. Qed.

(** C1, amended: on a non-2xx response the message thrown is the text of
    the [error] field when that field is truthy, else of the [message]
    field when that one is truthy, else the body itself when it is a
    non-empty text, else the synthesized "Server Error" line.  A chosen
    value that has no text or whose text is exactly "Failed to fetch" is
    excepted: the caller gets the network error.  A body that cannot be
    read is excepted too: its error goes through the catch block. *)
Theorem apiCall_error_message_priority
    (net : Network) (endpoint : string) (sl : bool) (options : RequestInit)
    (res : Response) :
  net (build_request endpoint options) = Resolved res ->
  res_ok res = false ->
  let result := run_result (apiCall net endpoint sl options) in
  let thrown m := result = Rejected {| err_name := "Error"; err_message := m |} in
  let reported v :=
    (has_text v = true -> to_string v <> "Failed to fetch" -> thrown (to_string v)) /\
    (has_text v = false \/ to_string v = "Failed to fetch" -> thrown NETWORK_ERROR) in
  (forall fields v, read_body res = Resolved (JObj fields) ->
     assoc "error" fields = Some v -> truthy (Some v) = true -> reported v) /\
  (forall fields v, read_body res = Resolved (JObj fields) ->
     truthy (assoc "error" fields) = false ->
     assoc "message" fields = Some v -> truthy (Some v) = true -> reported v) /\
  (forall s, read_body res = Resolved (JStr s) -> s <> "" -> reported (JStr s)) /\
  (forall data, read_body res = Resolved data -> offers_no_message data ->
     thrown (server_error_text res)) /\
  (forall e, read_body res = Rejected e ->
     (err_name e = "TypeError" \/ err_message e = "Failed to fetch" ->
        thrown NETWORK_ERROR) /\
     (err_name e <> "TypeError" -> err_message e <> "Failed to fetch" ->
        result = Rejected e)).
Proof.
  intros Hnet Hok. cbv zeta.
  assert (forall data v, read_body res = Resolved data -> errorMessage res data = Some v ->
            (has_text v = true -> to_string v <> "Failed to fetch" ->
             run_result (apiCall net endpoint sl options) =
             Rejected {| err_name := "Error"; err_message := to_string v |}) /\
            (has_text v = false \/ to_string v = "Failed to fetch" ->
             run_result (apiCall net endpoint sl options) =
             Rejected {| err_name := "Error"; err_message := NETWORK_ERROR |})) as Hchosen.
  { intros data v Hbody Hv.
    rewrite (apiCall_rejected _ _ _ _ _ (non_ok_raises _ _ _ _ _ Hnet Hbody Hok)), Hv.
    unfold new_Error, looks_like_network_failure. split.
    - intros Ht Hne. rewrite Ht. simpl.
      apply String.eqb_neq in Hne. now rewrite Hne.
    - intros [Ht | Hff].
      + rewrite Ht. reflexivity.
      + destruct (has_text v); [|reflexivity]. simpl. now rewrite Hff. }
  split; [|split; [|split; [|split]]].
  - intros fields v Hbody He Ht. apply (Hchosen _ _ Hbody).
    now apply errorMessage_error.
  - intros fields v Hbody He Hm Ht. apply (Hchosen _ _ Hbody).
    now apply errorMessage_message.
  - intros s Hbody Hs. apply (Hchosen _ _ Hbody). now apply errorMessage_text.
  - intros data Hbody Hnone.
    apply (Hchosen data (JStr (server_error_text res)) Hbody).
    + now apply errorMessage_synthesized.
    + reflexivity.
    + discriminate.
  - intros e Hbody.
    assert (apiCall_try net endpoint options = Rejected e) as Hraise
      by (unfold apiCall_try; rewrite Hnet; simpl; now rewrite Hbody).
    rewrite (apiCall_rejected _ _ _ _ _ Hraise). unfold looks_like_network_failure.
    split.
    + intros [-> | ->]; simpl; [now rewrite orb_true_r | reflexivity].
    + intros Hn Hm. apply String.eqb_neq in Hn, Hm. now rewrite Hn, Hm.
Qed.

Lemma apiCall_error_message_priority_witness :
  run_result (apiCall (Samples.answers Samples.invalid_credentials) "/login" false
                Samples.plain_get) =
    Rejected {| err_name := "Error"; err_message := "Invalid credentials" |} /\
  run_result (apiCall (Samples.answers Cases.unreadable) "/login" false Samples.plain_get) =
    Rejected {| err_name := "SyntaxError"; err_message := "Unexpected end of JSON input" |} /\
  run_result (apiCall (Samples.answers Cases.error_without_text) "/login" false
                Samples.plain_get) =
    Rejected {| err_name := "Error"; err_message := NETWORK_ERROR |}.
Proof.
  split; [|split].
  - refine (proj1 (proj1 (apiCall_error_message_priority
              (Samples.answers Samples.invalid_credentials) "/login" false Samples.plain_get
              Samples.invalid_credentials eq_refl eq_refl)
            _ (JStr "Invalid credentials") eq_refl eq_refl eq_refl) eq_refl _).
    discriminate.
  - refine (proj2 (proj2 (proj2 (proj2 (proj2 (apiCall_error_message_priority
              (Samples.answers Cases.unreadable) "/login" false Samples.plain_get
              Cases.unreadable eq_refl eq_refl)))) _ eq_refl) _ _); discriminate.
  - exact (proj2 (proj1 (apiCall_error_message_priority
              (Samples.answers Cases.error_without_text) "/login" false Samples.plain_get
              Cases.error_without_text eq_refl eq_refl)
            _ (JObj [("toString", JNum 1)]) eq_refl eq_refl eq_refl) (or_introl eq_refl)).
Defined.

(** C1 as stated fails: an empty [error] field gives way to [message], and
    an [error] field reading "Failed to fetch" is reported as the network
    error. *)
Lemma apiCall_error_field_not_always_thrown :
  (res_ok Samples.empty_error = false /\
   read_body Samples.empty_error =
     Resolved (JObj [("error", JStr ""); ("message", JStr "boom")]) /\
   run_result (apiCall (Samples.answers Samples.empty_error) "/login" false
                 Samples.plain_get) =
     Rejected {| err_name := "Error"; err_message := "boom" |} /\
   run_result (apiCall (Samples.answers Samples.empty_error) "/login" false
                 Samples.plain_get) <>
     Rejected {| err_name := "Error"; err_message := "" |}) /\
  (res_ok Samples.error_failed_to_fetch = false /\
   read_body Samples.error_failed_to_fetch =
     Resolved (JObj [("error", JStr "Failed to fetch")]) /\
   run_result (apiCall (Samples.answers Samples.error_failed_to_fetch) "/login" false
                 Samples.plain_get) <>
     Rejected {| err_name := "Error"; err_message := "Failed to fetch" |}).
Proof.
  repeat split; try reflexivity; vm_compute; discriminate.
Qed.

Lemma apiCall_reads_body_by_content_type_witness :
  run_result (apiCall (Samples.answers Samples.login_ok) "/login" false Samples.plain_get) =
  Resolved (JObj [("token", JStr "abc")]).
Proof.
  refine (proj1 (proj2 (proj2 (apiCall_reads_body_by_content_type
            (Samples.answers Samples.login_ok) "/login" false Samples.plain_get
            Samples.login_ok eq_refl)))
          _ eq_refl _ eq_refl).
  exists "application/json; charset=utf-8". split; [reflexivity|].
  exists "", "; charset=utf-8". reflexivity.
Defined.

Lemma apiCall_connectivity_failure_witness :
  run_result (apiCall Samples.offline "/health" true Samples.plain_get) =
  Rejected {| err_name := "Error"; err_message := NETWORK_ERROR |}.
Proof.
  exact (apiCall_connectivity_failure Samples.offline "/health" true Samples.plain_get
           {| err_name := "TypeError"; err_message := "Load failed" |} eq_refl
           (or_introl eq_refl)).
Defined.

Lemma apiCall_catch_covers_every_error_witness :
  run_result (apiCall (Samples.answers Samples.error_failed_to_fetch) "/login" false
                Samples.plain_get) =
  Rejected {| err_name := "Error"; err_message := NETWORK_ERROR |}.
Proof.
  refine (proj2 (proj2 (proj2 (proj2 (proj2 (apiCall_catch_covers_every_error
            (Samples.answers Samples.error_failed_to_fetch) "/login" false
            Samples.plain_get)))))
          Samples.error_failed_to_fetch [("error", JStr "Failed to fetch")]
          eq_refl eq_refl eq_refl eq_refl).
Defined.

End ApiFacts.

(** ** The stored collections *)

Module RequestFacts.
Import Js Api Handler.

(** The caller's bearer header passes the merge with the defaults. *)
Lemma bearer_header (token : string) :
  (<["Authorization" := "Bearer " +:+ token]> ∅ ∪ default_headers) !! "Authorization" =
  Some ("Bearer " +:+ token).
Proof. apply lookup_union_Some_l, lookup_insert_eq. Qed.

End RequestFacts.

Module StoreFacts.
Import Js Store.

Lemma template_roundtrip (t : Template) : template_of_json (template_to_json t) = Some t.
Proof. now destruct t. Qed.

Lemma sender_roundtrip (s : Sender) : sender_of_json (sender_to_json s) = Some s.
Proof. destruct s as [e [p|]]; reflexivity. Qed.

(** Reading back what was written gives the list that was written. *)
Lemma parse_stringify {A} (enc : A -> json) (dec : json -> option A) (l : list A) :
  (forall x, dec (enc x) = Some x) -> parse dec (stringify enc l) = Some l.
Proof. intros H. unfold parse, stringify. now apply mapM_fmap_Some. Qed.

(** [findIndex] returns [-1] or the position of the first match. *)
Lemma findIndex_cases {A} (p : A -> bool) (l : list A) :
  (findIndex p l = (-1)%Z /\ Forall (fun x => p x = false) l) \/
  (exists l1 x l2, l = l1 ++ x :: l2 /\ Forall (fun y => p y = false) l1 /\
                   p x = true /\ findIndex p l = Z.of_nat (length l1)).
Proof.
  induction l as [|a l IH]; simpl.
  - left. split; [reflexivity | constructor].
  - destruct (p a) eqn:Ha.
    + right. exists [], a, l. repeat split; [constructor | assumption].
    + destruct IH as [[Hi Hall] | (l1 & x & l2 & -> & Hall & Hx & Hi)].
      * left. rewrite Hi. simpl. split; [reflexivity | now constructor].
      * right. exists (a :: l1), x, l2. rewrite Hi.
        repeat split; [now constructor | assumption |].
        destruct (Z.of_nat (length l1) <? 0)%Z eqn:E; [lia|].
        simpl length. lia.
Qed.

Lemma findIndex_first {A} (p : A -> bool) (l1 : list A) (x : A) (l2 : list A) :
  Forall (fun y => p y = false) l1 -> p x = true ->
  findIndex p (l1 ++ x :: l2) = Z.of_nat (length l1).
Proof.
  intros Hall Hx. induction Hall as [|a l1 Ha Hall IH]; simpl.
  - now rewrite Hx.
  - rewrite Ha, IH. destruct (Z.of_nat (length l1) <? 0)%Z eqn:E; lia.
Qed.

Lemma findIndex_none {A} (p : A -> bool) (l : list A) :
  Forall (fun x => p x = false) l -> findIndex p l = (-1)%Z.
Proof.
  intros Hall. induction Hall as [|a l Ha Hall IH]; simpl; [reflexivity|].
  now rewrite Ha, IH.
Qed.

Lemma geb_of_nat (n : nat) : (Z.of_nat n >=? 0)%Z = true.
Proof. rewrite Z.geb_leb. apply Z.leb_le. lia. Qed.

Lemma insert_middle {A} (l1 : list A) (x y : A) (l2 : list A) :
  <[length l1 := y]> (l1 ++ x :: l2) = l1 ++ y :: l2.
Proof.
  replace (length l1) with (length l1 + 0)%nat by lia.
  now rewrite insert_app_r.
Qed.

End StoreFacts.

(** ** Schedule panel: templates and saved senders *)

Module CollectionFacts.
Import Js Store ScheduleEmails StoreFacts.

Lemma stored_templates_insert (storage : Storage) (l : list Template) :
  stored_templates (<["emailTemplates" := stringify template_to_json l]> storage) = l.
Proof.
  unfold stored_templates. rewrite lookup_insert_eq.
  now rewrite (parse_stringify _ _ _ template_roundtrip).
Qed.

Lemma stored_senders_insert (storage : Storage) (l : list Sender) :
  stored_senders (<["savedSenders" := stringify sender_to_json l]> storage) = l.
Proof.
  unfold stored_senders. rewrite lookup_insert_eq.
  now rewrite (parse_stringify _ _ _ sender_roundtrip).
Qed.

(** A fresh mount shows the stored templates. *)
Lemma mount_templates (storage : Storage) (l : list Template) (st : State) :
  storage !! "emailTemplates" = Some (stringify template_to_json l) ->
  templates (mount storage st) = l.
Proof.
  intros H. unfold mount. rewrite H, (parse_stringify _ _ _ template_roundtrip).
  destruct (storage !! "savedSenders") as [doc|]; [|reflexivity].
  destruct (parse sender_of_json doc); reflexivity.
Qed.

Lemma saveTemplate_named (now : Z) (storage : Storage) (st : State) :
  draft_name (currentTemplate st) <> "" ->
  saveTemplate now storage st =
  mkEffect
    (setIsTemplateModalOpen false
       (setSelectedTemplateId (pretty now)
          (setTemplates (templates st ++ [template_at now (currentTemplate st)]) st)))
    (<["emailTemplates" :=
         stringify template_to_json
           (templates st ++ [template_at now (currentTemplate st)])]> storage)
    None.
Proof.
  intros H. unfold saveTemplate. apply String.eqb_neq in H. now rewrite H.
Qed.

(** C5, amended: saving a named template appends exactly one entry, whose
    id is the clock reading in decimal; the stored collection grows by one
    and a reload shows the entry with the name, subject and body saved.
    The id is new to the collection when no stored template carries that
    reading, as when all of them were saved at earlier clock readings. *)
Theorem saveTemplate_appends_one (now : Z) (storage : Storage) (st : State) :
  draft_name (currentTemplate st) <> "" ->
  stored_templates storage = templates st ->
  let eff := saveTemplate now storage st in
  let entry := template_at now (currentTemplate st) in
  alerted eff = None /\
  templates (state_after eff) = templates st ++ [entry] /\
  stored_templates (storage_after eff) = stored_templates storage ++ [entry] /\
  length (stored_templates (storage_after eff)) = S (length (stored_templates storage)) /\
  (forall st0, templates (mount (storage_after eff) st0) = templates st ++ [entry]) /\
  (forall st0, exists t, last (templates (mount (storage_after eff) st0)) = Some t /\
     tpl_name t = draft_name (currentTemplate st) /\
     tpl_subject t = draft_subject (currentTemplate st) /\
     tpl_body t = draft_body (currentTemplate st)) /\
  (NoDup (tpl_id <$> templates st) -> pretty now ∉ (tpl_id <$> templates st) ->
     NoDup (tpl_id <$> templates (state_after eff))) /\
  ((forall t, t ∈ templates st -> exists z, tpl_id t = pretty z /\ (z < now)%Z) ->
     pretty now ∉ (tpl_id <$> templates st)).
Proof.
  intros Hname Hsync. cbv zeta. rewrite (saveTemplate_named _ _ _ Hname). simpl.
  rewrite stored_templates_insert, Hsync.
  assert (forall st0,
            templates (mount (<["emailTemplates" := stringify template_to_json
              (templates st ++ [template_at now (currentTemplate st)])]> storage) st0) =
            templates st ++ [template_at now (currentTemplate st)]) as Hreload.
  { intros st0. apply mount_templates. apply lookup_insert_eq. }
  repeat split.
  - rewrite length_app. simpl. lia.
  - exact Hreload.
  - intros st0. exists (template_at now (currentTemplate st)).
    rewrite Hreload, last_snoc. repeat split.
  - intros Hnd Hfresh. rewrite fmap_app. simpl.
    apply NoDup_app. repeat split; [assumption | | apply NoDup_singleton].
    intros x Hx Hx'. apply list_elem_of_singleton in Hx'. now subst x.
  - intros Hearlier Hin. apply list_elem_of_fmap in Hin as (t & Hid & Ht).
    destruct (Hearlier t Ht) as (z & Hz & Hlt).
    rewrite Hz in Hid. apply pretty_Z_inj in Hid. lia.
Qed.

Lemma saveTemplate_appends_one_witness :
  length (stored_templates
            (storage_after (saveTemplate 1700000000123 Samples.one_template
                              (mount Samples.one_template Samples.drafting_promo)))) = 2%nat.
Proof.
  refine (proj1 (proj2 (proj2 (proj2 (saveTemplate_appends_one 1700000000123
            Samples.one_template (mount Samples.one_template Samples.drafting_promo)
            _ eq_refl))))).
  discriminate.
Defined.

(** C5 as stated fails on the id: a save at a clock reading that a stored
    template already carries leaves two entries with one id. *)
Lemma saveTemplate_id_not_always_unique :
  let st := mount Samples.one_template Samples.drafting_promo in
  let eff := saveTemplate 1700000000000 Samples.one_template st in
  draft_name (currentTemplate st) = "Promo" /\
  stored_templates Samples.one_template = templates st /\
  tpl_id <$> templates (state_after eff) = ["1700000000000"; "1700000000000"] /\
  tpl_id <$> stored_templates (storage_after eff) = ["1700000000000"; "1700000000000"] /\
  ~ NoDup (tpl_id <$> stored_templates (storage_after eff)).
Proof.
  cbv zeta. repeat split; try reflexivity.
  intros H. apply NoDup_cons in H as [H _]. apply H. vm_compute. left.
Qed.

Lemma saveSenderProfile_nonempty (sender : Sender) (storage : Storage) (st : State) :
  email sender <> "" ->
  saveSenderProfile sender storage st =
  let i := findIndex (fun s => (email s =? email sender)%string) (savedSenders st) in
  let updatedList :=
    if (i >=? 0)%Z then <[Z.to_nat i := sender]> (savedSenders st)
    else savedSenders st ++ [sender] in
  mkEffect (setSavedSenders updatedList st)
    (<["savedSenders" := stringify sender_to_json updatedList]> storage) None.
Proof.
  intros H. unfold saveSenderProfile. apply String.eqb_neq in H. rewrite H.
  cbv zeta. now destruct (_ >=? 0)%Z.
Qed.

(** The list [saveSenderProfile] leaves, by cases on the first row with
    the sender's email. *)
Lemma upsert_cases (sender : Sender) (storage : Storage) (st : State) :
  email sender <> "" ->
  let after := savedSenders (state_after (saveSenderProfile sender storage st)) in
  ((forall x, x ∈ savedSenders st -> email x <> email sender) /\
   after = savedSenders st ++ [sender]) \/
  (exists l1 s l2, savedSenders st = l1 ++ s :: l2 /\ email s = email sender /\
     (forall x, x ∈ l1 -> email x <> email sender) /\ after = l1 ++ sender :: l2).
Proof.
  intros H. cbv zeta. rewrite (saveSenderProfile_nonempty _ _ _ H). cbv zeta. simpl.
  destruct (findIndex_cases (fun s => (email s =? email sender)%string) (savedSenders st))
    as [[Hi Hall] | (l1 & x & l2 & Hl & Hall & Hx & Hi)].
  - left. rewrite Hi. simpl. split; [|reflexivity].
    intros x Hx. rewrite Forall_forall in Hall. now apply String.eqb_neq, Hall.
  - right. exists l1, x, l2. rewrite Hi, Hl.
    rewrite geb_of_nat, Nat2Z.id, insert_middle. repeat split.
    + now apply String.eqb_eq.
    + intros y Hy. rewrite Forall_forall in Hall. now apply String.eqb_neq, Hall.
Qed.

Lemma upsert_found (sender : Sender) (storage : Storage) (st : State)
    (l1 : list Sender) (s : Sender) (l2 : list Sender) :
  email sender <> "" ->
  savedSenders st = l1 ++ s :: l2 -> email s = email sender ->
  (forall x, x ∈ l1 -> email x <> email sender) ->
  saveSenderProfile sender storage st =
  mkEffect (setSavedSenders (l1 ++ sender :: l2) st)
    (<["savedSenders" := stringify sender_to_json (l1 ++ sender :: l2)]> storage) None.
Proof.
  intros H Hl Hs Hfirst. rewrite (saveSenderProfile_nonempty _ _ _ H). cbv zeta.
  rewrite Hl, findIndex_first.
  - now rewrite geb_of_nat, Nat2Z.id, insert_middle.
  - apply Forall_forall. intros x Hx. now apply String.eqb_neq, Hfirst.
  - now apply String.eqb_eq.
Qed.

Lemma upsert_absent (sender : Sender) (storage : Storage) (st : State) :
  email sender <> "" ->
  (forall x, x ∈ savedSenders st -> email x <> email sender) ->
  saveSenderProfile sender storage st =
  mkEffect (setSavedSenders (savedSenders st ++ [sender]) st)
    (<["savedSenders" := stringify sender_to_json (savedSenders st ++ [sender])]> storage)
    None.
Proof.
  intros H Habsent. rewrite (saveSenderProfile_nonempty _ _ _ H). cbv zeta.
  rewrite findIndex_none; [reflexivity|].
  apply Forall_forall. intros x Hx. now apply String.eqb_neq, Habsent.
Qed.

(** Saving the same sender again changes nothing. *)
Lemma upsert_twice (sender : Sender) (storage : Storage) (st : State) :
  email sender <> "" ->
  let eff := saveSenderProfile sender storage st in
  saveSenderProfile sender (storage_after eff) (state_after eff) = eff.
Proof.
  intros H. cbv zeta.
  assert (exists l1 l2, (forall x, x ∈ l1 -> email x <> email sender) /\
            saveSenderProfile sender storage st =
            mkEffect (setSavedSenders (l1 ++ sender :: l2) st)
              (<["savedSenders" := stringify sender_to_json (l1 ++ sender :: l2)]> storage)
              None) as (l1 & l2 & Hfirst & ->).
  { destruct (upsert_cases sender storage st H)
      as [[Habsent _] | (l1 & s & l2 & Hl & Hs & Hfirst & _)].
    - exists (savedSenders st), []. split; [assumption|]. now apply upsert_absent.
    - exists l1, l2. split; [assumption|]. now apply (upsert_found _ _ _ l1 s l2). }
  simpl.
  rewrite (upsert_found sender _ (setSavedSenders (l1 ++ sender :: l2) st)
             l1 sender l2 H eq_refl eq_refl Hfirst).
  f_equal. apply insert_insert_eq.
Qed.

(** With one row per email, the saved sender is the only row with its
    email afterwards. *)
Lemma upsert_single (sender : Sender) (storage : Storage) (st : State) :
  email sender <> "" ->
  NoDup (email <$> savedSenders st) ->
  let after := savedSenders (state_after (saveSenderProfile sender storage st)) in
  NoDup (email <$> after) /\
  filter (fun s => email s = email sender) after = [sender].
Proof.
  intros H Hnd. cbv zeta.
  assert (forall l : list Sender,
            (forall x, x ∈ l -> email x <> email sender) ->
            filter (fun s => email s = email sender) l = []) as Hnil.
  { intros l Hl. induction l as [|a l IH]; [reflexivity|].
    rewrite filter_cons_False by (apply Hl; left).
    apply IH. intros x Hx. apply Hl. now right. }
  destruct (upsert_cases sender storage st H)
    as [[Habsent ->] | (l1 & s & l2 & Hl & Hs & Hfirst & ->)].
  - split.
    + rewrite fmap_app. apply NoDup_app. repeat split;
        [assumption | | apply NoDup_singleton].
      intros e He He'. apply list_elem_of_singleton in He'. subst e.
      apply list_elem_of_fmap in He as (x & Hx & Hin). now apply (Habsent x Hin).
    + rewrite filter_app, (Hnil _ Habsent). simpl.
      now rewrite filter_cons_True.
  - rewrite Hl in Hnd. rewrite fmap_app, fmap_cons in Hnd |- *.
    rewrite Hs in Hnd. split; [exact Hnd|].
    apply NoDup_app in Hnd as (_ & _ & Hnd). apply NoDup_cons in Hnd as [Hnotin _].
    rewrite filter_app, (Hnil _ Hfirst). simpl.
    rewrite filter_cons_True by reflexivity. f_equal.
    apply Hnil. intros x Hx Hex. apply Hnotin. rewrite <- Hex.
    apply list_elem_of_fmap. eauto.
Qed.

(** C4, amended: a sender without an email is not saved.  For a sender
    with a non-empty email, the save replaces the first row carrying that
    email in place (the length is unchanged) or, when no row carries it,
    appends the sender; the stored collection is the list so obtained,
    saving the same sender again changes nothing, and when the collection
    holds one row per email the saved sender is afterwards the only row
    with its email. *)
Theorem saveSenderProfile_upserts_by_email
    (sender : Sender) (storage : Storage) (st : State) :
  let eff := saveSenderProfile sender storage st in
  let after := savedSenders (state_after eff) in
  (email sender = "" -> eff = mkEffect st storage (Some "Enter email")) /\
  (email sender <> "" ->
   alerted eff = None /\
   stored_senders (storage_after eff) = after /\
   (forall l1 s l2, savedSenders st = l1 ++ s :: l2 -> email s = email sender ->
      (forall x, x ∈ l1 -> email x <> email sender) ->
      after = l1 ++ sender :: l2) /\
   ((exists x, x ∈ savedSenders st /\ email x = email sender) ->
      length after = length (savedSenders st)) /\
   ((forall x, x ∈ savedSenders st -> email x <> email sender) ->
      after = savedSenders st ++ [sender]) /\
   saveSenderProfile sender (storage_after eff) (state_after eff) = eff /\
   (NoDup (email <$> savedSenders st) ->
      NoDup (email <$> after) /\
      filter (fun s => email s = email sender) after = [sender])).
Proof.
  cbv zeta. split.
  { intros E. unfold saveSenderProfile. now rewrite E. }
  intros H. repeat split.
  - now rewrite (saveSenderProfile_nonempty _ _ _ H).
  - rewrite (saveSenderProfile_nonempty _ _ _ H). cbv zeta. simpl.
    apply stored_senders_insert.
  - intros l1 s l2 Hl Hs Hfirst.
    now rewrite (upsert_found _ storage _ l1 s l2 H Hl Hs Hfirst).
  - intros (x & Hx & Hex).
    destruct (upsert_cases sender storage st H)
      as [[Habsent _] | (l1 & s & l2 & Hl & _ & _ & ->)].
    + now destruct (Habsent x Hx).
    + rewrite Hl, !length_app. reflexivity.
  - intros Habsent. now rewrite (upsert_absent _ storage _ H Habsent).
  - now apply upsert_twice.
  - now apply upsert_single.
  - now apply upsert_single.
Qed.

Lemma saveSenderProfile_upserts_by_email_witness :
  let once := saveSenderProfile Samples.ab_x ∅ initial in
  let twice := saveSenderProfile Samples.ab_x (storage_after once) (state_after once) in
  twice = once /\
  filter (fun s => email s = "a@b.com") (savedSenders (state_after once)) = [Samples.ab_x].
Proof.
  cbv zeta.
  assert (email Samples.ab_x <> "") as H by discriminate.
  destruct (proj2 (saveSenderProfile_upserts_by_email Samples.ab_x ∅ initial) H)
    as (_ & _ & _ & _ & _ & Htwice & Hone).
  split; [exact Htwice|].
  apply Hone. apply NoDup_nil. exact I.
Defined.

(** C4 as stated fails in two places: a sender without an email is not
    appended, and over a collection with two rows for "a@b.com" two saves
    leave two rows with that email. *)
Lemma saveSenderProfile_not_for_every_input :
  (let nobody := mkSender "" (Some "x") in
   let eff := saveSenderProfile nobody ∅ initial in
   (forall x, x ∈ savedSenders initial -> email x <> email nobody) /\
   savedSenders (state_after eff) = [] /\
   savedSenders (state_after eff) <> savedSenders initial ++ [nobody] /\
   alerted eff = Some "Enter email") /\
  (let st := mount Samples.two_rows_one_email initial in
   let once := saveSenderProfile Samples.ab_x Samples.two_rows_one_email st in
   let twice := saveSenderProfile Samples.ab_x (storage_after once) (state_after once) in
   stored_senders Samples.two_rows_one_email = savedSenders st /\
   filter (fun s => email s = "a@b.com") (stored_senders (storage_after twice)) =
     [Samples.ab_x; mkSender "a@b.com" (Some "z")]).
Proof.
  cbv zeta. repeat split.
  - intros x Hx. inversion Hx.
  - discriminate.
Qed.

End CollectionFacts.

(** ** Domain Manager: the client-side gate *)

Module DomainFacts.
Import Js Api Handler DomainManager JsFacts.

Lemma occurs_cons (sep c : ascii) (s : string) :
  occurs (String sep "") (String c s) <-> c = sep \/ occurs (String sep "") s.
Proof.
  split.
  - intros (pre & post & H). destruct pre as [|d pre]; simpl in H.
    + injection H as -> _. now left.
    + injection H as -> ->. right. now exists pre, post.
  - intros [-> | (pre & post & ->)].
    + now exists "", s.
    + now exists (String c pre), post.
Qed.

(** Without the separator the string is the one segment. *)
Lemma split_on_absent (sep : ascii) (s : string) :
  ~ occurs (String sep "") s -> split_on sep s = [s].
Proof.
  induction s as [|c s IH]; intros H; [reflexivity|]. simpl.
  rewrite occurs_cons in H.
  destruct (Ascii.eqb c sep) eqn:E.
  - apply Ascii.eqb_eq in E. tauto.
  - rewrite IH by tauto. reflexivity.
Qed.

(** The first segment ends at the first separator. *)
Lemma split_on_first (sep : ascii) (local rest : string) :
  ~ occurs (String sep "") local ->
  split_on sep (local +:+ String sep "" +:+ rest) = local :: split_on sep rest.
Proof.
  induction local as [|c local IH]; intros H; simpl.
  - now rewrite Ascii.eqb_refl.
  - rewrite occurs_cons in H.
    destruct (Ascii.eqb c sep) eqn:E.
    + apply Ascii.eqb_eq in E. tauto.
    + rewrite IH by tauto. reflexivity.
Qed.

Lemma split_on_nonempty (sep : ascii) (s : string) : split_on sep s <> [].
Proof.
  destruct s as [|c s]; simpl; [discriminate|].
  destruct (Ascii.eqb c sep); [discriminate|].
  destruct (split_on sep s); discriminate.
Qed.

Lemma includes_In (l : list string) (s : string) : includes l s = true <-> In s l.
Proof.
  unfold includes. rewrite existsb_exists. split.
  - intros (x & Hx & E). apply String.eqb_eq in E. now subst.
  - intros H. exists s. split; [assumption | apply String.eqb_refl].
Qed.

(** The handler by cases on the segments of the address. *)
Lemma handleRequestVerification_cases
    (toLowerCase : string -> string) (token : string) (st : State) :
  newEmail st <> "" ->
  handleRequestVerification toLowerCase token st =
  match split_on "@" (newEmail st) with
  | _ :: emailDomain :: _ =>
      if includes blockedDomains (toLowerCase emailDomain)
      then Done (setMsg (Some (mkMsg error PUBLIC_DOMAIN)) st)
      else
        let st1 := setVerificationData None (setMsg None (setLoading true st)) in
        Call st1 "/domains/request-verification" (request token st1)
          (fun settled =>
             match settled with
             | Resolved data => verified token st1 data
             | Rejected err =>
                 Done (setLoading false
                         (setMsg (Some (mkMsg error (err_message err))) st1))
             end)
  | _ => Done (setMsg (Some (mkMsg error INVALID_FORMAT)) st)
  end.
Proof.
  intros H. unfold handleRequestVerification.
  apply String.eqb_neq in H. rewrite H.
  destruct (split_on "@" (newEmail st)) as [|a [|b l]]; reflexivity.
Qed.

(** C7, amended: for a non-empty address, one without an '@' is rejected
    as badly formed and one whose text between the first '@' and the next
    (or the end) is, lower-cased, one of the eight public domains is
    rejected as a public domain, both without a network call; any other
    address has the verification endpoint called.  Lower-casing is the
    platform's [toLowerCase], whatever it maps. *)
Theorem handleRequestVerification_gate
    (toLowerCase : string -> string) (token : string) (st : State) :
  newEmail st <> "" ->
  let act := handleRequestVerification toLowerCase token st in
  let pending := setVerificationData None (setMsg None (setLoading true st)) in
  (~ occurs "@" (newEmail st) ->
     act = Done (setMsg (Some (mkMsg error INVALID_FORMAT)) st) /\
     forall w n, (run w n act).2 = []) /\
  (forall local rest domain,
     newEmail st = local +:+ "@" +:+ rest -> ~ occurs "@" local ->
     hd_error (split_on "@" rest) = Some domain ->
     (In (toLowerCase domain) blockedDomains ->
        act = Done (setMsg (Some (mkMsg error PUBLIC_DOMAIN)) st) /\
        forall w n, (run w n act).2 = []) /\
     (~ In (toLowerCase domain) blockedDomains ->
        (exists k, act = Call pending "/domains/request-verification"
                           (request token pending) k) /\
        forall w n, exists q more,
          (run w n act).2 = q :: more /\
          req_url q = BASE_URL +:+ "/domains/request-verification" /\
          req_method q = Some "POST" /\
          req_body q = Some (JObj [("sender_email", JStr (newEmail st))]))) /\
  (forall domain, ~ occurs "@" domain -> hd_error (split_on "@" domain) = Some domain) /\
  blockedDomains = ["gmail.com"; "yahoo.com"; "outlook.com"; "hotmail.com";
                    "icloud.com"; "aol.com"; "live.com"; "msn.com"].
Proof.
  intros H. cbv zeta. rewrite (handleRequestVerification_cases _ _ _ H).
  split; [|split; [|split; [|reflexivity]]].
  - intros Hno. now rewrite (split_on_absent _ _ Hno).
  - intros local rest domain Heq Hlocal Hdomain.
    assert (split_on "@" (newEmail st) = local :: split_on "@" rest) as ->
      by (rewrite Heq; now apply split_on_first).
    destruct (split_on "@" rest) as [|d l]; [discriminate|].
    injection Hdomain as ->. split.
    + intros Hin. apply includes_In in Hin. rewrite Hin. now split.
    + intros Hout.
      destruct (includes blockedDomains (toLowerCase domain)) eqn:E;
        [now apply includes_In in E|].
      split; [eauto|]. intros w n. simpl.
      destruct (run w (S n) _) as [s more]. eexists _, more.
      split; [reflexivity|]. split; [reflexivity|]. split; reflexivity.
  - intros domain Hno. now rewrite (split_on_absent _ _ Hno).
Qed.

Lemma handleRequestVerification_gate_witness :
  (exists k, handleRequestVerification toLowerCase_ascii "t"
               (Samples.typed "user@customdomain.com") =
     Call (setVerificationData None (setMsg None
             (setLoading true (Samples.typed "user@customdomain.com"))))
       "/domains/request-verification"
       (request "t" (Samples.typed "user@customdomain.com")) k) /\
  handleRequestVerification toLowerCase_ascii "t" (Samples.typed "User@Gmail.COM") =
    Done (setMsg (Some (mkMsg error PUBLIC_DOMAIN)) (Samples.typed "User@Gmail.COM")).
Proof.
  assert (forall l d : string, ~ occurs "@" l -> ~ occurs "@" d ->
            hd_error (split_on "@" d) = Some d) as Hd
    by (intros l d _ Hno; now rewrite (split_on_absent _ _ Hno)).
  assert (forall s : string, (indexOf s "@" =? -1)%Z = true -> ~ occurs "@" s) as Hno.
  { intros s E Ho. apply (indexOf_occurs "@" s) in Ho; [congruence | discriminate]. }
  split.
  - refine (proj1 (proj2 (proj1 (proj2 (handleRequestVerification_gate toLowerCase_ascii "t"
              (Samples.typed "user@customdomain.com") _))
            "user" "customdomain.com" "customdomain.com" eq_refl _ _) _)).
    + discriminate.
    + now apply Hno.
    + apply (Hd "user"); now apply Hno.
    + vm_compute. intuition discriminate.
  - refine (proj1 (proj1 (proj1 (proj2 (handleRequestVerification_gate toLowerCase_ascii "t"
              (Samples.typed "User@Gmail.COM") _))
            "User" "Gmail.COM" "Gmail.COM" eq_refl _ _) _)).
    + discriminate.
    + now apply Hno.
    + apply (Hd "User"); now apply Hno.
    + vm_compute. tauto.
Defined.

(** C7 as stated fails: "user" is not empty and names no public domain,
    yet the verification endpoint is not called, whatever the lower-casing. *)
Lemma handleRequestVerification_without_at :
  newEmail (Samples.typed "user") <> "" /\
  (forall toLowerCase,
     handleRequestVerification toLowerCase "t" (Samples.typed "user") =
       Done (setMsg (Some (mkMsg error INVALID_FORMAT)) (Samples.typed "user")) /\
     (forall w n,
        (run w n (handleRequestVerification toLowerCase "t" (Samples.typed "user"))).2 = []) /\
     ~ (exists pending options k,
          handleRequestVerification toLowerCase "t" (Samples.typed "user") =
          Call pending "/domains/request-verification" options k)).
Proof.
  split; [discriminate|]. intros toLowerCase.
  repeat split; try discriminate.
  intros (pending & options & k & H). discriminate.
Qed.

End DomainFacts.

(** ** Auto-Schedule: the gap check *)

Module AutoFacts.
Import Js Api Handler AutoScheduler.

(** C6: with a start time set, a gap below 1 or above 60 (0 and 61 among
    them) stops the submission with the range error before any network
    call; a gap from 1 to 60 (1 and 60 among them) passes the check, and in
    manual mode the request goes out with that gap. *)
Theorem handleSubmit_gap_check (token : string) (st : State) (g : Z) :
  startDateTime st <> "" ->
  gapMinutes st = Int g ->
  let act := handleSubmit token st in
  let pending := setResult None (setError None (setLoading true st)) in
  ((g < 1 \/ g > 60)%Z ->
     act = Done (setError (Some GAP_RANGE_ERROR) st) /\
     forall w n, (run w n act).2 = []) /\
  ((1 <= g <= 60)%Z ->
     act = submit token pending /\
     (mode st = manual ->
        exists payload k,
          act = Call pending "/scheduleEmails/auto" (post token payload) k /\
          opt_get (Some payload) "gapMinutes" = Some (JNum g) /\
          forall w n, hd_error (run w n act).2 =
                      Some (build_request "/scheduleEmails/auto" (post token payload)))).
Proof.
  intros Hstart Hgap. cbv zeta. unfold handleSubmit.
  apply String.eqb_neq in Hstart. rewrite Hstart, Hgap. simpl.
  split.
  - intros Hout.
    assert ((g <? 1)%Z || (g >? 60)%Z = true) as ->.
    { rewrite Z.gtb_ltb. apply orb_true_iff. destruct Hout; [left | right]; lia. }
    now split.
  - intros Hin.
    assert ((g <? 1)%Z || (g >? 60)%Z = false) as ->.
    { rewrite Z.gtb_ltb. apply orb_false_iff. split; lia. }
    split; [reflexivity|].
    intros Hmode. unfold submit. simpl. rewrite Hmode, Hgap.
    eexists _, _. split; [reflexivity|]. split; [reflexivity|].
    intros w n. simpl. now destruct (run w (S n) _).
Qed.

(** A gap that is not a number (an emptied input) is not caught by the
    range check. *)
Lemma handleSubmit_gap_NaN (token : string) (st : State) :
  startDateTime st <> "" ->
  gapMinutes st = NaN ->
  handleSubmit token st =
  submit token (setResult None (setError None (setLoading true st))).
Proof.
  intros Hstart Hgap. unfold handleSubmit.
  apply String.eqb_neq in Hstart. now rewrite Hstart, Hgap.
Qed.

Lemma handleSubmit_gap_check_witness :
  handleSubmit "t" (Samples.gap_form 0) =
    Done (setError (Some GAP_RANGE_ERROR) (Samples.gap_form 0)) /\
  handleSubmit "t" (Samples.gap_form 61) =
    Done (setError (Some GAP_RANGE_ERROR) (Samples.gap_form 61)) /\
  handleSubmit "t" (Samples.gap_form 1) =
    submit "t" (setResult None (setError None (setLoading true (Samples.gap_form 1)))) /\
  handleSubmit "t" (Samples.gap_form 60) =
    submit "t" (setResult None (setError None (setLoading true (Samples.gap_form 60)))).
Proof.
  assert (forall g, startDateTime (Samples.gap_form g) <> "") as Hs by discriminate.
  split; [|split; [|split]].
  - apply (handleSubmit_gap_check "t" (Samples.gap_form 0) 0 (Hs _) eq_refl). lia.
  - apply (handleSubmit_gap_check "t" (Samples.gap_form 61) 61 (Hs _) eq_refl). lia.
  - apply (handleSubmit_gap_check "t" (Samples.gap_form 1) 1 (Hs _) eq_refl). lia.
  - apply (handleSubmit_gap_check "t" (Samples.gap_form 60) 60 (Hs _) eq_refl). lia.
Defined.

End AutoFacts.

(** ** Schedule panel: manual receivers *)

Module ScheduleFacts.
Import Js Api Handler Store ScheduleEmails.

Lemma has_mail_and_date_iff (r : Receiver) :
  has_mail_and_date r = true <-> receiverMail r <> "" /\ scheduledDateTime r <> "".
Proof.
  unfold has_mail_and_date.
  rewrite andb_true_iff, !negb_true_iff, !String.eqb_neq. reflexivity.
Qed.

Lemma valid_rows_In (rows : list Receiver) (r : Receiver) :
  In r (List.filter has_mail_and_date rows) <->
  In r rows /\ receiverMail r <> "" /\ scheduledDateTime r <> "".
Proof. now rewrite filter_In, has_mail_and_date_iff. Qed.

(** What a call of the Schedule panel puts on the wire. *)
Lemma run_send (token : string) (st : State) (payload : json) (w : World) (n : nat) :
  (run w n (send token st payload)).2 =
  [{| req_url := "https://thetechdrops.duckdns.org/scheduleEmails";
      req_method := Some "POST";
      req_headers := <["Authorization" := "Bearer " +:+ token]> ∅ ∪ default_headers;
      req_body := Some payload;
      req_mode := "cors" |}].
Proof.
  unfold send. cbn [run].
  destruct (run_result (apiCall (w n) "/scheduleEmails" false (post token payload)));
    reflexivity.
Qed.

(** The manual branch, once the template is there. *)
Lemma handleSubmit_manual (token : string) (st : State) :
  mode st = manual ->
  draft_subject (currentTemplate st) <> "" ->
  draft_body (currentTemplate st) <> "" ->
  handleSubmit token st =
  let pending := setResponseMsg None (setLoading true st) in
  let rows := List.map receiver_payload (List.filter has_mail_and_date (receivers st)) in
  if (length rows =? 0)%nat
  then Done (failed pending (new_Error (Some (JStr NO_VALID_RECEIVER))))
  else send token pending (obj (base_payload pending ++ [("receivers", Some (JArr rows))])).
Proof.
  intros Hmode Hsubject Hbody. unfold handleSubmit. simpl.
  apply String.eqb_neq in Hsubject, Hbody. now rewrite Hsubject, Hbody, Hmode.
Qed.

(** C8: in manual mode with a subject and a body, when no row has both an
    email and a timestamp the submission ends with the "no valid receiver"
    error and nothing is sent; otherwise one request goes to the scheduling
    endpoint, and the [receivers] of its body are the rows that have both,
    in order, each with its four fields, the rows lacking either being left
    out. *)
Theorem handleSubmit_manual_receivers (token : string) (st : State) :
  mode st = manual ->
  draft_subject (currentTemplate st) <> "" ->
  draft_body (currentTemplate st) <> "" ->
  let act := handleSubmit token st in
  let valid :=
    List.filter
      (fun r => (negb (receiverMail r =? "")%string &&
                 negb (scheduledDateTime r =? "")%string)%bool)
      (receivers st) in
  (forall r, In r valid <->
     In r (receivers st) /\ receiverMail r <> "" /\ scheduledDateTime r <> "") /\
  ((forall r, In r (receivers st) -> receiverMail r = "" \/ scheduledDateTime r = "") ->
     forall w n,
       (run w n act).2 = [] /\
       responseMsg (run w n act).1 =
         Some (mkMsg error "Please add at least one valid receiver with a date.") /\
       loading (run w n act).1 = false) /\
  ((exists r, In r (receivers st) /\ receiverMail r <> "" /\ scheduledDateTime r <> "") ->
     forall w n, exists q body,
       (run w n act).2 = [q] /\
       req_url q = "https://thetechdrops.duckdns.org/scheduleEmails" /\
       req_method q = Some "POST" /\
       req_headers q !! "Authorization" = Some ("Bearer " +:+ token) /\
       req_body q = Some (JObj body) /\
       assoc "receivers" body =
         Some (JArr (List.map
                 (fun r =>
                    JObj [("receiverMail", JStr (receiverMail r));
                          ("receiverDomain", JStr (receiverDomain r));
                          ("receiverName", JStr (receiverName r));
                          ("scheduledDateTime",
                           JStr (String.substring 0 16
                                   (replace_first "T" " " (scheduledDateTime r))))])
                 valid))).
Proof.
  intros Hmode Hsubject Hbody. cbv zeta.
  change (fun r : Receiver =>
            (negb (receiverMail r =? "")%string &&
             negb (scheduledDateTime r =? "")%string)%bool) with has_mail_and_date.
  split; [intros r; apply valid_rows_In|].
  rewrite (handleSubmit_manual token st Hmode Hsubject Hbody). cbv zeta.
  rewrite length_map. split.
  - intros Hnone.
    assert (List.filter has_mail_and_date (receivers st) = []) as ->.
    { destruct (List.filter has_mail_and_date (receivers st)) as [|r l] eqn:E;
        [reflexivity|].
      assert (In r (List.filter has_mail_and_date (receivers st))) as Hr
        by (rewrite E; now left).
      apply valid_rows_In in Hr as (Hin & Hm & Hd).
      destruct (Hnone r Hin); contradiction. }
    intros w n. cbn [length Nat.eqb run fst snd]. repeat split.
  - intros (r & Hin & Hm & Hd).
    assert (In r (List.filter has_mail_and_date (receivers st))) as Hr
      by (apply valid_rows_In; auto).
    destruct (List.filter has_mail_and_date (receivers st)) as [|r0 l] eqn:E;
      [destruct Hr|].
    cbn [length Nat.eqb]. intros w n. rewrite run_send.
    eexists _, _. split; [reflexivity|]. cbn [req_url req_method req_headers req_body].
    split; [reflexivity|]. split; [reflexivity|].
    split; [apply RequestFacts.bearer_header|].
    split; reflexivity.
Qed.

Lemma handleSubmit_manual_receivers_witness :
  (exists q body,
     (run (fun _ => Samples.offline) 0
        (handleSubmit "t" (Samples.schedule_form [Samples.undated_row; Samples.complete_row]))).2
       = [q] /\
     req_body q = Some (JObj body) /\
     assoc "receivers" body =
       Some (JArr [JObj [("receiverMail", JStr "you@corp.example");
                         ("receiverDomain", JStr "corp.example");
                         ("receiverName", JStr "You");
                         ("scheduledDateTime", JStr "2026-01-05 09:30")]])) /\
  (run (fun _ => Samples.offline) 0
     (handleSubmit "t" (Samples.schedule_form [Samples.undated_row]))).2 = [].
Proof.
  pose proof (handleSubmit_manual_receivers "t"
                (Samples.schedule_form [Samples.undated_row; Samples.complete_row])
                eq_refl ltac:(discriminate) ltac:(discriminate)) as (_ & _ & Hsent).
  pose proof (handleSubmit_manual_receivers "t"
                (Samples.schedule_form [Samples.undated_row])
                eq_refl ltac:(discriminate) ltac:(discriminate)) as (_ & Hnone & _).
  split.
  - assert (exists r, In r [Samples.undated_row; Samples.complete_row] /\
                       receiverMail r <> "" /\ scheduledDateTime r <> "") as Hex.
    { exists Samples.complete_row. split; [right; now left|]. split; discriminate. }
    destruct (Hsent Hex (fun _ => Samples.offline) 0%nat)
      as (q & body & Hq & _ & _ & _ & Hbody & Hrows).
    exists q, body. split; [exact Hq|]. split; [exact Hbody|]. exact Hrows.
  - refine (proj1 (Hnone _ (fun _ => Samples.offline) 0%nat)).
    intros r [<- | []]. now right.
Defined.

End ScheduleFacts.

(** ** User Stats: "select all" *)

Module SelectionFacts.
Import Js Api Handler UserStats.

Lemma same_ids_incl (a b : list string) :
  same_ids a b = true <-> incl a b /\ incl b a.
Proof.
  assert (forall a b : list string,
            forallb (fun x => existsb (String.eqb x) b) a = true <-> incl a b) as H.
  { intros a' b'. rewrite forallb_forall. unfold incl.
    split; intros Hall x Hx.
    - apply Hall, existsb_exists in Hx as (y & Hy & E).
      apply String.eqb_eq in E. now subst.
    - apply existsb_exists. exists x. split; [auto | apply String.eqb_refl]. }
  unfold same_ids. now rewrite andb_true_iff, !H.
Qed.

(** While the selection is a duplicate-free part of the loaded ids, the
    length test of [toggleSelectAll] is the set-equality test. *)
Lemma toggleSelectAll_agrees (st : State) :
  NoDup (List.map _id (logs st)) -> selection_within_logs st ->
  toggleSelectAll st = toggleSelectAll_by_set_equality st.
Proof.
  intros Hids [Hsel Hincl].
  unfold toggleSelectAll, toggleSelectAll_by_set_equality.
  rewrite <- (length_map _id (logs st)).
  destruct (length (selectedIds st) =? length (List.map _id (logs st)))%nat eqn:E.
  - apply Nat.eqb_eq in E.
    assert (same_ids (selectedIds st) (List.map _id (logs st)) = true) as ->;
      [|reflexivity].
    apply same_ids_incl. split; [assumption|].
    apply NoDup_ListNoDup in Hsel.
    apply (List.NoDup_length_incl Hsel); [lia | assumption].
  - apply Nat.eqb_neq in E.
    destruct (same_ids (selectedIds st) (List.map _id (logs st))) eqn:S; [|reflexivity].
    apply same_ids_incl in S as [H1 H2].
    apply NoDup_ListNoDup in Hsel, Hids.
    pose proof (List.NoDup_incl_length Hsel H1).
    pose proof (List.NoDup_incl_length Hids H2). lia.
Qed.

(** [handleDeleteSingle] reloads the logs and leaves the selection as it
    was, the deleted id included. *)
Lemma handleDeleteSingle_keeps_selection
    (token id : string) (st : State) (w : World) (n : nat) :
  selectedIds (run w n (handleDeleteSingle token id st)).1 = selectedIds st.
Proof.
  unfold handleDeleteSingle. simpl run.
  destruct (run_result (apiCall (w n) _ false _)) as [data | err]; [|reflexivity].
  unfold fetchLogs. simpl run.
  destruct (bind _ logs_of); reflexivity.
Qed.

(** [handleDeleteBulk] empties the selection before it reloads the logs. *)
Lemma handleDeleteBulk_clears (token : string) (st : State) (w : World) (n : nat) (data : json) :
  selectedIds st <> [] ->
  run_result (apiCall (w n) "/emails/logs/bulk-delete" false
    (authorized (Some "POST") token
       (Some (JObj [("ids", JArr (List.map JStr (selectedIds st)))])))) = Resolved data ->
  selectedIds (run w n (handleDeleteBulk token st)).1 = [].
Proof.
  intros Hsel Hok. unfold handleDeleteBulk.
  destruct (length (selectedIds st) =? 0)%nat eqn:E.
  { apply Nat.eqb_eq, length_zero_iff_nil in E. congruence. }
  simpl run. change (selectedIds (setIsDeleting true st)) with (selectedIds st).
  rewrite Hok. unfold fetchLogs. simpl run.
  destruct (bind _ logs_of); reflexivity.
Qed.

Lemma existsb_eqb_In (id : string) (l : list string) :
  existsb (fun i => (i =? id)%string) l = true <-> In id l.
Proof.
  rewrite existsb_exists. split.
  - intros (x & Hx & E). apply String.eqb_eq in E. now subst.
  - intros H. exists id. split; [assumption | apply String.eqb_refl].
Qed.

(** Ticking a loaded row keeps the selection within the loaded ids. *)
Lemma toggleSelect_within (st : State) (l : EmailLog) :
  In l (logs st) -> selection_within_logs st ->
  selection_within_logs (toggleSelect (_id l) st).
Proof.
  intros Hl [Hnd Hincl]. unfold selection_within_logs, toggleSelect. simpl.
  apply NoDup_ListNoDup in Hnd.
  destruct (existsb (fun i => (i =? _id l)%string) (selectedIds st)) eqn:E.
  - split.
    + apply NoDup_ListNoDup. now apply List.NoDup_filter.
    + intros x Hx. apply filter_In in Hx as [Hx _]. now apply Hincl.
  - split.
    + apply NoDup_ListNoDup. apply List.NoDup_app; [assumption | | ].
      * constructor; [intros [] | constructor].
      * intros x Hx [<- | []].
        apply existsb_eqb_In in Hx. congruence.
    + intros x Hx. apply in_app_or in Hx as [Hx | [<- | []]]; [now apply Hincl|].
      now apply in_map.
Qed.

(** C9, amended: "select all" compares the number of selected ids with
    the number of loaded rows, clearing the selection when they are equal
    and selecting every loaded id otherwise; this is the set-equality
    check as long as the selection is a duplicate-free part of the loaded
    ids, which ticking rows and "select all" itself maintain. *)
Theorem toggleSelectAll_by_length (st : State) :
  (length (selectedIds st) = length (logs st) ->
     toggleSelectAll st = setSelectedIds [] st) /\
  (length (selectedIds st) <> length (logs st) ->
     toggleSelectAll st = setSelectedIds (List.map _id (logs st)) st) /\
  (NoDup (List.map _id (logs st)) -> selection_within_logs st ->
     toggleSelectAll st = toggleSelectAll_by_set_equality st /\
     selection_within_logs (toggleSelectAll st)) /\
  (forall l, In l (logs st) -> selection_within_logs st ->
     selection_within_logs (toggleSelect (_id l) st)).
Proof.
  split; [|split; [|split]].
  - intros E. unfold toggleSelectAll. apply Nat.eqb_eq in E. now rewrite E.
  - intros E. unfold toggleSelectAll. apply Nat.eqb_neq in E. now rewrite E.
  - intros Hids Hwithin. split; [now apply toggleSelectAll_agrees|].
    unfold selection_within_logs, toggleSelectAll.
    destruct (length (selectedIds st) =? length (logs st))%nat; simpl.
    + split; [apply NoDup_nil; exact I | intros x []].
    + split; [assumption | intros x Hx; exact Hx].
  - intros l. apply toggleSelect_within.
Qed.

Lemma toggleSelectAll_by_length_witness :
  let st := toggleSelect "a"
              (run (Samples.serving ["a"; "b"; "c"]) 0 (mount "t" initial)).1 in
  toggleSelectAll st = toggleSelectAll_by_set_equality st /\
  selectedIds (toggleSelectAll st) = ["a"; "b"; "c"].
Proof.
  cbv zeta. split; [|reflexivity].
  refine (proj1 (proj1 (proj2 (proj2 (toggleSelectAll_by_length _))) _ _)).
  - apply NoDup_ListNoDup. vm_compute.
    repeat (constructor; [simpl; intuition discriminate|]). constructor.
  - split.
    + apply NoDup_singleton.
    + intros x [<- | []]. vm_compute. now left.
Defined.

(** C9 as stated fails: a single-row delete leaves the deleted id in the
    selection, and the length test then takes two selected ids, one of
    them gone, for "all selected" over two other loaded rows. *)
Lemma toggleSelectAll_counts_stale_ids :
  reachable "t" Samples.after_single_delete /\
  selectedIds Samples.after_single_delete = ["a"; "b"] /\
  List.map _id (logs Samples.after_single_delete) = ["b"; "c"] /\
  selectedIds (toggleSelectAll Samples.after_single_delete) = [] /\
  selectedIds (toggleSelectAll_by_set_equality Samples.after_single_delete) = ["b"; "c"] /\
  toggleSelectAll Samples.after_single_delete <>
  toggleSelectAll_by_set_equality Samples.after_single_delete.
Proof.
  split; [|repeat split; try reflexivity; vm_compute; discriminate].
  unfold Samples.after_single_delete. cbv zeta.
  apply (reach_toggleSelect "t" _ (mkLog "b" (Samples.log_row "b"))).
  - apply (reach_deleteSingle "t" _ (mkLog "a" (Samples.log_row "a"))).
    + apply (reach_toggleSelect "t" _ (mkLog "a" (Samples.log_row "a"))).
      * apply reach_mount.
      * vm_compute. now left.
    + vm_compute. now left.
  - vm_compute. now left.
Qed.

End SelectionFacts.

(** ** The API helper: logging and success *)

Module ApiMoreFacts.
Import Js Api JsFacts.

(** X1: [suppressLog] changes the console and nothing else: the outcome is
    the same with and without it, a suppressed call logs nothing, and an
    unsuppressed one logs exactly the error as it was raised (not the
    network error it may be replaced by) and nothing on success. *)
Theorem apiCall_suppressLog_only_silences
    (net : Network) (endpoint : string) (options : RequestInit) :
  run_result (apiCall net endpoint true options) =
    run_result (apiCall net endpoint false options) /\
  run_console (apiCall net endpoint true options) = [] /\
  (forall data, run_result (apiCall net endpoint false options) = Resolved data ->
     run_console (apiCall net endpoint false options) = []) /\
  (forall e, net (build_request endpoint options) = Rejected e ->
     run_console (apiCall net endpoint false options) = [e]) /\
  (forall thrown, run_result (apiCall net endpoint false options) = Rejected thrown ->
     exists raised, run_console (apiCall net endpoint false options) = [raised] /\
       (thrown = raised \/ err_message thrown = NETWORK_ERROR)).
Proof.
  unfold apiCall, apiCall_catch.
  destruct (apiCall_try net endpoint options) as [data | err] eqn:E; simpl.
  - split; [reflexivity|]. split; [reflexivity|]. split; [reflexivity|]. split.
    + intros e Hnet. unfold apiCall_try in E. rewrite Hnet in E. discriminate.
    + discriminate.
  - split; [reflexivity|]. split; [reflexivity|]. split; [discriminate|]. split.
    + intros e Hnet. unfold apiCall_try in E. rewrite Hnet in E. simpl in E. congruence.
    + intros thrown [= <-]. exists err. split; [reflexivity|].
      destruct (looks_like_network_failure err); [right | left]; reflexivity.
Qed.

Lemma apiCall_suppressLog_only_silences_witness :
  run_console (apiCall Samples.offline "/health" false Samples.plain_get) =
  [{| err_name := "TypeError"; err_message := "Load failed" |}].
Proof.
  exact (proj1 (proj2 (proj2 (proj2
           (apiCall_suppressLog_only_silences Samples.offline "/health" Samples.plain_get))))
         _ eq_refl).
Defined.

(** X2: [apiCall] hands a value to its caller only for a 2xx response
    whose body could be read, and the value is that body. *)
Theorem apiCall_resolves_only_on_2xx
    (net : Network) (endpoint : string) (sl : bool) (options : RequestInit) (data : json) :
  run_result (apiCall net endpoint sl options) = Resolved data ->
  exists res,
    net (build_request endpoint options) = Resolved res /\
    res_ok res = true /\
    read_body res = Resolved data.
Proof.
  intros H. unfold apiCall, apiCall_catch in H.
  destruct (apiCall_try net endpoint options) as [d | err] eqn:E;
    simpl in H; [|discriminate].
  injection H as ->. unfold apiCall_try in E.
  destruct (net (build_request endpoint options)) as [res | e]; simpl in E; [|discriminate].
  exists res. unfold check_status in E.
  destruct (read_body res) as [d | e]; simpl in E; [|discriminate].
  destruct (res_ok res); simpl in E; [|discriminate].
  injection E as ->. now repeat split.
Qed.

Lemma apiCall_resolves_only_on_2xx_witness :
  exists res,
    Samples.answers Samples.login_ok (build_request "/login" Samples.plain_get) =
      Resolved res /\
    res_ok res = true /\
    read_body res = Resolved (JObj [("token", JStr "abc")]).
Proof.
  exact (apiCall_resolves_only_on_2xx (Samples.answers Samples.login_ok) "/login" false
           Samples.plain_get _ eq_refl).
Defined.

End ApiMoreFacts.

(** ** The body editor *)

Module EditorFacts.
Import Js Store ScheduleEmails Editor.

Lemma length_app_string (s t : string) :
  String.length (s +:+ t) = (String.length s + String.length t)%nat.
Proof. induction s as [|c s IH]; simpl; [reflexivity | now rewrite IH]. Qed.

Lemma app_cons_string (c : ascii) (s t : string) :
  String c s +:+ t = String c (s +:+ t).
Proof. reflexivity. Qed.

Lemma app_assoc_string (s t u : string) : (s +:+ t) +:+ u = s +:+ t +:+ u.
Proof.
  induction s as [|c s IH]; [reflexivity|].
  now rewrite !app_cons_string, IH.
Qed.

Lemma substring_all (s : string) : substring 0 (String.length s) s = s.
Proof. induction s as [|c s IH]; simpl; [reflexivity | now f_equal]. Qed.

Lemma substring_cut (b : nat) (s : string) :
  (b <= String.length s)%nat ->
  substring 0 b s +:+ substring b (String.length s - b) s = s.
Proof.
  revert b. induction s as [|c s IH]; intros [|b] H; simpl in H |- *.
  - reflexivity.
  - lia.
  - now rewrite substring_all.
  - rewrite app_cons_string. f_equal. apply IH. lia.
Qed.

(** A text is its part before the selection, the selection and the rest. *)
Lemma substring_cut3 (a b : nat) (s : string) :
  (a <= b)%nat -> (b <= String.length s)%nat ->
  substring 0 a s +:+ substring a (b - a) s +:+ substring b (String.length s - b) s = s.
Proof.
  revert a b. induction s as [|c s IH]; intros [|a] [|b] Ha Hb; simpl in Hb |- *;
    try lia.
  - reflexivity.
  - now rewrite substring_all.
  - change ("" +:+ ?x) with x. rewrite app_cons_string. f_equal.
    apply substring_cut. lia.
  - rewrite app_cons_string. f_equal. apply IH; lia.
Qed.

Lemma length_substring (a m : nat) (s : string) :
  (a + m <= String.length s)%nat -> String.length (substring a m s) = m.
Proof.
  revert a m. induction s as [|c s IH]; intros [|a] [|m] H; simpl in H |- *;
    try lia; try reflexivity.
  - f_equal. apply (IH 0%nat). lia.
  - apply (IH a 0%nat). lia.
  - apply IH. lia.
Qed.

Lemma substring_prefix (m q : string) : substring 0 (String.length m) (m +:+ q) = m.
Proof.
  induction m as [|c m IH]; [now destruct q|].
  rewrite app_cons_string. simpl. now rewrite IH.
Qed.

Lemma substring_middle (p m q : string) :
  substring (String.length p) (String.length m) (p +:+ m +:+ q) = m.
Proof.
  induction p as [|c p IH]; [exact (substring_prefix m q)|].
  rewrite app_cons_string. exact IH.
Qed.

Lemma js_substring_ordered (a b : nat) (s : string) :
  (a <= b)%nat -> (b <= String.length s)%nat ->
  js_substring a b s = substring a (b - a) s.
Proof.
  intros Ha Hb. unfold js_substring.
  rewrite (Nat.min_l a), (Nat.min_l b), (Nat.min_l a b), (Nat.max_r a b) by lia.
  reflexivity.
Qed.

(** X3: [insertTag] loses no text and keeps the selection.  The textarea's
    value is its part before the selection, the selection and the rest; the
    new body is those three with the opening tag put before the selection
    and the closing tag after it, the subject and the name are untouched,
    and the range selected afterwards covers the same text as before. *)
Theorem insertTag_keeps_text_and_selection
    (tagStart tagEnd : string) (ta : Textarea) (st : State) :
  well_formed ta ->
  exists before selection after,
    value ta = before +:+ selection +:+ after /\
    String.length before = selectionStart ta /\
    String.length selection = (selectionEnd ta - selectionStart ta)%nat /\
    let st' := (insertTag tagStart tagEnd (Some ta) st).1 in
    draft_body (currentTemplate st') =
      before +:+ tagStart +:+ selection +:+ tagEnd +:+ after /\
    draft_subject (currentTemplate st') = draft_subject (currentTemplate st) /\
    draft_name (currentTemplate st') = draft_name (currentTemplate st) /\
    exists a b,
      (insertTag tagStart tagEnd (Some ta) st).2 = Some (a, b) /\
      js_substring a b (draft_body (currentTemplate st')) = selection.
Proof.
  intros [Hse Hel].
  set (text := value ta) in *.
  set (start := selectionStart ta) in *.
  set (end_ := selectionEnd ta) in *.
  exists (substring 0 start text), (substring start (end_ - start) text),
         (substring end_ (String.length text - end_) text).
  assert (String.length (substring 0 start text) = start) as Hlb
    by (apply length_substring; lia).
  assert (String.length (substring start (end_ - start) text) = (end_ - start)%nat) as Hls
    by (apply length_substring; lia).
  split; [symmetry; now apply substring_cut3|].
  split; [exact Hlb|]. split; [exact Hls|].
  cbv zeta. unfold insertTag. fold text start end_. cbn [fst snd].
  unfold substring_from.
  rewrite !js_substring_ordered by lia.
  rewrite Nat.sub_0_r.
  split; [reflexivity|]. split; [reflexivity|]. split; [reflexivity|].
  eexists _, _. split; [reflexivity|]. simpl draft_body.
  set (before := substring 0 start text) in *.
  set (selection := substring start (end_ - start) text) in *.
  set (after := substring end_ (String.length text - end_) text).
  rewrite js_substring_ordered.
  - replace (end_ + String.length tagStart - (start + String.length tagStart))%nat
      with (String.length selection) by lia.
    replace (start + String.length tagStart)%nat
      with (String.length (before +:+ tagStart)) by (rewrite length_app_string; lia).
    rewrite <- (app_assoc_string before tagStart).
    apply substring_middle.
  - lia.
  - rewrite !length_app_string. lia.
Qed.

Lemma insertTag_keeps_text_and_selection_witness :
  exists before selection after,
    "Dear customer" = before +:+ selection +:+ after /\
    String.length before = 5%nat /\
    String.length selection = 8%nat /\
    draft_body (currentTemplate
      (insertTag "<b>" "</b>" (Some (mkTextarea "Dear customer" 5 13)) initial).1) =
      before +:+ "<b>" +:+ selection +:+ "</b>" +:+ after.
Proof.
  destruct (insertTag_keeps_text_and_selection "<b>" "</b>"
              (mkTextarea "Dear customer" 5 13) initial)
    as (before & selection & after & Hv & Hb & Hs & Hbody & _).
  - split; simpl; lia.
  - exists before, selection, after. repeat split; assumption.
Defined.

End EditorFacts.

(** ** Template sessions *)

Module TemplateFacts.
Import Js Store ScheduleEmails TemplateSession StoreFacts CollectionFacts.

Lemma deleteTemplate_stored (id : string) (storage : Storage) (st : State) :
  stored_templates (storage_after (deleteTemplate id storage st)) =
  templates (state_after (deleteTemplate id storage st)).
Proof.
  unfold deleteTemplate. simpl. rewrite stored_templates_insert.
  now destruct (selectedTemplateId st =? id)%string.
Qed.





(** X5: [deleteTemplate] leaves no template with the given id and keeps
    every other template, in order; an id that no template carries
    changes nothing in the list. *)
Theorem deleteTemplate_removes_id (id : string) (storage : Storage) (st : State) :
  let after := templates (state_after (deleteTemplate id storage st)) in
  (forall t, In t after <-> In t (templates st) /\ tpl_id t <> id) /\
  after = List.filter (fun t => negb (tpl_id t =? id)%string) (templates st) /\
  ((forall t, In t (templates st) -> tpl_id t <> id) -> after = templates st) /\
  stored_templates (storage_after (deleteTemplate id storage st)) = after.
Proof.
  cbv zeta.
  assert (templates (state_after (deleteTemplate id storage st)) =
          List.filter (fun t => negb (tpl_id t =? id)%string) (templates st)) as E.
  { unfold deleteTemplate. simpl. now destruct (selectedTemplateId st =? id)%string. }
  rewrite deleteTemplate_stored, E. split; [|split; [reflexivity|split; [|reflexivity]]].
  - intros t. rewrite filter_In, negb_true_iff, String.eqb_neq. reflexivity.
  - generalize (templates st). intros l Hnone.
    induction l as [|a l IH]; [reflexivity|]. simpl.
    assert ((tpl_id a =? id)%string = false) as E'.
    { apply String.eqb_neq. apply Hnone. now left. }
    rewrite E'. simpl. f_equal. apply IH. intros t Ht. apply Hnone. now right.
Qed.

Lemma find_fresh_last (id : string) (l : list Template) (t : Template) :
  id ∉ (tpl_id <$> l) -> tpl_id t = id ->
  find (fun x => (tpl_id x =? id)%string) (l ++ [t]) = Some t.
Proof.
  intros Hfresh Ht. unfold find. induction l as [|a l IH]; simpl.
  - now rewrite Ht, String.eqb_refl.
  - rewrite fmap_cons, not_elem_of_cons in Hfresh. destruct Hfresh as [Ha Hl].
    assert ((tpl_id a =? id)%string = false) as -> by (apply String.eqb_neq; congruence).
    now apply IH.
Qed.

Lemma filter_fresh_last (id : string) (l : list Template) (t : Template) :
  id ∉ (tpl_id <$> l) -> tpl_id t = id ->
  List.filter (fun x => negb (tpl_id x =? id)%string) (l ++ [t]) = l.
Proof.
  intros Hfresh Ht. induction l as [|a l IH]; simpl.
  - now rewrite Ht, String.eqb_refl.
  - rewrite fmap_cons, not_elem_of_cons in Hfresh. destruct Hfresh as [Ha Hl].
    assert ((tpl_id a =? id)%string = false) as -> by (apply String.eqb_neq; congruence).
    simpl. f_equal. now apply IH.
Qed.

(** X6: a template saved under an id that no stored template carries can
    be got back and taken out again: the save selects it, loading its id
    brings back the saved subject, body and name whatever was typed since,
    and deleting its id restores the list as it was before the save,
    clears the selection and empties the draft. *)
Theorem saveTemplate_then_load_or_delete (now : Z) (storage : Storage) (st : State) :
  draft_name (currentTemplate st) <> "" ->
  pretty now ∉ (tpl_id <$> templates st) ->
  let saved := saveTemplate now storage st in
  let deleted := deleteTemplate (pretty now) (storage_after saved) (state_after saved) in
  selectedTemplateId (state_after saved) = pretty now /\
  (forall d, currentTemplate
               (loadTemplate (pretty now) (setCurrentTemplate d (state_after saved))) =
             currentTemplate st) /\
  templates (state_after deleted) = templates st /\
  stored_templates (storage_after deleted) = templates st /\
  selectedTemplateId (state_after deleted) = "" /\
  currentTemplate (state_after deleted) = mkDraft "" "" "".
Proof.
  intros Hname Hfresh. cbv zeta. rewrite (saveTemplate_named _ _ _ Hname). simpl.
  split; [reflexivity|]. split.
  - intros d. unfold loadTemplate. simpl.
    rewrite (find_fresh_last (pretty now) (templates st)
               (template_at now (currentTemplate st)) Hfresh eq_refl).
    simpl. now destruct (currentTemplate st).
  - unfold deleteTemplate. simpl. rewrite String.eqb_refl. simpl.
    rewrite stored_templates_insert.
    rewrite (filter_fresh_last (pretty now) (templates st)
               (template_at now (currentTemplate st)) Hfresh eq_refl).
    now repeat split.
Qed.

Lemma saveTemplate_then_load_or_delete_witness :
  templates (state_after
    (deleteTemplate (pretty 1700000000123%Z)
       (storage_after (saveTemplate 1700000000123 Samples.one_template
                         (mount Samples.one_template Samples.drafting_promo)))
       (state_after (saveTemplate 1700000000123 Samples.one_template
                       (mount Samples.one_template Samples.drafting_promo))))) =
  templates (mount Samples.one_template Samples.drafting_promo).
Proof.
  refine (proj1 (proj2 (proj2 (saveTemplate_then_load_or_delete 1700000000123
            Samples.one_template (mount Samples.one_template Samples.drafting_promo)
            _ _)))).
  - discriminate.
  - vm_compute. intros H. apply list_elem_of_singleton in H. discriminate.
Defined.

End TemplateFacts.

(** ** Saved senders *)

Module SenderFacts.
Import Js Store ScheduleEmails StoreFacts CollectionFacts SenderList.

Lemma keyed_filter (p : Sender -> bool) (l : list Sender) :
  keyed_by_email l -> keyed_by_email (List.filter p l).
Proof.
  intros [Hnd Hne]. split.
  - induction l as [|a l IH]; simpl; [constructor|].
    rewrite fmap_cons in Hnd. apply NoDup_cons in Hnd as [Ha Hnd].
    apply Forall_cons in Hne as [_ Hne].
    destruct (p a); [|now apply IH].
    rewrite fmap_cons. apply NoDup_cons. split; [|now apply IH].
    intros Hin. apply Ha. apply list_elem_of_fmap in Hin as (x & -> & Hx).
    apply list_elem_of_fmap. exists x. split; [reflexivity|].
    apply list_elem_of_In. apply list_elem_of_In, filter_In in Hx. tauto.
  - apply Forall_forall. intros x Hx. rewrite Forall_forall in Hne. apply Hne.
    apply list_elem_of_In. apply list_elem_of_In, filter_In in Hx. tauto.
Qed.

Lemma filter_absent_last (e : string) (l : list Sender) (s : Sender) :
  (forall x, x ∈ l -> email x <> e) -> email s = e ->
  List.filter (fun x => negb (email x =? e)%string) (l ++ [s]) = l.
Proof.
  intros Habsent Hs. induction l as [|a l IH]; simpl.
  - now rewrite Hs, String.eqb_refl.
  - assert ((email a =? e)%string = false) as ->
      by (apply String.eqb_neq, Habsent; left).
    simpl. f_equal. apply IH. intros x Hx. apply Habsent. now right.
Qed.

(** X7: saving and deleting keep the saved senders a keyed list: if the
    list has one row per email and no row without an email, it still has
    after either operation.  After a delete no row carries the deleted
    email, and deleting a sender that was just saved under a new email
    gives back the list as it was. *)
Theorem saved_senders_stay_keyed
    (sender : Sender) (e : string) (storage : Storage) (st : State) :
  keyed_by_email (savedSenders st) ->
  let saved := saveSenderProfile sender storage st in
  let deleted := deleteSavedSender e storage st in
  keyed_by_email (savedSenders (state_after saved)) /\
  keyed_by_email (savedSenders (state_after deleted)) /\
  (forall s, s ∈ savedSenders (state_after deleted) -> email s <> e) /\
  stored_senders (storage_after deleted) = savedSenders (state_after deleted) /\
  (email sender <> "" ->
   (forall x, x ∈ savedSenders st -> email x <> email sender) ->
   savedSenders (state_after (deleteSavedSender (email sender)
                                (storage_after saved) (state_after saved))) =
   savedSenders st).
Proof.
  intros Hkeyed. cbv zeta. split; [|split; [|split; [|split]]].
  - destruct (String.eqb_spec (email sender) "") as [E | E].
    + unfold saveSenderProfile. apply String.eqb_eq in E. now rewrite E.
    + destruct Hkeyed as [Hnd Hne]. split; [now apply upsert_single|].
      destruct (upsert_cases sender storage st E)
        as [[_ ->] | (l1 & s & l2 & Hl & _ & _ & ->)].
      * apply Forall_app. split; [assumption | now repeat constructor].
      * rewrite Hl in Hne. apply Forall_app in Hne as [H1 H2].
        apply Forall_cons in H2 as [_ H2].
        apply Forall_app. split; [assumption | now constructor].
  - now apply keyed_filter.
  - intros s Hs. unfold deleteSavedSender in Hs. simpl in Hs.
    apply list_elem_of_In, filter_In in Hs as [_ Hs].
    now apply negb_true_iff, String.eqb_neq in Hs.
  - unfold deleteSavedSender. simpl. apply stored_senders_insert.
  - intros E Habsent. rewrite (upsert_absent _ storage _ E Habsent).
    unfold deleteSavedSender. simpl.
    now apply filter_absent_last.
Qed.

Lemma saved_senders_stay_keyed_witness :
  keyed_by_email
    (savedSenders (state_after (saveSenderProfile Samples.ab_x ∅ initial))).
Proof.
  refine (proj1 (saved_senders_stay_keyed Samples.ab_x "" ∅ initial _)).
  split; [apply NoDup_nil; exact I | constructor].
Defined.

End SenderFacts.

(** ** Sender rows as shared objects *)

Module SenderRowFacts.
Import Js Store SenderRows StoreFacts CollectionFacts.

Lemma findIndex_fmap {A B} (p : B -> bool) (g : A -> B) (l : list A) :
  findIndex p (g <$> l) = findIndex (fun x => p (g x)) l.
Proof.
  induction l as [|a l IH]; [reflexivity|].
  rewrite fmap_cons. simpl. now rewrite IH.
Qed.

(** X8: on the values its references show, the object-level save is the
    value-level [saveSenderProfile]: same saved list, same store, same
    alert; no object is written and the form's rows are left alone. *)
Theorem saveSenderProfile_reads_objects
    (r : nat) (storage : Storage) (f : Form) (st : ScheduleEmails.State) :
  ScheduleEmails.savedSenders st = view f (savedSenders f) ->
  let done := saveSenderProfile r storage f in
  let eff := ScheduleEmails.saveSenderProfile (deref f r) storage st in
  view done.1.1 (savedSenders done.1.1) =
    ScheduleEmails.savedSenders (ScheduleEmails.state_after eff) /\
  done.1.2 = ScheduleEmails.storage_after eff /\
  done.2 = ScheduleEmails.alerted eff /\
  objects done.1.1 = objects f /\
  senders done.1.1 = senders f.
Proof.
  intros Hview. cbv zeta.
  unfold saveSenderProfile, ScheduleEmails.saveSenderProfile.
  destruct (email (deref f r) =? "")%string; simpl; [now rewrite Hview|].
  rewrite Hview. unfold view. rewrite findIndex_fmap.
  destruct (findIndex _ (savedSenders f) >=? 0)%Z; simpl.
  - unfold view, deref. simpl. rewrite list_fmap_insert. now repeat split.
  - unfold view, deref. simpl. rewrite fmap_app. now repeat split.
Qed.

Lemma saveSenderProfile_reads_objects_witness :
  view (saveSenderProfile 0 ∅ (editEmail 0 "a@b.com" initial)).1.1
       (savedSenders (saveSenderProfile 0 ∅ (editEmail 0 "a@b.com" initial)).1.1) =
  [mkSender "a@b.com" (Some "")].
Proof.
  exact (proj1 (saveSenderProfile_reads_objects 0 ∅ (editEmail 0 "a@b.com" initial)
                  ScheduleEmails.initial eq_refl)).
Defined.

Lemma save_new_row (r : nat) (storage : Storage) (f : Form) :
  email (deref f r) <> "" ->
  (forall s, s ∈ savedSenders f -> email (deref f s) <> email (deref f r)) ->
  saveSenderProfile r storage f =
  (mkForm (objects f) (senders f) (savedSenders f ++ [r]),
   <["savedSenders" := stringify sender_to_json (deref f <$> savedSenders f ++ [r])]> storage,
   None).
Proof.
  intros He Hnew. unfold saveSenderProfile.
  apply String.eqb_neq in He. rewrite He.
  rewrite findIndex_none; [reflexivity|].
  apply Forall_forall. intros s Hs. now apply String.eqb_neq, Hnew.
Qed.

Lemma save_last_row (r : nat) (storage : Storage) (f : Form) (l : list nat) :
  savedSenders f = l ++ [r] ->
  email (deref f r) <> "" ->
  (forall s, s ∈ l -> email (deref f s) <> email (deref f r)) ->
  saveSenderProfile r storage f =
  (f, <["savedSenders" := stringify sender_to_json (deref f <$> l ++ [r])]> storage, None).
Proof.
  intros Hl He Hnew. unfold saveSenderProfile.
  apply String.eqb_neq in He. rewrite He, Hl.
  rewrite findIndex_first.
  - rewrite geb_of_nat, Nat2Z.id, insert_middle. destruct f. simpl in *. now subst.
  - apply Forall_forall. intros s Hs. now apply String.eqb_neq, Hnew.
  - apply String.eqb_refl.
Qed.

(** X9: a saved row stays tied to the form.  When a row with a new email
    is saved, the store gets that sender appended; typing another email
    into the same row then changes the saved list the panel holds, but not
    the store; and saving the row again writes the renamed sender over the
    one stored before instead of appending a second entry. *)
Theorem editing_a_saved_row_renames_it
    (idx r : nat) (e2 : string) (storage : Storage) (f : Form) :
  senders f !! idx = Some r ->
  is_Some (objects f !! r) ->
  r ∉ savedSenders f ->
  email (deref f r) <> "" -> e2 <> "" ->
  (forall s, s ∈ savedSenders f ->
     email (deref f s) <> email (deref f r) /\ email (deref f s) <> e2) ->
  let first := saveRow idx storage f in
  let edited := editEmail idx e2 first.1.1 in
  let second := saveRow idx first.1.2 edited in
  let renamed := mkSender e2 (password (deref f r)) in
  ScheduleEmails.stored_senders first.1.2 = view f (savedSenders f) ++ [deref f r] /\
  view edited (savedSenders edited) = view f (savedSenders f) ++ [renamed] /\
  ScheduleEmails.stored_senders second.1.2 = view f (savedSenders f) ++ [renamed].
Proof.
  intros Hrow [s0 Hobj] Hnotin He1 He2 Hothers. cbv zeta.
  set (f1 := mkForm (objects f) (senders f) (savedSenders f ++ [r])).
  set (f2 := mkForm (alter (fun s => mkSender e2 (password s)) r (objects f))
               (senders f) (savedSenders f ++ [r])).
  assert (saveRow idx storage f =
          (f1, <["savedSenders" := stringify sender_to_json
                   (deref f <$> savedSenders f ++ [r])]> storage, None)) as Hfirst.
  { unfold saveRow. rewrite Hrow.
    apply (save_new_row r storage f He1 (fun s Hs => proj1 (Hothers s Hs))). }
  rewrite Hfirst. cbn [fst snd].
  assert (editEmail idx e2 f1 = f2) as Hedit
    by (unfold editEmail, f1, f2; simpl; now rewrite Hrow).
  rewrite Hedit.
  assert (deref f2 r = mkSender e2 (password (deref f r))) as Hr.
  { unfold deref, f2. simpl. rewrite lookup_alter_eq, Hobj. reflexivity. }
  assert (forall s, s ∈ savedSenders f -> deref f2 s = deref f s) as Hsame.
  { intros s Hs. unfold deref, f2. simpl. rewrite lookup_alter_ne; [reflexivity|].
    intros ->. contradiction. }
  assert (view f2 (savedSenders f ++ [r]) =
          view f (savedSenders f) ++ [mkSender e2 (password (deref f r))]) as Hview.
  { unfold view. rewrite fmap_app. simpl. rewrite Hr. f_equal.
    apply list_fmap_ext. intros i s Hs. apply Hsame. eapply list_elem_of_lookup_2, Hs. }
  split; [|split; [exact Hview|]].
  - rewrite stored_senders_insert. unfold view. now rewrite fmap_app.
  - unfold saveRow. change (senders f2) with (senders f). rewrite Hrow.
    rewrite (save_last_row r _ f2 (savedSenders f) eq_refl).
    + cbn [fst snd]. rewrite stored_senders_insert. exact Hview.
    + now rewrite Hr.
    + intros s Hs. rewrite Hr, (Hsame s Hs). simpl. now apply Hothers.
Qed.

Lemma editing_a_saved_row_renames_it_witness :
  let f := editEmail 0 "a@b.com" initial in
  let first := saveRow 0 ∅ f in
  let second := saveRow 0 first.1.2 (editEmail 0 "c@d.com" first.1.1) in
  ScheduleEmails.stored_senders first.1.2 = [mkSender "a@b.com" (Some "")] /\
  ScheduleEmails.stored_senders second.1.2 = [mkSender "c@d.com" (Some "")].
Proof.
  cbv zeta.
  destruct (editing_a_saved_row_renames_it 0 0 "c@d.com" ∅ (editEmail 0 "a@b.com" initial))
    as (H1 & _ & H3).
  - reflexivity.
  - now exists (mkSender "a@b.com" (Some "")).
  - intros H. inversion H.
  - discriminate.
  - discriminate.
  - intros s H. inversion H.
  - split; [exact H1 | exact H3].
Defined.

End SenderRowFacts.

(** ** Schedule panel: the submit handler as a whole *)

Module ScheduleMoreFacts.
Import Js Api Handler Store ScheduleEmails JsFacts DomainFacts.

Lemma run_call {St} (w : World) (n : nat) (pending : St) (endpoint : string)
    (options : RequestInit) (k : outcome json -> Action St) :
  run w n (Call pending endpoint options k) =
  ((run w (S n) (k (run_result (apiCall (w n) endpoint false options)))).1,
   build_request endpoint options ::
   (run w (S n) (k (run_result (apiCall (w n) endpoint false options)))).2).
Proof. simpl. now destruct (run w (S n) _). Qed.

Lemma failed_settled (st : State) (err : JsError) :
  loading (failed st err) = false /\
  responseMsg (failed st err) = Some (mkMsg error (err_message err)).
Proof. now split. Qed.

Lemma succeeded_settled (st : State) (data : json) :
  loading (succeeded st data) = false /\ is_Some (responseMsg (succeeded st data)).
Proof.
  unfold succeeded. destruct (bind _ _); simpl; split; eauto.
Qed.

Lemma send_settled (token : string) (st : State) (payload : json) (w : World) (n : nat) :
  let r := run w n (send token st payload) in
  loading r.1 = false /\ is_Some (responseMsg r.1) /\ length r.2 = 1%nat.
Proof.
  cbv zeta. unfold send. rewrite run_call. simpl.
  destruct (run_result _) as [data | err]; simpl.
  - destruct (succeeded_settled st data). now repeat split.
  - repeat split. eauto.
Qed.

(** X10: however [handleSubmit] of the Schedule panel goes, it ends with
    the spinner off and a banner, success or error, on display, and it
    reaches the network at most once; without a subject or a body it does
    not reach it at all, in either mode. *)
Theorem handleSubmit_always_settles (token : string) (st : State) (w : World) (n : nat) :
  let r := run w n (handleSubmit token st) in
  loading r.1 = false /\
  is_Some (responseMsg r.1) /\
  (length r.2 <= 1)%nat /\
  (draft_subject (currentTemplate st) = "" \/ draft_body (currentTemplate st) = "" ->
   r.2 = [] /\ responseMsg r.1 = Some (mkMsg error "Template required.")).
Proof.
  cbv zeta. unfold handleSubmit. simpl.
  destruct (draft_subject (currentTemplate st) =? "")%string eqn:Es;
  destruct (draft_body (currentTemplate st) =? "")%string eqn:Eb; simpl;
    try (split; [reflexivity|]; split; [eauto|]; split; [lia|]; intros _; now split).
  apply String.eqb_neq in Es, Eb.
  assert (forall payload,
            let r := run w n (send token (setResponseMsg None (setLoading true st)) payload) in
            loading r.1 = false /\ is_Some (responseMsg r.1) /\ (length r.2 <= 1)%nat /\
            (draft_subject (currentTemplate st) = "" \/ draft_body (currentTemplate st) = "" ->
             r.2 = [] /\ responseMsg r.1 = Some (mkMsg error "Template required."))) as Hsend.
  { intros payload. cbv zeta.
    destruct (send_settled token (setResponseMsg None (setLoading true st)) payload w n)
      as (H1 & H2 & H3).
    split; [exact H1|]. split; [exact H2|]. split; [lia|].
    intros [E | E]; contradiction. }
  assert (forall s : State, loading s = false -> is_Some (responseMsg s) ->
            loading s = false /\ is_Some (responseMsg s) /\ (0 <= 1)%nat /\
            (draft_subject (currentTemplate st) = "" \/ draft_body (currentTemplate st) = "" ->
             [] = @nil Request /\ responseMsg s = Some (mkMsg error "Template required.")))
    as Hdone.
  { intros s H1 H2. split; [exact H1|]. split; [exact H2|]. split; [lia|].
    intros [E | E]; contradiction. }
  destruct (mode st).
  - destruct (length _ =? 0)%nat; [|apply Hsend].
    apply Hdone; [reflexivity | eauto].
  - destruct (csvFile st) as [file|].
    + destruct (fileToBase64 file) as [b64 | err]; [apply Hsend|].
      apply Hdone; [reflexivity | eauto].
    + apply Hdone; [reflexivity | eauto].
Qed.

End ScheduleMoreFacts.

(** ** What goes into a payload *)

Module PayloadFacts.
Import Js Api Handler JsFacts DomainFacts EditorFacts.


Lemma replace_first_at (c : ascii) (by_ s t : string) :
  ~ occurs (String c "") s ->
  replace_first c by_ (s +:+ String c t) = s +:+ by_ +:+ t.
Proof.
  induction s as [|d s IH]; intros H.
  - change ("" +:+ ?x) with x. simpl. now rewrite Ascii.eqb_refl.
  - rewrite occurs_cons in H. rewrite !app_cons_string. simpl.
    destruct (Ascii.eqb d c) eqn:E; [apply Ascii.eqb_eq in E; tauto|].
    rewrite IH by tauto. reflexivity.
Qed.

Lemma substring_past_prefix (p q : string) (k : nat) :
  substring 0 (String.length p + k) (p +:+ q) = p +:+ substring 0 k q.
Proof.
  induction p as [|c p IH]; [reflexivity|].
  rewrite !app_cons_string. simpl. now rewrite IH.
Qed.

Lemma length_substring_le (n : nat) (s : string) :
  (String.length (substring 0 n s) <= n)%nat.
Proof.
  revert n. induction s as [|c s IH]; intros [|n]; simpl; try lia.
  specialize (IH n). lia.
Qed.

(** X11: a timestamp goes out cut to sixteen characters, and one of the
    form date, "T", time (a ten-character date and at least five
    characters of time, as a datetime-local input gives) goes out as the
    date, a space and the hours and minutes. *)
Theorem normalize_timestamp_to_minutes :
  (forall t, (String.length (normalize_timestamp t) <= 16)%nat) /\
  (forall date time,
     ~ occurs "T" date -> String.length date = 10%nat -> (5 <= String.length time)%nat ->
     normalize_timestamp (date +:+ "T" +:+ time) = date +:+ " " +:+ substring 0 5 time) /\
  (forall t, ~ occurs "T" t -> (String.length t <= 16)%nat -> normalize_timestamp t = t).
Proof.
  split; [|split].
  - intros t. apply length_substring_le.
  - intros date time Hno Hlen Htime. unfold normalize_timestamp, substring_to.
    change ("T" +:+ time) with (String "T" time).
    rewrite (replace_first_at "T" " " date time Hno).
    rewrite <- app_assoc_string.
    replace 16%nat with (String.length (date +:+ " ") + 5)%nat
      by (rewrite length_app_string, Hlen; reflexivity).
    rewrite substring_past_prefix. now rewrite app_assoc_string.
  - intros t Hno Hlen. unfold normalize_timestamp, substring_to.
    assert (replace_first "T" " " t = t) as ->.
    { induction t as [|c t IH]; [reflexivity|]. simpl.
      rewrite occurs_cons in Hno.
      destruct (Ascii.eqb c "T") eqn:E; [apply Ascii.eqb_eq in E; tauto|].
      f_equal. apply IH; [tauto | simpl in Hlen; lia]. }
    rewrite <- (substring_all t) at 2.
    clear Hno. revert Hlen. generalize 16%nat.
    induction t as [|c t IH]; intros [|k] H; simpl in H |- *; try lia; try reflexivity.
    f_equal. rewrite substring_all. rewrite <- (substring_all t) at 2.
    apply IH. lia.
Qed.



Lemma no_char_in (c : ascii) (s : string) :
  (indexOf s (String c "") =? -1)%Z = true -> ~ occurs (String c "") s.
Proof.
  intros E H. apply (indexOf_occurs (String c "") s) in H; [congruence | discriminate].
Qed.


Lemma fileToBase64_no_comma (file : File) (url : string) :
  file_data_url file = Resolved url -> ~ occurs "," url ->
  fileToBase64 file = Resolved None.
Proof.
  intros Hurl Hno. unfold fileToBase64. rewrite Hurl. simpl.
  now rewrite (split_on_absent "," url Hno).
Qed.

Lemma fileToBase64_after_comma (file : File) (head b64 : string) :
  file_data_url file = Resolved (head +:+ "," +:+ b64) ->
  ~ occurs "," head -> ~ occurs "," b64 ->
  fileToBase64 file = Resolved (Some (JStr b64)).
Proof.
  intros Hurl Hhead Hb64. unfold fileToBase64. rewrite Hurl. simpl.
  rewrite (split_on_first "," head b64 Hhead), (split_on_absent "," b64 Hb64).
  reflexivity.
Qed.

(** The CSV branch, once the template and the file are there. *)
Lemma handleSubmit_csv (token : string) (st : ScheduleEmails.State) (file : File) :
  ScheduleEmails.mode st = ScheduleEmails.csv ->
  ScheduleEmails.draft_subject (ScheduleEmails.currentTemplate st) <> "" ->
  ScheduleEmails.draft_body (ScheduleEmails.currentTemplate st) <> "" ->
  ScheduleEmails.csvFile st = Some file ->
  ScheduleEmails.handleSubmit token st =
  let pending := ScheduleEmails.setResponseMsg None (ScheduleEmails.setLoading true st) in
  match fileToBase64 file with
  | Rejected err => Done (ScheduleEmails.failed pending err)
  | Resolved b64 =>
      ScheduleEmails.send token pending
        (obj (ScheduleEmails.base_payload pending ++ [("receivers_csv_base64", b64)]))
  end.
Proof.
  intros Hmode Hs Hb Hfile. unfold ScheduleEmails.handleSubmit. simpl.
  apply String.eqb_neq in Hs, Hb. now rewrite Hs, Hb, Hmode, Hfile.
Qed.

(** X13: in CSV mode of the Schedule panel, with a template and a file,
    one request is sent whatever the file held.  When the file's data URL
    has a comma (as "data:text/csv;base64,..." has) the body of the request
    carries the text after it as [receivers_csv_base64]; when it has none,
    as for an empty file read as "data:", the request goes out without that
    field.  In neither case does the body carry manual receivers. *)
Theorem handleSubmit_csv_payload
    (token : string) (st : ScheduleEmails.State) (file : File) (url : string)
    (w : World) (n : nat) :
  ScheduleEmails.mode st = ScheduleEmails.csv ->
  ScheduleEmails.draft_subject (ScheduleEmails.currentTemplate st) <> "" ->
  ScheduleEmails.draft_body (ScheduleEmails.currentTemplate st) <> "" ->
  ScheduleEmails.csvFile st = Some file ->
  file_data_url file = Resolved url ->
  exists q body,
    (run w n (ScheduleEmails.handleSubmit token st)).2 = [q] /\
    req_url q = "https://thetechdrops.duckdns.org/scheduleEmails" /\
    req_method q = Some "POST" /\
    req_headers q !! "Authorization" = Some ("Bearer " +:+ token) /\
    req_body q = Some (JObj body) /\
    assoc "receivers" body = None /\
    (~ occurs "," url -> assoc "receivers_csv_base64" body = None) /\
    (forall head b64, url = head +:+ "," +:+ b64 ->
       ~ occurs "," head -> ~ occurs "," b64 ->
       assoc "receivers_csv_base64" body = Some (JStr b64)).
Proof.
  intros Hmode Hs Hb Hfile Hurl.
  rewrite (handleSubmit_csv token st file Hmode Hs Hb Hfile). cbv zeta.
  destruct (fileToBase64 file) as [b | err] eqn:E.
  - rewrite ScheduleFacts.run_send.
    eexists _, _. split; [reflexivity|]. cbn [req_url req_method req_headers req_body].
    split; [reflexivity|]. split; [reflexivity|].
    split; [apply RequestFacts.bearer_header|].
    split; [reflexivity|]. split.
    + now destruct b.
    + split.
      * intros Hno. rewrite (fileToBase64_no_comma file url Hurl Hno) in E.
        injection E as <-. reflexivity.
      * intros head b64 -> Hh Hb64.
        rewrite (fileToBase64_after_comma file head b64 Hurl Hh Hb64) in E.
        injection E as <-. reflexivity.
  - unfold fileToBase64 in E. rewrite Hurl in E. discriminate.
Qed.

Lemma handleSubmit_csv_payload_witness :
  exists q body,
    (run (fun _ => Samples.offline) 0
       (ScheduleEmails.handleSubmit "t" Cases.empty_upload)).2 = [q] /\
    req_body q = Some (JObj body) /\
    assoc "receivers_csv_base64" body = None.
Proof.
  destruct (handleSubmit_csv_payload "t" Cases.empty_upload (mkFile (Resolved "data:"))
              "data:" (fun _ => Samples.offline) 0%nat)
    as (q & body & Hq & _ & _ & _ & Hbody & _ & Hnone & _);
    try reflexivity; try discriminate.
  exists q, body. split; [exact Hq|]. split; [exact Hbody|]. apply Hnone.
  now apply no_char_in.
Defined.

End PayloadFacts.

(** ** Auto-Schedule: what is sent *)

Module AutoMoreFacts.
Import Js Api Handler Store AutoScheduler.

Lemma handleSubmit_checked (token : string) (st : State) :
  startDateTime st <> "" ->
  (num_lt (gapMinutes st) 1 || num_gt (gapMinutes st) 60)%bool = false ->
  handleSubmit token st =
  submit token (setResult None (setError None (setLoading true st))).
Proof.
  intros Hstart Hgap. unfold handleSubmit.
  apply String.eqb_neq in Hstart. now rewrite Hstart, Hgap.
Qed.

(** What a call of the Auto-Schedule panel puts on the wire. *)
Lemma run_send_auto (token : string) (st : State) (payload : json) (w : World) (n : nat) :
  (run w n (send token st payload)).2 =
  [{| req_url := "https://thetechdrops.duckdns.org/scheduleEmails/auto";
      req_method := Some "POST";
      req_headers := <["Authorization" := "Bearer " +:+ token]> ∅ ∪ default_headers;
      req_body := Some payload;
      req_mode := "cors" |}].
Proof.
  unfold send. cbn [run].
  destruct (run_result (apiCall (w n) "/scheduleEmails/auto" false (post token payload)));
    reflexivity.
Qed.

(** X14: a gap that is not a number (the input emptied) is not stopped by
    the range check: in manual mode one request goes out, and its body has
    the gap written as [null]. *)
Theorem handleSubmit_gap_not_a_number
    (token : string) (st : State) (w : World) (n : nat) :
  startDateTime st <> "" ->
  gapMinutes st = NaN ->
  mode st = manual ->
  exists q body,
    (run w n (handleSubmit token st)).2 = [q] /\
    req_url q = "https://thetechdrops.duckdns.org/scheduleEmails/auto" /\
    req_method q = Some "POST" /\
    req_headers q !! "Authorization" = Some ("Bearer " +:+ token) /\
    req_body q = Some (JObj body) /\
    assoc "gapMinutes" body = Some JNull.
Proof.
  intros Hstart Hgap Hmode.
  rewrite handleSubmit_checked by (assumption || now rewrite Hgap).
  unfold submit. cbn [mode setResult setError setLoading]. rewrite Hmode.
  rewrite run_send_auto.
  eexists _, _. split; [reflexivity|]. cbn [req_url req_method req_headers req_body].
  split; [reflexivity|]. split; [reflexivity|].
  split; [apply RequestFacts.bearer_header|].
  split; [reflexivity|]. cbn. rewrite Hgap. reflexivity.
Qed.

Lemma handleSubmit_gap_not_a_number_witness :
  exists q body,
    (run (fun _ => Samples.offline) 0 (handleSubmit "t" Cases.gap_emptied)).2 = [q] /\
    req_body q = Some (JObj body) /\
    assoc "gapMinutes" body = Some JNull.
Proof.
  destruct (handleSubmit_gap_not_a_number "t" Cases.gap_emptied (fun _ => Samples.offline) 0%nat)
    as (q & body & Hq & _ & _ & _ & Hbody & Hgap);
    [discriminate | reflexivity | reflexivity |].
  exists q, body. split; [exact Hq|]. split; [exact Hbody|]. exact Hgap.
Defined.

(** X15: once the start time and the gap have passed, what the
    Auto-Schedule request carries depends on the mode alone.  Manual mode
    always sends one request, whose body has the sender and the rows that
    have an email (possibly none); receiver-CSV mode sends the sender and
    the file; full-CSV mode sends the file and no sender; and a CSV mode
    without a file ends with an error and no request. *)
Theorem handleSubmit_payload_by_mode
    (token : string) (st : State) (g : Z) (w : World) (n : nat) :
  startDateTime st <> "" ->
  gapMinutes st = Int g -> (1 <= g <= 60)%Z ->
  let r := run w n (handleSubmit token st) in
  let sent body :=
    exists q, r.2 = [q] /\
      req_url q = "https://thetechdrops.duckdns.org/scheduleEmails/auto" /\
      req_method q = Some "POST" /\
      req_headers q !! "Authorization" = Some ("Bearer " +:+ token) /\
      req_body q = Some (JObj body) /\
      assoc "gapMinutes" body = Some (JNum g) in
  let the_sender :=
    JObj (("senderMail", JStr (email (sender st))) ::
          match password (sender st) with
          | Some p => [("smtp_password", JStr p)]
          | None => []
          end) in
  (mode st = manual ->
     exists body, sent body /\
       assoc "sender" body = Some the_sender /\
       assoc "receivers" body =
         Some (JArr (List.map
                 (fun r => JObj [("receiverMail", JStr (receiverMail r));
                                 ("receiverDomain", JStr (receiverDomain r));
                                 ("receiverName", JStr (receiverName r))])
                 (List.filter (fun r => negb (receiverMail r =? "")%string) (receivers st)))) /\
       assoc "receivers_csv_base64" body = None /\
       assoc "csv_base64" body = None) /\
  (csvFile st = None ->
     (mode st = receiver_csv ->
        r.2 = [] /\ error r.1 = Some "Please upload receivers CSV" /\ loading r.1 = false) /\
     (mode st = full_csv ->
        r.2 = [] /\ error r.1 = Some "Please upload full CSV" /\ loading r.1 = false)) /\
  (forall file b64, csvFile st = Some file -> fileToBase64 file = Resolved (Some (JStr b64)) ->
     (mode st = receiver_csv ->
        exists body, sent body /\
          assoc "sender" body = Some the_sender /\
          assoc "receivers_csv_base64" body = Some (JStr b64) /\
          assoc "receivers" body = None /\
          assoc "csv_base64" body = None) /\
     (mode st = full_csv ->
        exists body, sent body /\
          assoc "csv_base64" body = Some (JStr b64) /\
          assoc "sender" body = None /\
          assoc "receivers" body = None /\
          assoc "receivers_csv_base64" body = None)).
Proof.
  intros Hstart Hgap Hrange. cbv zeta.
  rewrite handleSubmit_checked; [|assumption|].
  2:{ rewrite Hgap. simpl. rewrite Z.gtb_ltb. apply orb_false_iff. split; lia. }
  unfold submit. cbn [mode csvFile setResult setError setLoading].
  assert (forall payload body,
            payload = JObj body -> assoc "gapMinutes" body = Some (JNum g) ->
            exists q,
              (run w n (send token (setResult None (setError None (setLoading true st)))
                          payload)).2 = [q] /\
              req_url q = "https://thetechdrops.duckdns.org/scheduleEmails/auto" /\
              req_method q = Some "POST" /\
              req_headers q !! "Authorization" = Some ("Bearer " +:+ token) /\
              req_body q = Some (JObj body) /\
              assoc "gapMinutes" body = Some (JNum g)) as Hsent.
  { intros payload body -> Hg. rewrite run_send_auto. eexists. split; [reflexivity|].
    cbn [req_url req_method req_headers req_body].
    split; [reflexivity|]. split; [reflexivity|].
    split; [apply RequestFacts.bearer_header|]. now split. }
  split; [|split].
  - intros ->. eexists. split.
    + apply Hsent; [reflexivity|]. cbn. now rewrite Hgap.
    + unfold sender_payload. cbn. destruct (password (sender st)); now repeat split.
  - intros Hfile. rewrite Hfile. split; intros ->; now repeat split.
  - intros file b64 Hfile Hb64. rewrite Hfile, Hb64. split; intros ->.
    + eexists. split.
      * apply Hsent; [reflexivity|]. cbn. now rewrite Hgap.
      * unfold sender_payload. cbn. destruct (password (sender st)); now repeat split.
    + eexists. split.
      * apply Hsent; [reflexivity|]. cbn. now rewrite Hgap.
      * now repeat split.
Qed.

Lemma handleSubmit_payload_by_mode_witness :
  exists q body,
    (run (fun _ => Samples.offline) 0 (handleSubmit "t" (Samples.gap_form 5))).2 = [q] /\
    req_body q = Some (JObj body) /\
    assoc "gapMinutes" body = Some (JNum 5) /\
    assoc "receivers" body =
      Some (JArr [JObj [("receiverMail", JStr "you@corp.example");
                        ("receiverDomain", JStr "corp.example");
                        ("receiverName", JStr "You")]]) /\
    assoc "csv_base64" body = None.
Proof.
  destruct (proj1 (handleSubmit_payload_by_mode "t" (Samples.gap_form 5) 5
                     (fun _ => Samples.offline) 0%nat
                     ltac:(discriminate) eq_refl ltac:(lia)) eq_refl)
    as (body & (q & Hq & _ & _ & _ & Hbody & Hg) & _ & Hrows & _ & Hnone).
  exists q, body. split; [exact Hq|]. split; [exact Hbody|]. split; [exact Hg|].
  split; [exact Hrows | exact Hnone].
Defined.

End AutoMoreFacts.

(** ** Domain Manager: requests and the shared block list *)

Module DomainMoreFacts.
Import Js Api Handler DomainManager JsFacts DomainFacts ScheduleMoreFacts.

(** X16: the password heuristic of a sender row and the Domain Manager's
    gate read an address alike, whatever [toLowerCase] maps: for a
    non-empty address, the row shows a password input exactly when a
    verification request for it is refused as a public domain. *)
Theorem isPublic_is_the_domain_gate
    (toLowerCase : string -> string) (token : string) (st : State) :
  newEmail st <> "" ->
  SenderCard.isPublic toLowerCase (newEmail st) = true <->
  handleRequestVerification toLowerCase token st =
    Done (setMsg (Some (mkMsg error PUBLIC_DOMAIN)) st).
Proof.
  intros H. rewrite (handleRequestVerification_cases _ _ _ H).
  unfold SenderCard.isPublic.
  destruct (split_on "@" (newEmail st)) as [|a [|b l]] eqn:E.
  - now destruct (split_on_nonempty "@" (newEmail st)).
  - simpl. split; [discriminate|]. intros Hd. inversion Hd.
  - simpl (1 <? _)%nat. cbv iota. simpl nth.
    change (existsb _ _) with (includes blockedDomains (toLowerCase b)).
    destruct (includes blockedDomains (toLowerCase b)); split;
      try reflexivity; try discriminate.
Qed.

Lemma isPublic_is_the_domain_gate_witness :
  SenderCard.isPublic toLowerCase_ascii "User@Gmail.COM" = true <->
  handleRequestVerification toLowerCase_ascii "t" (Samples.typed "User@Gmail.COM") =
    Done (setMsg (Some (mkMsg error PUBLIC_DOMAIN)) (Samples.typed "User@Gmail.COM")).
Proof.
  apply (isPublic_is_the_domain_gate toLowerCase_ascii "t" (Samples.typed "User@Gmail.COM")).
  discriminate.
Defined.



End DomainMoreFacts.

(** ** User Stats: ticking rows and deleting *)

Module SelectionMoreFacts.
Import Js Api Handler UserStats SelectionFacts ScheduleMoreFacts.

(** The pattern [l.includes(x) ? l.filter(i => i !== x) : [...l, x]]. *)
Lemma toggle_flips (x : string) (l : list string) :
  let l' := if existsb (fun i => (i =? x)%string) l
            then List.filter (fun i => negb (i =? x)%string) l
            else l ++ [x] in
  (In x l' <-> ~ In x l) /\
  (forall y, y <> x -> (In y l' <-> In y l)).
Proof.
  cbv zeta. destruct (existsb _ l) eqn:E.
  - apply existsb_eqb_In in E. split.
    + rewrite filter_In, negb_true_iff, String.eqb_neq. tauto.
    + intros y Hy. rewrite filter_In, negb_true_iff, String.eqb_neq. tauto.
  - assert (~ In x l) as Hx by (rewrite <- existsb_eqb_In; congruence).
    split.
    + rewrite in_app_iff. simpl. tauto.
    + intros y Hy. rewrite in_app_iff. simpl. split; [|tauto].
      intros [H | [H | []]]; [exact H | congruence].
Qed.

Lemma filter_out_last (x : string) (l : list string) :
  ~ In x l -> List.filter (fun i => negb (i =? x)%string) (l ++ [x]) = l.
Proof.
  intros H. induction l as [|a l IH]; simpl.
  - now rewrite String.eqb_refl.
  - assert ((a =? x)%string = false) as -> by (apply String.eqb_neq; intros ->; apply H; now left).
    simpl. f_equal. apply IH. intros Hin. apply H. now right.
Qed.

(** X18: ticking a row's checkbox flips that row and no other: the id is
    selected afterwards exactly when it was not before, every other id
    keeps its state, and ticking an unselected row twice gives back the
    selection as it was. *)
Theorem toggleSelect_flips_one (id : string) (st : State) :
  (In id (selectedIds (toggleSelect id st)) <-> ~ In id (selectedIds st)) /\
  (forall other, other <> id ->
     (In other (selectedIds (toggleSelect id st)) <-> In other (selectedIds st))) /\
  (~ In id (selectedIds st) ->
     selectedIds (toggleSelect id (toggleSelect id st)) = selectedIds st) /\
  logs (toggleSelect id st) = logs st.
Proof.
  split; [|split; [|split]].
  - apply (toggle_flips id (selectedIds st)).
  - apply (toggle_flips id (selectedIds st)).
  - intros H. unfold toggleSelect. simpl.
    assert (existsb (fun i => (i =? id)%string) (selectedIds st) = false) as ->.
    { apply not_true_iff_false. now rewrite existsb_eqb_In. }
    assert (existsb (fun i => (i =? id)%string) (selectedIds st ++ [id]) = true) as ->.
    { apply existsb_eqb_In, in_app_iff. right. now left. }
    now apply filter_out_last.
  - reflexivity.
Qed.

(** X19: the three delete handlers fail closed.  When the delete call is
    rejected (whatever the server does with other requests), the loaded
    logs and the selection are as before, the user is alerted with the
    error's message, the confirmation modal is closed, and no second
    request (the reload) is made. *)
Theorem deletes_fail_closed
    (token id : string) (st : State) (w : World) (n : nat) (err : JsError) :
  let with_bearer (method : string) (body : option json) :=
    {| init_method := Some method;
       init_headers := <["Authorization" := "Bearer " +:+ token]> ∅;
       init_body := body |} in
  let refused (endpoint : string) (options : RequestInit) :=
    run_result (apiCall (w n) endpoint false options) = Rejected err in
  let closed (r : State * list Request) :=
    logs r.1 = logs st /\ selectedIds r.1 = selectedIds st /\
    alerts r.1 = alerts st ++ [err_message err] /\
    isDeleting r.1 = false /\ confirmModal r.1 = None /\ length r.2 = 1%nat in
  (refused ("/emails/logs/" +:+ id) (with_bearer "DELETE" None) ->
     closed (run w n (handleDeleteSingle token id st))) /\
  (refused "/emails/logs/delete-all" (with_bearer "DELETE" None) ->
     closed (run w n (handleDeleteAll token st))) /\
  (selectedIds st <> [] ->
   refused "/emails/logs/bulk-delete"
     (with_bearer "POST" (Some (JObj [("ids", JArr (List.map JStr (selectedIds st)))]))) ->
     closed (run w n (handleDeleteBulk token st))).
Proof.
  cbv zeta. split; [|split].
  - intros Hfail. unfold handleDeleteSingle. rewrite run_call.
    change (authorized (Some "DELETE") token None)
      with {| init_method := Some "DELETE";
              init_headers := <["Authorization" := "Bearer " +:+ token]> ∅;
              init_body := None |}.
    rewrite Hfail. now repeat split.
  - intros Hfail. unfold handleDeleteAll. rewrite run_call.
    change (authorized (Some "DELETE") token None)
      with {| init_method := Some "DELETE";
              init_headers := <["Authorization" := "Bearer " +:+ token]> ∅;
              init_body := None |}.
    rewrite Hfail. now repeat split.
  - intros Hsel Hfail. unfold handleDeleteBulk.
    destruct (length (selectedIds st) =? 0)%nat eqn:E.
    { apply Nat.eqb_eq, length_zero_iff_nil in E. contradiction. }
    rewrite run_call.
    change (authorized (Some "POST") token ?b)
      with {| init_method := Some "POST";
              init_headers := <["Authorization" := "Bearer " +:+ token]> ∅;
              init_body := b |}.
    cbn [selectedIds setIsDeleting]. rewrite Hfail. now repeat split.
Qed.

Lemma deletes_fail_closed_witness :
  is_Some (match run_result (apiCall (Cases.refuses_delete 0%nat) "/emails/logs" false
                               (authorized None "t" None)) with
           | Resolved data => Some data
           | Rejected _ => None
           end) /\
  selectedIds (run Cases.refuses_delete 0
                 (handleDeleteSingle "t" "a" (toggleSelect "a" initial))).1 = ["a"] /\
  alerts (run Cases.refuses_delete 0
            (handleDeleteSingle "t" "a" (toggleSelect "a" initial))).1 = ["Not allowed"] /\
  length (run Cases.refuses_delete 0
            (handleDeleteSingle "t" "a" (toggleSelect "a" initial))).2 = 1%nat.
Proof.
  split; [eexists; reflexivity|].
  destruct (proj1 (deletes_fail_closed "t" "a" (toggleSelect "a" initial)
                     Cases.refuses_delete 0
                     {| err_name := "Error"; err_message := "Not allowed" |}) eq_refl)
    as (_ & Hsel & Halert & _ & _ & Hone).
  split; [exact Hsel|]. split; [exact Halert | exact Hone].
Defined.

(** X20: "delete selected" with nothing selected does nothing, not even
    close the modal; with a selection it posts exactly the selected ids,
    and once that call succeeds the selection is emptied and the logs are
    reloaded by one more request. *)
Theorem handleDeleteBulk_sends_selection
    (token : string) (st : State) (w : World) (n : nat) :
  let r := run w n (handleDeleteBulk token st) in
  (selectedIds st = [] -> r = (st, [])) /\
  (selectedIds st <> [] ->
     exists q rest, r.2 = q :: rest /\
       req_url q = BASE_URL +:+ "/emails/logs/bulk-delete" /\
       req_method q = Some "POST" /\
       req_body q = Some (JObj [("ids", JArr (List.map JStr (selectedIds st)))]) /\
       (forall data,
          run_result (apiCall (w n) "/emails/logs/bulk-delete" false
            (authorized (Some "POST") token
               (Some (JObj [("ids", JArr (List.map JStr (selectedIds st)))])))) =
          Resolved data ->
          selectedIds r.1 = [] /\ isDeleting r.1 = false /\ confirmModal r.1 = None /\
          exists reload, rest = [reload] /\ req_url reload = BASE_URL +:+ "/emails/logs")).
Proof.
  cbv zeta. unfold handleDeleteBulk. split.
  - intros ->. reflexivity.
  - intros Hsel.
    destruct (length (selectedIds st) =? 0)%nat eqn:E.
    { apply Nat.eqb_eq, length_zero_iff_nil in E. contradiction. }
    rewrite run_call. cbn [fst snd]. eexists _, _. split; [reflexivity|].
    split; [reflexivity|]. split; [reflexivity|]. split; [reflexivity|].
    intros data Hok.
    change (selectedIds (setIsDeleting true st)) with (selectedIds st).
    rewrite Hok. unfold fetchLogs. rewrite run_call. cbn [fst snd].
    destruct (bind _ logs_of); simpl; repeat split; eexists; split; reflexivity.
Qed.




End SelectionMoreFacts.

(** ** Login and the root *)

Module AuthFacts.
Import Js Api Handler AuthScreen ScheduleMoreFacts.


(** X23: a login that fails reports nothing: when the call is rejected
    the error shown is its message, when the answer says "Admin approval
    required" the error shown is the pending-approval text, and in both
    cases [onLogin] is not called and no probe is made. *)
Theorem handleLoginSubmit_failure_reports_nothing (st : State) (w : World) (n : nat) :
  let answer := run_result (apiCall (w n) "/login" false (login_request st)) in
  let r := run w n (handleLoginSubmit st) in
  (forall err, answer = Rejected err ->
     error r.1 = err_message err /\ onLogin r.1 = onLogin st /\
     isLoading r.1 = false /\ length r.2 = 1%nat) /\
  (forall fields, answer = Resolved (JObj fields) ->
     assoc "error" fields = Some (JStr "Admin approval required") ->
     error r.1 = PENDING_APPROVAL /\ onLogin r.1 = onLogin st /\
     isLoading r.1 = false /\ length r.2 = 1%nat).
Proof.
  cbv zeta. unfold handleLoginSubmit. rewrite run_call. cbn [fst snd].
  change (login_request (setError "" (setIsLoading true st))) with (login_request st).
  split.
  - intros err ->. now repeat split.
  - intros fields -> Herr. simpl get. rewrite Herr. now repeat split.
Qed.




End AuthFacts.

(** ** Health indicator, admin editor, uploads *)

Module ConsoleFacts.
Import Js Api Handler JsFacts ScheduleMoreFacts SelectionMoreFacts PayloadFacts.

(** X25: the console shows "Online" exactly when the health call came
    back with an object whose [status] is "ok"; a rejected call, whatever
    the reason, shows "Offline". *)
Theorem health_online_iff (health : jsval) (w : World) (n : nat) :
  let answer := run_result (apiCall (w n) "/health" false UserDashboard.no_options) in
  let r := run w n (UserDashboard.mount health) in
  (UserDashboard.online r.1 = true <->
   exists fields, answer = Resolved (JObj fields) /\
                  assoc "status" fields = Some (JStr "ok")) /\
  (forall err, answer = Rejected err -> UserDashboard.online r.1 = false) /\
  length r.2 = 1%nat.
Proof.
  cbv zeta. unfold UserDashboard.mount. rewrite run_call. cbn [fst snd].
  destruct (run_result _) as [data | err]; simpl.
  - split; [|split; [discriminate | reflexivity]].
    unfold UserDashboard.online. split.
    + destruct data as [| | | |items|fields]; simpl; try discriminate.
      destruct (assoc "status" fields) as [[| | |s| |]|] eqn:E; try discriminate.
      intros Hs. apply String.eqb_eq in Hs. subst s. now exists fields.
    + intros (fields & [= ->] & Hs). simpl. now rewrite Hs.
  - split; [|split; reflexivity].
    split; [discriminate | intros (fields & Hd & _); discriminate].
Qed.

(** X26: opening the permission editor never leaves the form on
    "pending", without an API, or at zero days or a zero limit: a pending
    user is preset to approved, an empty API list to the four defaults, a
    missing or zero number to its default; anything else is taken from the
    user as it is. *)
Theorem handleEditClick_presets (user : AdminDashboard.User) (st : AdminDashboard.State) :
  let f := AdminDashboard.formData (AdminDashboard.handleEditClick user st) in
  AdminDashboard.form_status f <> AdminDashboard.pending /\
  AdminDashboard.form_allowed_apis f <> [] /\
  AdminDashboard.form_access_days f <> 0%Z /\
  AdminDashboard.form_monthly_email_limit f <> 0%Z /\
  (AdminDashboard.status user <> AdminDashboard.pending ->
     AdminDashboard.form_status f = AdminDashboard.status user) /\
  (AdminDashboard.allowed_apis user <> [] ->
     AdminDashboard.form_allowed_apis f = AdminDashboard.allowed_apis user) /\
  (forall d, AdminDashboard.access_days user = Some d -> d <> 0%Z ->
     AdminDashboard.form_access_days f = d) /\
  AdminDashboard.editingUser (AdminDashboard.handleEditClick user st) = Some user /\
  AdminDashboard.msg (AdminDashboard.handleEditClick user st) = None.
Proof.
  assert (forall n d, d <> 0%Z -> AdminDashboard.or_number n d <> 0%Z) as Hor.
  { intros [v|] d Hd; simpl; [|exact Hd].
    destruct (v =? 0)%Z eqn:E; [exact Hd | now apply Z.eqb_neq]. }
  cbv zeta. unfold AdminDashboard.handleEditClick. simpl.
  split; [now destruct (AdminDashboard.status user)|].
  split.
  { destruct (AdminDashboard.allowed_apis user); simpl; discriminate. }
  split; [now apply Hor|].
  split; [apply Hor, Hor; discriminate|].
  split; [now destruct (AdminDashboard.status user)|].
  split.
  { destruct (AdminDashboard.allowed_apis user); simpl; [contradiction | reflexivity]. }
  split; [|now split].
  intros d -> Hd. simpl. apply Z.eqb_neq in Hd. now rewrite Hd.
Qed.

(** X27: a permission checkbox flips its own API and no other. *)
Theorem toggleApi_flips_one (api : string) (st : AdminDashboard.State) :
  let before := AdminDashboard.form_allowed_apis (AdminDashboard.formData st) in
  let after := AdminDashboard.form_allowed_apis
                 (AdminDashboard.formData (AdminDashboard.toggleApi api st)) in
  (In api after <-> ~ In api before) /\
  (forall other, other <> api -> (In other after <-> In other before)) /\
  AdminDashboard.form_status (AdminDashboard.formData (AdminDashboard.toggleApi api st)) =
    AdminDashboard.form_status (AdminDashboard.formData st).
Proof.
  cbv zeta. unfold AdminDashboard.toggleApi. simpl.
  split; [|split; [|reflexivity]];
    apply (toggle_flips api (AdminDashboard.form_allowed_apis (AdminDashboard.formData st))).
Qed.

Lemma includes_occurs (s pat : string) :
  pat <> "" -> Upload.str_includes s pat = true <-> occurs pat s.
Proof.
  intros Hpat. unfold Upload.str_includes.
  now rewrite negb_true_iff, indexOf_occurs.
Qed.

Lemma not_mentioned (s pat : string) :
  pat <> "" -> Upload.str_includes s pat = false -> ~ occurs pat s.
Proof.
  intros Hpat E H. apply (includes_occurs s pat Hpat) in H. congruence.
Qed.

Lemma shown_error_normal (fallback : string) (err : JsError) :
  fallback <> "" -> Upload.str_includes fallback "Access Expired" = false ->
  Upload.shown_error fallback err <> "" /\
  (occurs "Access Expired" (Upload.shown_error fallback err) ->
   Upload.shown_error fallback err = Upload.ACCESS_EXPIRED) /\
  (occurs "Access Expired" (err_message err) ->
   Upload.shown_error fallback err = Upload.ACCESS_EXPIRED).
Proof.
  intros Hf Hfn. unfold Upload.shown_error.
  destruct (Upload.str_includes (err_message err) "Access Expired") eqn:E.
  - split; [discriminate|]. now split.
  - pose proof (not_mentioned (err_message err) "Access Expired" ltac:(discriminate) E)
      as Hno.
    destruct (String.eqb_spec (err_message err) "") as [Em | Em].
    + split; [exact Hf|]. split; [|contradiction].
      intros H.
      now destruct (not_mentioned fallback "Access Expired" ltac:(discriminate) Hfn).
    + split; [exact Em|]. split; contradiction.
Qed.

(** X28: the Master-Schedule submit asks for a file first and for a
    subject and a body next, and sends nothing while one is missing; it
    reaches the network at most once; and the error it shows is never
    blank, the fixed "Access Expired" text standing in for any server
    message that mentions an expired access. *)
Theorem handleSchedule_guards_and_errors
    (token : string) (st : MasterScheduler.State) (w : World) (n : nat) :
  let r := run w n (MasterScheduler.handleSchedule token st) in
  (length r.2 <= 1)%nat /\
  MasterScheduler.error r.1 <> Some "" /\
  (forall m, MasterScheduler.error r.1 = Some m -> occurs "Access Expired" m ->
     m = Upload.ACCESS_EXPIRED) /\
  (MasterScheduler.csvFile st = None ->
     r = (MasterScheduler.setError (Some "Please upload a CSV file.") st, [])) /\
  (MasterScheduler.csvFile st <> None ->
   MasterScheduler.subject st = "" \/ MasterScheduler.body st = "" ->
     r = (MasterScheduler.setError (Some "Please fill in subject and body.") st, [])) /\
  (r.2 <> [] -> MasterScheduler.loading r.1 = false).
Proof.
  cbv zeta. unfold MasterScheduler.handleSchedule.
  assert (forall m : string, Upload.str_includes m "Access Expired" = false -> m <> "" ->
            forall s : MasterScheduler.State,
            (0 <= 1)%nat /\
            MasterScheduler.error (MasterScheduler.setError (Some m) s) <> Some "" /\
            (forall m', MasterScheduler.error (MasterScheduler.setError (Some m) s) = Some m' ->
               occurs "Access Expired" m' -> m' = Upload.ACCESS_EXPIRED)) as Hfixed.
  { intros m Hm Hne s. split; [lia|]. split; [simpl; congruence|].
    intros m' [= <-] H.
    now destruct (not_mentioned m "Access Expired" ltac:(discriminate) Hm). }
  destruct (MasterScheduler.csvFile st) as [file|] eqn:Ef.
  - destruct ((MasterScheduler.subject st =? "")%string ||
              (MasterScheduler.body st =? "")%string)%bool eqn:Et.
    + destruct (Hfixed "Please fill in subject and body." eq_refl ltac:(discriminate) st)
        as (H1 & H2 & H3).
      simpl. split; [exact H1|]. split; [exact H2|]. split; [exact H3|].
      split; [discriminate|]. split; [reflexivity | contradiction].
    + apply orb_false_iff in Et as [Es Eb]. apply String.eqb_neq in Es, Eb.
      destruct (fileToBase64 file) as [b64 | e].
      * rewrite run_call. cbn [fst snd].
        destruct (run_result _) as [data | err]; simpl.
        -- split; [lia|]. split; [discriminate|]. split; [discriminate|].
           split; [discriminate|]. split; [intros _ [E | E]; contradiction | reflexivity].
        -- destruct (shown_error_normal "Scheduling failed" err
                       ltac:(discriminate) eq_refl) as (Hn & Hm & _).
           split; [lia|]. split; [congruence|]. split; [now intros m [= <-]|].
           split; [discriminate|]. split; [intros _ [E | E]; contradiction | reflexivity].
      * simpl. split; [lia|]. split; [discriminate|]. split; [discriminate|].
        split; [discriminate|]. split; [intros _ [E | E]; contradiction | contradiction].
  - destruct (Hfixed "Please upload a CSV file." eq_refl ltac:(discriminate) st)
      as (H1 & H2 & H3).
    simpl. split; [exact H1|]. split; [exact H2|]. split; [exact H3|].
    split; [reflexivity|]. split; [contradiction | contradiction].
Qed.

(** X29: what the Extract panel offers for download can be read back: for
    a result text without a comma (base64 has none) the link's data URL,
    read the way the panels read an uploaded file, gives the result text
    again; without a result there is no link. *)
Theorem downloadResult_reads_back (st : ExtractEmails.State) :
  (truthy (ExtractEmails.resultBase64 st) = false -> ExtractEmails.downloadResult st = None) /\
  (forall b, ExtractEmails.resultBase64 st = Some (JStr b) -> b <> "" -> ~ occurs "," b ->
     exists href, ExtractEmails.downloadResult st = Some href /\
       fileToBase64 (mkFile (Resolved href)) = Resolved (Some (JStr b))).
Proof.
  unfold ExtractEmails.downloadResult. split.
  - intros ->. reflexivity.
  - intros b Hb Hne Hno. rewrite Hb. simpl.
    apply String.eqb_neq in Hne. rewrite Hne. simpl.
    eexists. split; [reflexivity|].
    apply (fileToBase64_after_comma _ "data:text/csv;base64" b); [reflexivity | | exact Hno].
    now apply no_char_in.
Qed.

End ConsoleFacts.
